(** * go-dsmrp1: the DSMR P1 telegram decoder

    A shallow embedding of [dsmrp1.go] (framing, checksum, line splitting,
    reflective field decoding, unit normalisation, the reader goroutine of
    [NewMeter]) together with the properties of the decoder that the
    design document states.

    Conventions.
    - A Go [string] and a Go [[]byte] are both sequences of bytes; both are
      embedded as [string] (a sequence of [ascii], i.e. of bytes), so the
      conversions [string(b)] and [[]byte(s)] are the identity.
    - A Go [error] is embedded as its message.
    - A Go [map[string][]string] is a [gmap string (list string)]; the map
      is a reference in Go, so functions that mutate it return the new map.
    - A run-time panic is an explicit outcome, [Panics]. *)

From Stdlib Require Import ZArith Ascii String List Lia.
From Stdlib Require Floats.SpecFloat.
From stdpp Require Import base option list strings gmap fin_maps.

Local Open Scope string_scope.
Local Open Scope list_scope.

(** ** Outcomes of Go code that may panic *)

Inductive outcome (A : Type) : Type :=
| Returns (a : A)
| Panics (msg : string).
Arguments Returns {A} a.
Arguments Panics {A} msg.

#[global] Instance outcome_ret : MRet outcome := fun _ a => Returns a.
#[global] Instance outcome_bind : MBind outcome := fun _ _ k o =>
  match o with
  | Returns a => k a
  | Panics msg => Panics msg
  end.

(** ** The [strings] and [bytes] helpers the decoder calls *)

Module GoStrings.

(** [strings.HasPrefix(s, prefix)] (and [bytes.HasPrefix]). *)
Fixpoint HasPrefix (s prefix : string) : bool :=
  match prefix, s with
  | EmptyString, _ => true
  | String _ _, EmptyString => false
  | String p prefix', String c s' =>
      if Ascii.eqb c p then HasPrefix s' prefix' else false
  end.

(** [strings.HasSuffix(s, suffix)]:
    [len(s) >= len(suffix) && s[len(s)-len(suffix):] == suffix]. *)
Definition HasSuffix (s suffix : string) : bool :=
  (String.length suffix <=? String.length s)%nat &&
  String.eqb
    (String.substring (String.length s - String.length suffix)
                      (String.length suffix) s)
    suffix.

(** The slice expressions [s[:n]] and [s[n:]], for [0 <= n <= len(s)];
    the callers check the bound (or panic) before using them. *)
Definition slice_to (n : nat) (s : string) : string := String.substring 0 n s.
Definition slice_from (n : nat) (s : string) : string :=
  String.substring n (String.length s - n) s.

(** One pass over [s] for a one-byte separator: the piece before the
    first separator, and the pieces after it. *)
Fixpoint split_pieces (sep : ascii) (s : string) : string * list string :=
  match s with
  | EmptyString => (EmptyString, [])
  | String c s' =>
      let '(hd, tl) := split_pieces sep s' in
      if Ascii.eqb c sep then (EmptyString, hd :: tl) else (String c hd, tl)
  end.

(** [strings.Split(s, sep)] for a one-byte [sep]: all the pieces between
    separators; a string without separator (the empty one too) gives the
    one-element slice [[s]]. *)
Definition Split (s : string) (sep : ascii) : list string :=
  let '(hd, tl) := split_pieces sep s in hd :: tl.

(** The first occurrence of [sep] cuts [s] in two. *)
Fixpoint cut (sep : ascii) (s : string) : option (string * string) :=
  match s with
  | EmptyString => None
  | String c s' =>
      if Ascii.eqb c sep then Some (EmptyString, s')
      else match cut sep s' with
           | Some (a, b) => Some (String c a, b)
           | None => None
           end
  end.

(** [strings.SplitN(s, sep, n)] for a one-byte [sep] and [n >= 0]: at most
    [n] pieces, the last one being the unsplit remainder; [n = 0] gives
    the nil slice. *)
Fixpoint SplitN (s : string) (sep : ascii) (n : nat) : list string :=
  match n with
  | O => []
  | S O => [s]
  | S n' =>
      match cut sep s with
      | None => [s]
      | Some (a, b) => a :: SplitN b sep n'
      end
  end.

End GoStrings.
Import GoStrings.

(** ** IEEE 754 binary32, the Go type [float32] *)

Module Float32.
Import SpecFloat.

Definition prec : Z := 24.
Definition emax : Z := 128.

Definition float32 : Type := spec_float.

(** The zero value of [float32]. *)
Definition zero : float32 := S754_zero false.

(** [x * y] on [float32]: round to nearest, ties to even. *)
Definition mul (x y : float32) : float32 := SFmul prec emax x y.

(** [x / y] on [float32]. *)
Definition div (x y : float32) : float32 := SFdiv prec emax x y.

(** An integer constant converted to [float32]. *)
Definition of_Z (z : Z) : float32 := binary_normalize prec emax z 0 false.

(** The [float32] nearest to the decimal [digits / 10^scale]: the exact
    quotient of the two integers, rounded once. *)
Definition of_decimal (digits : Z) (scale : nat) : float32 :=
  let den := S754_finite false (Z.to_pos (10 ^ Z.of_nat scale)) 0 in
  match digits with
  | Z0 => S754_zero false
  | Zpos m => SFdiv prec emax (S754_finite false m 0) den
  | Zneg m => SFdiv prec emax (S754_finite true m 0) den
  end.

End Float32.
Abbreviation float32 := Float32.float32.

(** ** Fixed-width integers *)

(** [uint16(z)]. *)
Definition uint16 (z : Z) : Z := (z mod 65536)%Z.

(** [int32(z)], two's complement wrap-around. *)
Definition int32 (z : Z) : Z := ((z + 2147483648) mod 4294967296 - 2147483648)%Z.

(** ** The packages the decoder imports

    [strconv], the Unicode-aware [TrimSpace] of [strings]/[bytes] and
    [github.com/howeyc/crc16] are not part of the repository.  The decoder
    is verified against their interface; results are [inl value] when the
    Go function returns a nil error and [inr message] otherwise. *)

Class GoLibraries : Type := {
  (** [strings.TrimSpace(s)] and [bytes.TrimSpace(b)] *)
  TrimSpace : string -> string;
  (** [crc16.Update(crc, crc16.IBMTable, p)] *)
  crc16_Update_IBMTable : Z -> string -> Z;
  (** [strconv.ParseInt(s, base, bitSize)] *)
  ParseInt : string -> Z -> Z -> Z + string;
  (** [strconv.Atoi(s)] *)
  Atoi : string -> Z + string;
  (** [strconv.ParseFloat(s, 32)] followed by the conversion
      [float32(amount)], which is exact for bit size 32 *)
  ParseFloat32 : string -> float32 + string;
}.

(** ** Data model: Go types and values as [reflect] sees them *)

Set Warnings "-register-all".

(** The types that occur in the decoder's structs.  [Tariff] is a named
    type whose underlying type is [int32]. *)
Inductive type : Type :=
| TString
| TInt32
| TFloat32
| TMap
| TPtr (elem : type)
| TStruct (fields : list StructField)
with StructField : Type :=
| Field (Name : string) (Type_ : type) (Tag : list (string * string)).

Definition Name (f : StructField) : string := let 'Field n _ _ := f in n.
Definition Type_ (f : StructField) : type := let 'Field _ t _ := f in t.
Definition Tag (f : StructField) : list (string * string) :=
  let 'Field _ _ tg := f in tg.

(** [reflect.Kind] *)
Inductive Kind : Type := KString | KInt32 | KFloat32 | KMap | KPtr | KStruct.

#[global] Instance Kind_eq_dec : EqDecision Kind.
Proof. solve_decision. Defined.

Definition KindOf (t : type) : Kind :=
  match t with
  | TString => KString
  | TInt32 => KInt32
  | TFloat32 => KFloat32
  | TMap => KMap
  | TPtr _ => KPtr
  | TStruct _ => KStruct
  end.

Definition isPtr (t : type) : bool :=
  match t with TPtr _ => true | _ => false end.

(** [t.Elem()] of a pointer type; the decoder calls it on pointers only. *)
Definition Elem (t : type) : type :=
  match t with TPtr e => e | _ => t end.

(** [StructTag.Lookup(key)] *)
Fixpoint Tag_Lookup (tag : list (string * string)) (key : string) : option string :=
  match tag with
  | [] => None
  | (k, v) :: tag' => if String.eqb k key then Some v else Tag_Lookup tag' key
  end.

(** Values.  A nil pointer is [VPtr None]; [VPtr (Some v)] points to a cell
    that holds [v].  The cells the decoder allocates are reachable through
    one field only, so no store is needed.  A nil map is [VMap None]. *)
Inductive value : Type :=
| VString (s : string)
| VInt32 (n : Z)
| VFloat32 (f : float32)
| VMap (m : option (gmap string (list string)))
| VPtr (p : option value)
| VStruct (fs : list value).

(** The zero value of a type ([var x T], [reflect.New(T)]). *)
Fixpoint zero (t : type) : value :=
  match t with
  | TString => VString ""
  | TInt32 => VInt32 0
  | TFloat32 => VFloat32 Float32.zero
  | TMap => VMap None
  | TPtr _ => VPtr None
  | TStruct fields =>
      VStruct ((fix zeros (l : list StructField) : list value :=
                  match l with
                  | [] => []
                  | Field _ t' _ :: l' => zero t' :: zeros l'
                  end) fields)
  end.

(** Equality of types, as [reflect] decides assignability between the
    types of this program. *)
Fixpoint type_eqb (a b : type) : bool :=
  match a, b with
  | TString, TString | TInt32, TInt32 | TFloat32, TFloat32 | TMap, TMap => true
  | TPtr a', TPtr b' => type_eqb a' b'
  | TStruct fa, TStruct fb =>
      (fix fields_eqb (la lb : list StructField) : bool :=
         match la, lb with
         | [], [] => true
         | Field na ta ga :: la', Field nb tb gb :: lb' =>
             String.eqb na nb && type_eqb ta tb &&
             bool_decide (ga = gb) && fields_eqb la' lb'
         | _, _ => false
         end) fa fb
  | _, _ => false
  end.

(** *** The structs of the package *)

Definition tag (obis typ : string) : list (string * string) :=
  [("obis", obis); ("type", typ)].

Definition ElectricityData : type := TStruct [
  Field "KWh" TFloat32 (tag "1-0:1.8.2" "unit");
  Field "KWhLow" TFloat32 (tag "1-0:1.8.1" "unit");
  Field "KWhOut" TFloat32 (tag "1-0:2.8.2" "unit");
  Field "KWhOutLow" TFloat32 (tag "1-0:2.8.1" "unit");
  Field "Tariff" TInt32 (tag "0-0:96.14.0" "int");
  Field "W" TFloat32 (tag "1-0:1.7.0" "unit");
  Field "WOut" TFloat32 (tag "1-0:2.7.0" "unit");
  Field "Threshold" (TPtr TFloat32) (tag "0-0:17.0.0" "unit");
  Field "Switch" (TPtr TString) (tag "0-0:96.3.10" "id");
  Field "PowerFailures" TInt32 (tag "0-0:96.7.21" "int");
  Field "LongPowerFailures" TInt32 (tag "0-0:96.7.9" "int");
  Field "PowerFailuresLog" TString (tag "1-0:99.97.0" "log");
  Field "L1VoltageSags" TInt32 (tag "1-0:32.32.0" "int");
  Field "L1VoltageSwells" TInt32 (tag "1-0:32.36.0" "int");
  Field "L1Current" TFloat32 (tag "1-0:31.7.0" "unit");
  Field "L1Voltage" (TPtr TFloat32) (tag "1-0:32.7.0" "unit");
  Field "L1Power" TFloat32 (tag "1-0:21.7.0" "unit");
  Field "L1PowerOut" TFloat32 (tag "1-0:22.7.0" "unit") ].

Definition MultiphaseElectricityData : type := TStruct [
  Field "L2VoltageSags" TInt32 (tag "1-0:52.32.0" "int");
  Field "L2VoltageSwells" TInt32 (tag "1-0:52.36.0" "int");
  Field "L2Current" TFloat32 (tag "1-0:51.7.0" "unit");
  Field "L2Voltage" (TPtr TFloat32) (tag "1-0:52.7.0" "unit");
  Field "L2Power" TFloat32 (tag "1-0:41.7.0" "unit");
  Field "L2PowerOut" TFloat32 (tag "1-0:42.7.0" "unit");
  Field "L3VoltageSags" TInt32 (tag "1-0:72.32.0" "int");
  Field "L3VoltageSwells" TInt32 (tag "1-0:72.36.0" "int");
  Field "L3Current" TFloat32 (tag "1-0:71.7.0" "unit");
  Field "L3Voltage" (TPtr TFloat32) (tag "1-0:72.7.0" "unit");
  Field "L3Power" TFloat32 (tag "1-0:61.7.0" "unit");
  Field "L3PowerOut" TFloat32 (tag "1-0:62.7.0" "unit") ].

Definition GasRecord : type := TStruct [
  Field "TimeStamp" TString [];
  Field "Value" TFloat32 [] ].

Definition GasData : type := TStruct [
  Field "Type" TString (tag "0-1:24.1.0" "id");
  Field "Id" TString (tag "0-1:96.1.0" "id");
  Field "Switch" (TPtr TString) (tag "0-1:24.4.0" "id");
  Field "LastRecord" GasRecord (tag "0-1:24.2.1" "gasrecord") ].

Definition Telegram : type := TStruct [
  Field "HeaderMarker" TString [];
  Field "HeaderId" TString [];
  Field "Electricity" (TPtr ElectricityData) [];
  Field "MultiphaseElectricity" (TPtr MultiphaseElectricityData) [];
  Field "Gas" (TPtr GasData) [];
  Field "P1Version" TString (tag "1-3:0.2.8" "id");
  Field "TimeStamp" TString (tag "0-0:1.0.0" "id");
  Field "ID" TString (tag "0-0:96.1.1" "id");
  Field "MsgNumeric" (TPtr TString) (tag "0-0:96.13.1" "id");
  Field "MsgTxt" (TPtr TString) (tag "0-0:96.13.0" "id");
  Field "Other" TMap [] ].

(** [st.NumField()] and [st.Field(i)] range over this list. *)
Definition fields_of (t : type) : list StructField :=
  match t with TStruct fs => fs | _ => [] end.

(** The position of the field called [name]. *)
Fixpoint field_index (fs : list StructField) (name : string) : option nat :=
  match fs with
  | [] => None
  | f :: fs' =>
      if String.eqb (Name f) name then Some 0
      else S <$> field_index fs' name
  end.

(** [s.name], reading. *)
Definition get_field (t : type) (name : string) (s : value) : option value :=
  match s, field_index (fields_of t) name with
  | VStruct vs, Some i => vs !! i
  | _, _ => None
  end.

(** [s.name = v]. *)
Definition set_field (t : type) (name : string) (v : value) (s : value) : value :=
  match s, field_index (fields_of t) name with
  | VStruct vs, Some i => VStruct (<[i := v]> vs)
  | _, _ => s
  end.

#[global] Arguments field_index : simpl never.
#[global] Arguments get_field : simpl never.
#[global] Arguments set_field : simpl never.

Section Decoder.
Context {golib : GoLibraries}.

(** ** [normalizedUnits] and [parseUnit] *)

(** We normalize units to kWh, W, s, m3, A and V. *)
Definition normalizedUnits : gmap string float32 :=
  <["kWh" := Float32.of_Z 1]> (
  <["kW" := Float32.of_Z 1000]> (
  <["W" := Float32.of_Z 1]> (
  <["s" := Float32.of_Z 1]> (
  <["m3" := Float32.of_Z 1]> (
  <["A" := Float32.of_Z 1]> (
  <["V" := Float32.of_Z 1]> ∅)))))).

(** Parse and normalize OBIS unit value like "123*A". *)
Definition parseUnit (v : string) : float32 * option string :=
  match SplitN v "*" 2 with
  | [amount_s; unit_s] =>
      match ParseFloat32 amount_s with
      | inr err => (Float32.zero, Some ("could not parse amount: " +:+ err))
      | inl amount =>
          match normalizedUnits !! unit_s with
          | None => (Float32.zero, Some ("unknown unit: " +:+ v))
          | Some factor => (Float32.mul amount factor, None)
          end
      end
  | _ => (* len(bits) != 2 *)
      (Float32.zero, Some ("not a unit " +:+ v))
  end.

(** ** [parseLines] *)

(** First loop of [parseLines], "remove superfluous linebreaks": [lines] is
    the slice accumulated so far.  [lines[len(lines)-1] += sRawLine] panics
    when the index is out of range. *)
Fixpoint mergeLines (rawLines : list string) (lines : list string)
  : outcome (list string) :=
  match rawLines with
  | [] => Returns lines
  | sRawLine :: rest =>
      if HasPrefix sRawLine "(" then
        let i := (Z.of_nat (length lines) - 1)%Z in
        if (i <? 0)%Z then Panics "index out of range [-1]"
        else
          match lines !! Z.to_nat i with
          | None => Panics "index out of range"
          | Some l => mergeLines rest (<[Z.to_nat i := l +:+ sRawLine]> lines)
          end
      else mergeLines rest (lines ++ [sRawLine])
  end.

(** The loop over [bits[1:]] of one line. *)
Fixpoint parseArgs (line : string) (bits : list string) (args : list string)
  : list string + string :=
  match bits with
  | [] => inl args
  | arg :: rest =>
      if negb (HasSuffix arg ")") then
        inr ("Malformed argument in line " +:+ line)
      else parseArgs line rest (args ++ [slice_to (String.length arg - 1) arg])
  end.

(** Second loop of [parseLines], "parse each line". *)
Fixpoint parseEach (lines : list string) (ret : gmap string (list string))
  : gmap string (list string) + string :=
  match lines with
  | [] => inl ret
  | line :: rest =>
      match Split line "(" with
      | [] => inl ret (* Split never returns an empty slice *)
      | obis :: bits1 =>
          match parseArgs line bits1 [] with
          | inr err => inr err
          | inl args =>
              match ret !! obis with
              | Some _ => inr ("Multiple occurances of OBIS " +:+ obis)
              | None => parseEach rest (<[obis := args]> ret)
              end
          end
      end
  end.

(** Parse the lines in a telegram: [inl ret] is [(ret, nil)], [inr err] is
    [(nil, err)]. *)
Definition parseLines (rawLines : list string)
  : outcome (gmap string (list string) + string) :=
  lines ← mergeLines rawLines [];
  mret (parseEach lines ∅).

(** ** [fillStruct] *)

Record FillState : Type := mkFill {
  fs_ret : list string;                  (* ret []error *)
  fs_data : gmap string (list string);   (* data, mutated by delete *)
  fs_sv : list value;                    (* the fields of the struct sv *)
}.

(** Writing through [field]: the struct field itself, or, after
    [field = reflect.Indirect(field)], the cell the field points to. *)
Definition store (viaPtr : bool) (i : nat) (v : value) (sv : list value)
  : list value :=
  <[i := if viaPtr then VPtr (Some v) else v]> sv.

(** [field.SetString(x)]: panics unless the kind is String. *)
Definition SetString (ty : type) (viaPtr : bool) (i : nat) (x : string)
  (st : FillState) : outcome FillState :=
  match KindOf ty with
  | KString => Returns (mkFill (fs_ret st) (fs_data st) (store viaPtr i (VString x) (fs_sv st)))
  | _ => Panics "reflect: call of reflect.Value.SetString on non-string Value"
  end.

(** [field.SetInt(x)]: panics unless the kind is an integer kind; an
    [int32] field keeps the low 32 bits. *)
Definition SetInt (ty : type) (viaPtr : bool) (i : nat) (x : Z)
  (st : FillState) : outcome FillState :=
  match KindOf ty with
  | KInt32 => Returns (mkFill (fs_ret st) (fs_data st) (store viaPtr i (VInt32 (int32 x)) (fs_sv st)))
  | _ => Panics "reflect: call of reflect.Value.SetInt on non-int Value"
  end.

(** [field.SetFloat(float64(x))]: panics unless the kind is a float kind;
    widening a [float32] and narrowing it again gives it back. *)
Definition SetFloat (ty : type) (viaPtr : bool) (i : nat) (x : float32)
  (st : FillState) : outcome FillState :=
  match KindOf ty with
  | KFloat32 => Returns (mkFill (fs_ret st) (fs_data st) (store viaPtr i (VFloat32 x) (fs_sv st)))
  | _ => Panics "reflect: call of reflect.Value.SetFloat on non-float Value"
  end.

(** [field.Set(reflect.ValueOf(g))] for [g] of type [GasRecord]: panics
    unless the types agree. *)
Definition SetGasRecord (ty : type) (viaPtr : bool) (i : nat) (g : value)
  (st : FillState) : outcome FillState :=
  if type_eqb ty GasRecord then
    Returns (mkFill (fs_ret st) (fs_data st) (store viaPtr i g (fs_sv st)))
  else Panics "reflect.Set: value of type GasRecord is not assignable".

Definition add_error (msg : string) (st : FillState) : FillState :=
  mkFill (fs_ret st ++ [msg]) (fs_data st) (fs_sv st).

(** The [switch typ] of [fillStruct], for a code that is present with
    arguments [args]; [ty] is the type of the location written to. *)
Definition decodeField (obis typ : string) (args : list string)
  (ty : type) (viaPtr : bool) (i : nat) (st : FillState) : outcome FillState :=
  if String.eqb typ "id" then
    match args with
    | [a0] => SetString ty viaPtr i a0 st
    | _ => Returns (add_error (obis +:+ ": wrong number of arguments") st)
    end
  else if String.eqb typ "int" then
    match args with
    | [a0] =>
        match Atoi a0 with
        | inr err => Returns (add_error (obis +:+ ": could not parse amount: " +:+ err) st)
        | inl n => SetInt ty viaPtr i n st
        end
    | _ => Returns (add_error (obis +:+ ": wrong number of arguments") st)
    end
  else if String.eqb typ "gasrecord" then
    match args with
    | [a0; a1] =>
        match parseUnit a1 with
        | (_, Some err) => Returns (add_error (obis +:+ ": value: " +:+ err) st)
        | (v, None) => SetGasRecord ty viaPtr i (VStruct [VString a0; VFloat32 v]) st
        end
    | _ => Returns (add_error (obis +:+ ": wrong number of arguments") st)
    end
  else if String.eqb typ "unit" then
    match args with
    | [a0] =>
        match parseUnit a0 with
        | (_, Some err) => Returns (add_error (obis +:+ ": " +:+ err) st)
        | (v, None) => SetFloat ty viaPtr i v st
        end
    | _ => Returns (add_error (obis +:+ ": wrong number of arguments") st)
    end
  else Returns st.

(** One iteration of the loop of [fillStruct], for field number [i]. *)
Definition fillField (i : nat) (fieldType : StructField) (st : FillState)
  : outcome FillState :=
  match Tag_Lookup (Tag fieldType) "obis" with
  | None => Returns st
  | Some obis =>
      match fs_data st !! obis with
      | None =>
          (* Create an error for non-optional (i.e. non pointer) fields. *)
          if negb (isPtr (Type_ fieldType)) then
            Returns (add_error ("Missing data for " +:+ obis) st)
          else Returns st
      | Some args =>
          let st := mkFill (fs_ret st) (delete obis (fs_data st)) (fs_sv st) in
          let typ := default "" (Tag_Lookup (Tag fieldType) "type") in
          if isPtr (Type_ fieldType) then
            (* Handle *type as type *)
            let ty := Elem (Type_ fieldType) in
            let st := mkFill (fs_ret st) (fs_data st) (store true i (zero ty) (fs_sv st)) in
            decodeField obis typ args ty true i st
          else
            decodeField obis typ args (Type_ fieldType) false i st
      end
  end.

Fixpoint fillFields (fs : list StructField) (i : nat) (st : FillState)
  : outcome FillState :=
  match fs with
  | [] => Returns st
  | fieldType :: fs' =>
      st' ← fillField i fieldType st;
      fillFields fs' (S i) st'
  end.

(** Fills the given struct (annotated by "obis" and "type" tags) with the
    values from the telegram.  [s] is the struct [*s] of type [t]; the
    result is the error slice, the filled struct and the map after the
    deletions. *)
Definition fillStruct (t : type) (s : value) (data : gmap string (list string))
  : outcome (list string * value * gmap string (list string)) :=
  match t, s with
  | TStruct fs, VStruct sv =>
      st ← fillFields fs 0 (mkFill [] data sv);
      mret (fs_ret st, VStruct (fs_sv st), fs_data st)
  | _, _ => Panics "reflect: NumField of non-struct type"
  end.

(** ** [crc] *)

Definition crc (data : string) : Z :=
  Z.lxor (uint16 (crc16_Update_IBMTable 65535 data)) 65535.

(** ** The byte source

    [m.r] is a [bufio.Reader].  A reader is the sequence of results that
    its successive [ReadBytes] calls give: the bytes read and the
    error, if any.  Once the sequence is used up the source is at its end:
    every further call gives no bytes and [io.EOF]. *)

Definition Reader : Type := list (string * option string).

Definition ReadBytes (r : Reader) : string * option string * Reader :=
  match r with
  | [] => ("", Some "EOF", [])
  | (line, err) :: r' => (line, err, r')
  end.

(** ** [readTelegram] *)

(** The pair of a [*Telegram] and a [[]error] that [readTelegram]
    returns: [None] is the nil pointer, resp. the nil slice. *)
Definition Result : Type := option value * option (list string).

(** The loop "wait for header".  [None]: the loop is still running when
    the fuel is used up. *)
Fixpoint waitHeader (fuel : nat) (r : Reader)
  : option ((string + string) * Reader) :=
  match fuel with
  | O => None
  | S fuel' =>
      let '(line, err, r) := ReadBytes r in
      match err with
      | Some e => Some (inr e, r)
      | None =>
          if negb (HasPrefix line "/") then waitHeader fuel' r (* Skipping line *)
          else Some (inl line, r)
      end
  end.

(** The loop "read data"; the error of [ReadBytes] is assigned and not
    looked at.  The result is [checkSumBody], [rawLines], [checkSumLine]. *)
Fixpoint readData (fuel : nat) (r : Reader) (checkSumBody : string)
  (rawLines : list string) : option (string * list string * string * Reader) :=
  match fuel with
  | O => None
  | S fuel' =>
      let '(line, _, r) := ReadBytes r in
      if HasPrefix line "!" then Some (checkSumBody, rawLines, line, r)
      else readData fuel' r (checkSumBody +:+ line) (rawLines ++ [TrimSpace line])
  end.

(** One conditional block of [readTelegram]: when [marker] is present in
    [data], a fresh struct of type [t] is filled and [ret.name] is set to
    point to it. *)
Definition fillBlock (marker : string) (t : type) (name : string)
  (acc : list string * value * gmap string (list string))
  : outcome (list string * value * gmap string (list string)) :=
  let '(errs, ret, data) := acc in
  match data !! marker with
  | Some _ =>
      '(errs', e, data') ← fillStruct t (zero t) data;
      mret (errs ++ errs', set_field Telegram name (VPtr (Some e)) ret, data')
  | None => mret acc
  end.

(** The part of [readTelegram] after [parseLines]. *)
Definition decodeTelegram (ret : value) (data : gmap string (list string))
  : outcome Result :=
  '(errs', ret, data) ← fillStruct Telegram ret data;
  acc ← fillBlock "1-0:1.8.1" ElectricityData "Electricity" ([] ++ errs', ret, data);
  acc ← fillBlock "1-0:41.7.0" MultiphaseElectricityData "MultiphaseElectricity" acc;
  '(errs, ret, data) ← fillBlock "0-1:24.2.1" GasData "Gas" acc;
  let ret := set_field Telegram "Other" (VMap (Some data)) ret in
  mret (Some ret, if (length errs =? 0)%nat then None else Some errs).

(** The part of [readTelegram] after the framing loops: "Check CRC",
    "parse the lines" and the decoding. *)
Definition checkAndDecode (ret : value) (checkSumBody : string)
  (rawLines : list string) (checkSumLine : string) : outcome Result :=
  let crc1 := crc (checkSumBody +:+ "!") in
  match ParseInt (TrimSpace (slice_from 1 checkSumLine)) 16 32 with
  | inr err => mret (None, Some ["Could not parse checksum: " +:+ err])
  | inl crc2 =>
      if negb (crc1 =? crc2)%Z then mret (None, Some ["CRC mismatch"])
      else
        parsed ← parseLines rawLines;
        match parsed with
        | inr err => mret (None, Some [err])
        | inl data => decodeTelegram ret data
        end
  end.

(** [ReadBytes] returns a slice it has just made, so that its capacity is
    its length: [line[:6]] panics when [len(line) < 6]. *)
Definition readTelegram (fuel : nat) (r : Reader)
  : option (outcome (Result * Reader)) :=
  let ret := zero Telegram in
  (* wait for header *)
  match waitHeader fuel r with
  | None => None
  | Some (inr err, r) => Some (Returns (None, Some [err], r))
  | Some (inl line, r) =>
      (* parse header *)
      let checkSumBody := line in
      if (String.length line <? 5)%nat then
        Some (Returns (None, Some ["Header line too short"], r))
      else if (String.length line <? 6)%nat then
        Some (Panics "slice bounds out of range [:6]")
      else
        let ret := set_field Telegram "HeaderMarker" (VString (slice_to 6 line)) ret in
        let ret := set_field Telegram "HeaderId"
                     (VString (TrimSpace (slice_from 6 line))) ret in
        let '(line, err, r) := ReadBytes r in
        match err with
        | Some e => Some (Returns (None, Some [e], r))
        | None =>
            if negb (String.eqb (TrimSpace line) "") then
              Some (Returns (None, Some ["Line after header is not blank"], r))
            else
              let checkSumBody := checkSumBody +:+ line in
              (* read data *)
              match readData fuel r checkSumBody [] with
              | None => None
              | Some (checkSumBody, rawLines, checkSumLine, r) =>
                  Some (res ← checkAndDecode ret checkSumBody rawLines checkSumLine;
                        mret (res, r))
              end
        end
  end.

(** ** The goroutine of [NewMeter] *)

(** What one iteration does with the outside world: [log.Printf] or a
    send on [m.C]. *)
Inductive event : Type :=
| Log (err2 : list string)
| Send (t : option value).

(** The body of [for m.running { ... }]. *)
Definition meterIteration (fuel : nat) (r : Reader)
  : option (outcome (event * Reader)) :=
  match readTelegram fuel r with
  | None => None
  | Some (Panics msg) => Some (Panics msg)
  | Some (Returns (t, err2, r)) =>
      match err2 with
      | Some errs => Some (Returns (Log errs, r))   (* err2 != nil: continue *)
      | None => Some (Returns (Send t, r))          (* m.C <- t *)
      end
  end.

(** [n] iterations of the loop, [m.running] staying true. *)
Fixpoint meterLoop (n fuel : nat) (r : Reader)
  : option (outcome (list event * Reader)) :=
  match n with
  | O => Some (Returns ([], r))
  | S n' =>
      match meterIteration fuel r with
      | None => None
      | Some (Panics msg) => Some (Panics msg)
      | Some (Returns (ev, r)) =>
          match meterLoop n' fuel r with
          | None => None
          | Some (Panics msg) => Some (Panics msg)
          | Some (Returns (evs, r)) => Some (Returns (ev :: evs, r))
          end
      end
  end.

End Decoder.

(** ** A reference implementation of the imported functions

    Used to run the decoder on concrete telegrams.  It follows the Go
    packages on the inputs meters send: ASCII text, integers with an
    optional sign, plain decimal amounts; error texts are abbreviated.  The
    checksum is the table-driven CRC-16 of the [crc16] package for the
    reflected polynomial 0xA001, whose [Update] complements the register
    on entry and on exit. *)

Module Reference.

Definition LF : string := String (ascii_of_nat 10) "".
Definition CRLF : string := String (ascii_of_nat 13) LF.

Definition isSpace (c : ascii) : bool :=
  let n := nat_of_ascii c in
  ((9 <=? n) && (n <=? 13) || (n =? 32))%nat.

Fixpoint trimLeft (s : string) : string :=
  match s with
  | EmptyString => EmptyString
  | String c s' => if isSpace c then trimLeft s' else s
  end.

Fixpoint trimRight (s : string) : string :=
  match s with
  | EmptyString => EmptyString
  | String c s' =>
      match trimRight s' with
      | EmptyString => if isSpace c then EmptyString else String c EmptyString
      | t => String c t
      end
  end.

Definition TrimSpace (s : string) : string := trimRight (trimLeft s).

Definition IBM : Z := 40961. (* 0xA001 *)

Definition makeTable_step (poly crc : Z) : Z :=
  if (Z.land crc 1 =? 1)%Z then Z.lxor (Z.shiftr crc 1) poly else Z.shiftr crc 1.

Definition makeTable_entry (poly i : Z) : Z :=
  Nat.iter 8 (makeTable_step poly) i.

Definition update_byte (poly crc : Z) (v : ascii) : Z :=
  Z.lxor (makeTable_entry poly (Z.lxor (Z.land crc 255) (Z.of_nat (nat_of_ascii v))))
         (Z.shiftr crc 8).

Definition Update (crc : Z) (p : string) : Z :=
  let crc := Z.lxor crc 65535 in
  let crc := fold_left (update_byte IBM) (list_ascii_of_string p) crc in
  Z.lxor crc 65535.

Definition digit_value (c : ascii) : option Z :=
  let n := Z.of_nat (nat_of_ascii c) in
  if ((48 <=? n) && (n <=? 57))%Z then Some (n - 48)%Z
  else if ((97 <=? n) && (n <=? 122))%Z then Some (n - 97 + 10)%Z
  else if ((65 <=? n) && (n <=? 90))%Z then Some (n - 65 + 10)%Z
  else None.

Fixpoint parseDigits (base : Z) (s : string) (acc : Z) : option Z :=
  match s with
  | EmptyString => Some acc
  | String c s' =>
      match digit_value c with
      | Some d => if (d <? base)%Z then parseDigits base s' (acc * base + d)%Z else None
      | None => None
      end
  end.

Definition splitSign (s : string) : bool * string :=
  match s with
  | String "+" s' => (false, s')
  | String "-" s' => (true, s')
  | _ => (false, s)
  end.

Definition ParseInt (s : string) (base bitSize : Z) : Z + string :=
  let '(neg, digits) := splitSign s in
  match digits with
  | EmptyString => inr "invalid syntax"
  | _ =>
      match parseDigits base digits 0 with
      | None => inr "invalid syntax"
      | Some un =>
          let cutoff := (2 ^ (bitSize - 1))%Z in
          if negb neg && (cutoff <=? un)%Z then inr "value out of range"
          else if neg && (cutoff <? un)%Z then inr "value out of range"
          else inl (if neg then (- un)%Z else un)
      end
  end.

Definition Atoi (s : string) : Z + string := ParseInt s 10 64.

(** A plain decimal [digits[.digits]] with an optional sign, rounded to
    the nearest [float32]. *)
Definition ParseFloat32 (s : string) : float32 + string :=
  let '(neg, body) := splitSign s in
  let '(int_part, frac_part) :=
    match cut "." body with
    | Some (a, b) => (a, b)
    | None => (body, EmptyString)
    end in
  match int_part +:+ frac_part with
  | EmptyString => inr "invalid syntax"
  | digits =>
      match parseDigits 10 digits 0 with
      | None => inr "invalid syntax"
      | Some Z0 => inl (SpecFloat.S754_zero neg)
      | Some (Zpos m) =>
          let q := Float32.of_decimal (if neg then Zneg m else Zpos m)
                     (String.length frac_part) in
          match q with
          | SpecFloat.S754_finite _ _ _ => inl q
          | _ => inr "value out of range"
          end
      | Some (Zneg _) => inr "invalid syntax"
      end
  end.

#[export] Instance lib : GoLibraries := {
  TrimSpace := TrimSpace;
  crc16_Update_IBMTable := Update;
  ParseInt := ParseInt;
  Atoi := Atoi;
  ParseFloat32 := ParseFloat32;
}.

End Reference.


(** ** Vocabulary of the design document *)

(** The code of a data line: what precedes its first '('. *)
Definition codeOf (line : string) : string := (split_pieces "(" line).1.

(** Every argument of the line is closed by ')'. *)
Definition wellFormedLine (line : string) : bool :=
  forallb (fun arg => HasSuffix arg ")") (split_pieces "(" line).2.




(** The first raw line, if there is one, is not a continuation line. *)
Definition startsWithCode (rawLines : list string) : Prop :=
  match rawLines with
  | [] => True
  | l :: _ => HasPrefix l "(" = false
  end.

(** The tags of a field agree with its type: the setter that the
    [switch] of [fillStruct] picks for the "type" tag fits the kind of the
    location it writes to. *)
Definition wellTaggedField (f : StructField) : bool :=
  match Tag_Lookup (Tag f) "obis" with
  | None => true
  | Some _ =>
      let ty := if isPtr (Type_ f) then Elem (Type_ f) else Type_ f in
      let typ := default "" (Tag_Lookup (Tag f) "type") in
      if String.eqb typ "id" then bool_decide (KindOf ty = KString)
      else if String.eqb typ "int" then bool_decide (KindOf ty = KInt32)
      else if String.eqb typ "gasrecord" then type_eqb ty GasRecord
      else if String.eqb typ "unit" then bool_decide (KindOf ty = KFloat32)
      else true
  end.

(** The codes that the registry of a struct claims. *)
Definition obisCodes (fs : list StructField) : list string :=
  omap (fun f => Tag_Lookup (Tag f) "obis") fs.

(** The zero values of the fields of a struct. *)
Definition zeros (fs : list StructField) : list value :=
  (fun f => zero (Type_ f)) <$> fs.

Section Vocabulary.
Context {golib : GoLibraries}.

(** The field-level error, if any, that the arguments of a present code
    raise for a decode kind: wrong argument count, unparsable integer,
    unparsable quantity or unknown unit. *)
Definition validationError (obis typ : string) (args : list string) : option string :=
  if String.eqb typ "id" then
    if bool_decide (length args = 1%nat) then None
    else Some (obis +:+ ": wrong number of arguments")
  else if String.eqb typ "int" then
    match args with
    | [a0] =>
        match Atoi a0 with
        | inr err => Some (obis +:+ ": could not parse amount: " +:+ err)
        | inl _ => None
        end
    | _ => Some (obis +:+ ": wrong number of arguments")
    end
  else if String.eqb typ "gasrecord" then
    match args with
    | [_; a1] =>
        match parseUnit a1 with
        | (_, Some err) => Some (obis +:+ ": value: " +:+ err)
        | (_, None) => None
        end
    | _ => Some (obis +:+ ": wrong number of arguments")
    end
  else if String.eqb typ "unit" then
    match args with
    | [a0] =>
        match parseUnit a0 with
        | (_, Some err) => Some (obis +:+ ": " +:+ err)
        | (_, None) => None
        end
    | _ => Some (obis +:+ ": wrong number of arguments")
    end
  else None.

End Vocabulary.

(** [claimed data c]: the code [c] is claimed by an entry of a registry
    that [readTelegram] applies to the mapping [data]: the registry of
    [Telegram] always, those of the three blocks when their marker code is
    in [data]. *)
Definition claimed (data : gmap string (list string)) (c : string) : bool :=
  bool_decide (c ∈ obisCodes (fields_of Telegram))
  || bool_decide (is_Some (data !! "1-0:1.8.1"))
     && bool_decide (c ∈ obisCodes (fields_of ElectricityData))
  || bool_decide (is_Some (data !! "1-0:41.7.0"))
     && bool_decide (c ∈ obisCodes (fields_of MultiphaseElectricityData))
  || bool_decide (is_Some (data !! "0-1:24.2.1"))
     && bool_decide (c ∈ obisCodes (fields_of GasData)).

Section ChecksumVocabulary.
Context {golib : GoLibraries}.

(** The footer line, after its marker byte, is the hexadecimal writing of
    the checksum of the body followed by '!'. *)
Definition checksumMatches (checkSumBody checkSumLine : string) : Prop :=
  ParseInt (TrimSpace (slice_from 1 checkSumLine)) 16 32
  = inl (crc (checkSumBody +:+ "!")).

End ChecksumVocabulary.

Section UnitVocabulary.
Context {golib : GoLibraries}.

(** The conversion table of the design document. *)
Definition unitFactor (unit_s : string) : option float32 :=
  if String.eqb unit_s "kWh" then Some (Float32.of_Z 1)
  else if String.eqb unit_s "kW" then Some (Float32.of_Z 1000)
  else if String.eqb unit_s "W" then Some (Float32.of_Z 1)
  else if String.eqb unit_s "s" then Some (Float32.of_Z 1)
  else if String.eqb unit_s "m3" then Some (Float32.of_Z 1)
  else if String.eqb unit_s "A" then Some (Float32.of_Z 1)
  else if String.eqb unit_s "V" then Some (Float32.of_Z 1)
  else None.

(** Unit normalisation as the design document words it: split the token
    on the first '*', two parts required; parse the amount; look the
    unit up; multiply. *)
Definition normalizeQuantity (token : string) : float32 + string :=
  match cut "*" token with
  | None => inr ("not a unit " +:+ token)
  | Some (amount_s, unit_s) =>
      match ParseFloat32 amount_s with
      | inr err => inr ("could not parse amount: " +:+ err)
      | inl amount =>
          match unitFactor unit_s with
          | None => inr ("unknown unit: " +:+ token)
          | Some factor => inl (Float32.mul amount factor)
          end
      end
  end.

End UnitVocabulary.

(** What an entry may change: the errors grow at the end, the mapping is
    untouched by the decoding proper, and only slot [i] of the struct is
    written. *)
Definition extends (i : nat) (st st' : FillState) : Prop :=
  (exists more, fs_ret st' = fs_ret st ++ more) /\
  fs_data st' = fs_data st /\
  length (fs_sv st') = length (fs_sv st) /\
  (forall j, j <> i -> fs_sv st' !! j = fs_sv st !! j).

(** ** Sample inputs *)

Definition sample_rawLines : list string :=
  ["1-0:99.97.0(2)(0-0:96.7.19)"; "(101208152415W)(0000000240*s)"; "0-0:1.0.0(x)"].




(** The registry of [ElectricityData], cut at its optional field
    [Threshold]. *)
Definition electricity_pre : list StructField := take 7 (fields_of ElectricityData).
Definition electricity_Threshold : StructField :=
  Field "Threshold" (TPtr TFloat32) (tag "0-0:17.0.0" "unit").
Definition electricity_post : list StructField := drop 8 (fields_of ElectricityData).

(** A mapping in which the threshold has no unit. *)
Definition bad_threshold_data : gmap string (list string) :=
  {[ "0-0:17.0.0" := ["abc"] ]}.

(** Telegrams as the reader delivers them, line by line. *)
Definition sample_header : string := "/ISk5\2MT382-1000" +:+ Reference.CRLF.
Definition line_P1Version : string := "1-3:0.2.8(50)" +:+ Reference.CRLF.
Definition line_TimeStamp : string := "0-0:1.0.0(170108161107W)" +:+ Reference.CRLF.
Definition line_ID : string := "0-0:96.1.1(4B384547)" +:+ Reference.CRLF.

(** Framed, checksum-valid, all required codes present. *)
Definition clean_telegram : Reader :=
  [ (sample_header, None); (Reference.CRLF, None);
    (line_P1Version, None); (line_TimeStamp, None); (line_ID, None);
    ("!E782" +:+ Reference.CRLF, None) ].

(** Framed, checksum-valid, the version and the timestamp missing. *)
Definition incomplete_telegram : Reader :=
  [ (sample_header, None); (Reference.CRLF, None);
    (line_ID, None);
    ("!C6E3" +:+ Reference.CRLF, None) ].

(** A header line of five bytes. *)
Definition five_byte_header : string := "/ABC" +:+ Reference.LF.

(** The source ends after the separator line. *)
Definition truncated_telegram : Reader :=
  [ (sample_header, None); (Reference.CRLF, None) ].

(** A read fails in the middle of a data line; the source then goes on. *)
Definition interrupted_telegram : Reader :=
  [ (sample_header, None); (Reference.CRLF, None);
    (line_P1Version, None); (line_TimeStamp, None); (line_ID, None);
    ("0-0:9", Some "read /dev/P1: input/output error");
    ("!A81C" +:+ Reference.CRLF, None) ].

(** The data of [clean_telegram] as [readData] hands it over. *)
Definition clean_body : string :=
  sample_header +:+ Reference.CRLF +:+ line_P1Version +:+ line_TimeStamp +:+ line_ID.
Definition clean_rawLines : list string :=
  ["1-3:0.2.8(50)"; "0-0:1.0.0(170108161107W)"; "0-0:96.1.1(4B384547)"].
Definition clean_footer : string := "!E782" +:+ Reference.CRLF.

(** A mapping with a claimed and an unclaimed code. *)
Definition residual_data : gmap string (list string) :=
  <["0-0:96.1.1" := ["4B384547"]]> {[ "0-2:24.1.0" := ["003"] ]}.

(** Two telegrams in a row: the incomplete one, then the clean one. *)
Definition two_telegrams : Reader := incomplete_telegram ++ clean_telegram.

(** ** Further vocabulary *)

(** The arguments of a data line: its pieces after the code, each without
    its last byte. *)
Definition lineArgs (line : string) : list string :=
  map (fun arg => slice_to (String.length arg - 1) arg) (split_pieces "(" line).2.

(** The byte [sep] occurs in [s]. *)
Fixpoint occurs (sep : ascii) (s : string) : bool :=
  match s with
  | EmptyString => false
  | String c s' => Ascii.eqb c sep || occurs sep s'
  end.

(** The arguments of a data line as the meter writes them. *)
Fixpoint formatArgs (args : list string) : string :=
  match args with
  | [] => ""
  | a :: args' => "(" +:+ a +:+ ")" +:+ formatArgs args'
  end.

(** A data line as the meter writes it: the code, then each argument
    between parentheses. *)
Definition formatLine (entry : string * list string) : string :=
  entry.1 +:+ formatArgs entry.2.

(** What can be written and read back: a code that is not empty and has
    no '(', arguments without '('. *)
Definition writable (entry : string * list string) : bool :=
  negb (String.eqb entry.1 "") && negb (occurs "(" entry.1)
  && forallb (fun a => negb (occurs "(" a)) entry.2.

(** The mapping that the second loop of [parseLines] builds from lines
    that raise no error: one insertion per line, in order. *)
Definition insertLines (lines : list string) (ret : gmap string (list string))
  : gmap string (list string) :=
  foldl (fun m line => <[codeOf line := lineArgs line]> m) ret lines.

(** Two entries of a telegram. *)
Definition sample_entries : list (string * list string) :=
  [ ("1-0:1.8.1", ["000228.584*kWh"]);
    ("0-1:24.2.1", ["170108160000W"; "00012.345*m3"]) ].

Section FramingVocabulary.
Context {golib : GoLibraries}.

(** A line that the loop "wait for header" skips: read without error and
    not beginning with '/'. *)
Definition skipped (x : string * option string) : Prop :=
  x.2 = None /\ HasPrefix x.1 "/" = false.

(** A read that the loop "read data" takes for a data line. *)
Definition dataRead (x : string * option string) : Prop :=
  HasPrefix x.1 "!" = false.

(** The checksum body after the data reads [dlines]. *)
Definition dataBody (checkSumBody : string) (dlines : Reader) : string :=
  foldl (fun b x => b +:+ x.1) checkSumBody dlines.

(** The raw lines that the data reads [dlines] leave. *)
Definition dataRawLines (dlines : Reader) : list string :=
  (fun x => TrimSpace x.1) <$> dlines.

(** The Telegram in which [readTelegram] has set the two header fields. *)
Definition headerTelegram (line : string) : value :=
  set_field Telegram "HeaderId" (VString (TrimSpace (slice_from 6 line)))
    (set_field Telegram "HeaderMarker" (VString (slice_to 6 line)) (zero Telegram)).

(** What the goroutine may emit: a Telegram that is not nil, or a log of
    at least one error. *)
Definition properEvent (ev : event) : Prop :=
  match ev with
  | Send t => is_Some t
  | Log errs => errs <> []
  end.

End FramingVocabulary.

(** Framed, checksum-valid, the first data line begins with '('. *)
Definition orphan_line : string := "(4B384547)" +:+ Reference.CRLF.
Definition orphan_telegram : Reader :=
  [ (sample_header, None); (Reference.CRLF, None);
    (orphan_line, None);
    ("!0B5F" +:+ Reference.CRLF, None) ].

Section DecodeVocabulary.
Context {golib : GoLibraries}.

(** The setter that the [switch] of [fillStruct] uses for the decode kind
    [typ] fits a location of type [ty]. *)
Definition tagFits (typ : string) (ty : type) : bool :=
  if String.eqb typ "id" then bool_decide (KindOf ty = KString)
  else if String.eqb typ "int" then bool_decide (KindOf ty = KInt32)
  else if String.eqb typ "gasrecord" then type_eqb ty GasRecord
  else if String.eqb typ "unit" then bool_decide (KindOf ty = KFloat32)
  else true.

(** The decode kinds that the [switch] of [fillStruct] knows. *)
Definition knownKind (typ : string) : bool :=
  String.eqb typ "id" || String.eqb typ "int"
  || String.eqb typ "gasrecord" || String.eqb typ "unit".

(** The value that the arguments of a present code decode to, for the
    decode kind [typ]; [None] when they raise an error or when the kind
    is not one the [switch] knows. *)
Definition decodedValue (typ : string) (args : list string) : option value :=
  if String.eqb typ "id" then
    match args with
    | [a0] => Some (VString a0)
    | _ => None
    end
  else if String.eqb typ "int" then
    match args with
    | [a0] =>
        match Atoi a0 with
        | inl n => Some (VInt32 (int32 n))
        | inr _ => None
        end
    | _ => None
    end
  else if String.eqb typ "gasrecord" then
    match args with
    | [a0; a1] =>
        match parseUnit a1 with
        | (v, None) => Some (VStruct [VString a0; VFloat32 v])
        | (_, Some _) => None
        end
    | _ => None
    end
  else if String.eqb typ "unit" then
    match args with
    | [a0] =>
        match parseUnit a0 with
        | (v, None) => Some (VFloat32 v)
        | (_, Some _) => None
        end
    | _ => None
    end
  else None.

(** The error, if any, that the entry of field [f] adds for the mapping
    [data]. *)
Definition entryError (data : gmap string (list string)) (f : StructField)
  : option string :=
  match Tag_Lookup (Tag f) "obis" with
  | None => None
  | Some obis =>
      match data !! obis with
      | None =>
          if isPtr (Type_ f) then None else Some ("Missing data for " +:+ obis)
      | Some args =>
          validationError obis (default "" (Tag_Lookup (Tag f) "type")) args
      end
  end.

(** The errors of a registry, in field order. *)
Definition entryErrors (data : gmap string (list string)) (t : type) : list string :=
  omap (entryError data) (fields_of t).

(** The errors of the registries that [readTelegram] applies to [data]. *)
Definition expectedErrors (data : gmap string (list string)) : list string :=
  entryErrors data Telegram
  ++ match data !! "1-0:1.8.1" with
     | Some _ => entryErrors data ElectricityData
     | None => []
     end
  ++ match data !! "1-0:41.7.0" with
     | Some _ => entryErrors data MultiphaseElectricityData
     | None => []
     end
  ++ match data !! "0-1:24.2.1" with
     | Some _ => entryErrors data GasData
     | None => []
     end.

End DecodeVocabulary.

(** The registry of [ElectricityData], cut at [PowerFailuresLog]. *)
Definition log_pre : list StructField := take 11 (fields_of ElectricityData).
Definition log_field : StructField :=
  Field "PowerFailuresLog" TString (tag "1-0:99.97.0" "log").
Definition log_post : list StructField := drop 12 (fields_of ElectricityData).

(** A mapping with a power failure log. *)
Definition log_data : gmap string (list string) :=
  {[ "1-0:99.97.0" := ["1"; "0-0:96.7.19"; "101208152415W"; "0000000240*s"] ]}.

(** The registry of [GasData], cut at [LastRecord]. *)
Definition gas_pre : list StructField := take 3 (fields_of GasData).
Definition gas_LastRecord : StructField :=
  Field "LastRecord" GasRecord (tag "0-1:24.2.1" "gasrecord").

(** A mapping with a gas record. *)
Definition gas_data : gmap string (list string) :=
  {[ "0-1:24.2.1" := ["170108160000W"; "00012.345*m3"] ]}.

(** The mapping [d] is [data] without the codes of [claimedCodes]. *)
Definition remainder (data : gmap string (list string)) (claimedCodes : list string)
  (d : gmap string (list string)) : Prop :=
  forall c, d !! c = if bool_decide (c ∈ claimedCodes) then None else data !! c.

(** The codes of [codes] are none of [others]. *)
Definition apart (codes others : list string) : Prop :=
  Forall (fun c => c ∉ others) codes.

(** ** The munin plugin, [dsmrp1-munin/main.go] *)

(** What the plugin gets from the daemon: [http.Get], [ioutil.ReadAll] and
    [json.Unmarshal] into a [*dsmrp1.Telegram], each of which may fail;
    [Got None] is the nil pointer that the JSON value null leaves. *)
Inductive fetched : Type :=
| GetFailed
| ReadFailed (err : string)
| ParseFailed (err : string)
| Got (telegram : option value).

(** How [main] ends, after the lines it has printed on standard output. *)
Inductive ending : Type :=
| Return
| LogFatal (msg : string)
| Exit (code : Z)
| Panic (msg : string).

(** [+] and [-] on [float32]. *)
Definition f32add (x y : float32) : float32 :=
  SpecFloat.SFadd Float32.prec Float32.emax x y.
Definition f32sub (x y : float32) : float32 :=
  SpecFloat.SFsub Float32.prec Float32.emax x y.

(** [*p] for the pointer field [name] of a struct of type [t]: [None] is
    the nil pointer. *)
Definition deref (t : type) (name : string) (s : value) : option value :=
  match get_field t name s with
  | Some (VPtr (Some v)) => Some v
  | _ => None
  end.

(** [s.name] for a [float32] field of a struct of type [t]. *)
Definition float32_field (t : type) (name : string) (s : value) : float32 :=
  match get_field t name s with
  | Some (VFloat32 x) => x
  | _ => Float32.zero
  end.

Section Munin.
(** The conversion [int64(x)] of a [float32], and the verb [%d] of [fmt]. *)
Variable int64_of_float32 : float32 -> Z.
Variable FormatInt : Z -> string.

(** The lines printed for the argument "config". *)
Definition configLines : list string :=
  [ "multigraph p1_kWh"; "graph_title Electricity usage"; "graph_vlabel Watt";
    "graph_category P1"; "kWh.label Watt"; "kWh.type DERIVE"; "";
    "multigraph p1_dm3"; "graph_title gas usage"; "graph_vlabel dm3/h";
    "graph_period hour"; "graph_category P1"; "dm3.label dm3/h";
    "dm3.type DERIVE" ].

(** [main] of the plugin: [args] is [os.Args], [f] is what fetching the
    telegram gives if [main] comes to fetch it.  The result is the lines
    printed and the way [main] ends. *)
Definition munin_main (args : list string) (f : fetched) : list string * ending :=
  if (length args =? 1)%nat then
    match f with
    | GetFailed =>
        ([], LogFatal "Could not connect to dsmrp1d at http://localhost:1121")
    | ReadFailed err => ([], LogFatal ("Failed to read response: " +:+ err))
    | ParseFailed err => ([], LogFatal ("Failed to parse telegram " +:+ err))
    | Got None => ([], LogFatal "No data, yet")
    | Got (Some telegram) =>
        match deref Telegram "Electricity" telegram with
        | None => ([], Panic "invalid memory address or nil pointer dereference")
        | Some e =>
            let kWh :=
              f32sub (f32sub (f32add (float32_field ElectricityData "KWh" e)
                                     (float32_field ElectricityData "KWhLow" e))
                             (float32_field ElectricityData "KWhOut" e))
                     (float32_field ElectricityData "KWhOutLow" e) in
            match deref Telegram "Gas" telegram with
            | None => ([], Panic "invalid memory address or nil pointer dereference")
            | Some g =>
                let dm3 :=
                  match get_field GasData "LastRecord" g with
                  | Some r => float32_field GasRecord "Value" r
                  | None => Float32.zero
                  end in
                ([ "multigraph p1_kWh";
                   "kWh.value " +:+ FormatInt (int64_of_float32
                     (Float32.mul (Float32.mul (Float32.mul kWh (Float32.of_Z 1000))
                                     (Float32.of_Z 60)) (Float32.of_Z 60)));
                   "";
                   "multigraph p1_dm3";
                   "dm3.value " +:+ FormatInt (int64_of_float32
                     (Float32.mul dm3 (Float32.of_Z 1000))) ],
                 Return)
            end
        end
    end
  else
    match args !! 1%nat with
    | None => ([], Panic "index out of range [1] with length 0")
    | Some arg =>
        if String.eqb arg "config" then (configLines, Return)
        else if String.eqb arg "autoconf" then (["yes"], Return)
        else ([], Exit (-1))
    end.

End Munin.

(** ** The merge of continuation lines, by groups *)

(** A code line with the continuation lines that follow it: the first
    does not begin with '(', the others do. *)
Definition properGroup (g : string * list string) : Prop :=
  HasPrefix g.1 "(" = false /\ Forall (fun k => HasPrefix k "(" = true) g.2.

(** The raw lines of a list of groups, in order. *)
Definition ungroup (groups : list (string * list string)) : list string :=
  concat ((fun g => g.1 :: g.2) <$> groups).

(** The continuation lines of a group appended, one after the other, to
    its code line. *)
Definition joinGroup (g : string * list string) : string :=
  foldl String.append g.1 g.2.

(** The raw lines of [sample_rawLines], by groups. *)
Definition sample_groups : list (string * list string) :=
  [ ("1-0:99.97.0(2)(0-0:96.7.19)", ["(101208152415W)(0000000240*s)"]);
    ("0-0:1.0.0(x)", []) ].

(** The data read of [incomplete_telegram]. *)
Definition incomplete_rawLines : list string := ["0-0:96.1.1(4B384547)"].
Definition incomplete_footer : string := "!C6E3" +:+ Reference.CRLF.
(** * Properties *)

(** ** Line splitting: the merge of continuation lines *)

Lemma mergeLines_nonempty (rawLines lines : list string) :
  lines <> [] -> exists lines', mergeLines rawLines lines = Returns lines' /\ lines' <> [].
Proof.
  revert lines. induction rawLines as [|raw rest IH]; intros lines Hne; simpl.
  - eauto.
  - destruct (HasPrefix raw "(").
    + assert (Hlen : (0 < length lines)%nat) by (destruct lines; simpl; [done | lia]).
      destruct (Z.ltb_spec (Z.of_nat (length lines) - 1) 0) as [Hneg | _]; [lia |].
      destruct (lookup_lt_is_Some_2 lines (Z.to_nat (Z.of_nat (length lines) - 1)))
        as [l Hl]; [lia |].
      rewrite Hl. apply IH.
      intros Heq. apply (f_equal length) in Heq.
      rewrite length_insert in Heq. simpl in Heq. lia.
    + apply IH. intros Heq. apply (f_equal length) in Heq.
      rewrite length_app in Heq. simpl in Heq. lia.
Qed.

Lemma mergeLines_continuation (raw : string) (rest acc : list string) (last : string) :
  HasPrefix raw "(" = true ->
  mergeLines (raw :: rest) (acc ++ [last]) = mergeLines rest (acc ++ [last +:+ raw]).
Proof.
  intros Hp. simpl. rewrite Hp.
  rewrite length_app. simpl.
  destruct (Z.ltb_spec (Z.of_nat (length acc + 1) - 1) 0) as [Hneg | _]; [lia |].
  replace (Z.to_nat (Z.of_nat (length acc + 1) - 1)) with (length acc + 0)%nat by lia.
  rewrite lookup_app_r by lia.
  replace (length acc + 0 - length acc)%nat with 0%nat by lia. simpl.
  rewrite insert_app_r. reflexivity.
Qed.


(** ** Line splitting: codes and arguments *)

Lemma Split_codeOf (line : string) :
  Split line "(" = codeOf line :: (split_pieces "(" line).2.
Proof. unfold Split, codeOf. by destruct (split_pieces "(" line). Qed.

Lemma parseArgs_spec (line : string) (bits args : list string) :
  parseArgs line bits args =
  if forallb (fun arg => HasSuffix arg ")") bits
  then inl (args ++ map (fun arg => slice_to (String.length arg - 1) arg) bits)
  else inr ("Malformed argument in line " +:+ line).
Proof.
  revert args. induction bits as [|arg rest IH]; intros args; simpl.
  - by rewrite app_nil_r.
  - destruct (HasSuffix arg ")"); simpl; [| done].
    rewrite IH. destruct (forallb _ rest); [| done].
    by rewrite <- app_assoc.
Qed.


Section LineSplitting.
Context {golib : GoLibraries}.



End LineSplitting.




(** ** The reflective decoder *)

Lemma outcome_bind_Returns {A B : Type} (k : A -> outcome B) (a : A) :
  Returns a ≫= k = k a.
Proof. reflexivity. Qed.

Lemma zero_struct (fs : list StructField) : zero (TStruct fs) = VStruct (zeros fs).
Proof.
  simpl. f_equal. unfold zeros.
  induction fs as [|[n t tg] fs IH]; simpl; [done | by rewrite IH].
Qed.

Lemma zeros_lookup (fs : list StructField) (n : nat) (f : StructField) :
  fs !! n = Some f -> zeros fs !! n = Some (zero (Type_ f)).
Proof. intros Hf. unfold zeros. by rewrite list_lookup_fmap, Hf. Qed.

Lemma store_lookup_ne (viaPtr : bool) (i j : nat) (v : value) (sv : list value) :
  i <> j -> store viaPtr i v sv !! j = sv !! j.
Proof. intros. unfold store. by apply list_lookup_insert_ne. Qed.

Lemma store_length (viaPtr : bool) (i : nat) (v : value) (sv : list value) :
  length (store viaPtr i v sv) = length sv.
Proof. apply length_insert. Qed.

Lemma store_store (viaPtr : bool) (i : nat) (v w : value) (sv : list value) :
  store viaPtr i v (store true i w sv) = store viaPtr i v sv.
Proof. unfold store. apply list_insert_insert_eq. Qed.

Section Fill.
Context {golib : GoLibraries}.

Lemma extends_refl (i : nat) (st : FillState) : extends i st st.
Proof. repeat split; try done. exists []. by rewrite app_nil_r. Qed.

Lemma extends_add_error (i : nat) (msg : string) (st : FillState) :
  extends i st (add_error msg st).
Proof. repeat split; try done. by exists [msg]. Qed.

Lemma extends_store (viaPtr : bool) (i : nat) (v : value) (st : FillState) :
  extends i st (mkFill (fs_ret st) (fs_data st) (store viaPtr i v (fs_sv st))).
Proof.
  repeat split; simpl.
  - exists []. by rewrite app_nil_r.
  - apply store_length.
  - intros j Hj. by apply store_lookup_ne.
Qed.

Ltac setter_cases :=
  repeat match goal with
         | |- context [match ?x with _ => _ end] => destruct x eqn:?
         end.

Lemma decodeField_extends (obis typ : string) (args : list string) (ty : type)
  (viaPtr : bool) (i : nat) (st st' : FillState) :
  decodeField obis typ args ty viaPtr i st = Returns st' -> extends i st st'.
Proof.
  unfold decodeField, SetString, SetInt, SetFloat, SetGasRecord.
  setter_cases; intros Heq; try discriminate Heq; injection Heq as <-;
    auto using extends_refl, extends_add_error, extends_store.
Qed.

Lemma decodeField_validationError (obis typ : string) (args : list string)
  (ty : type) (viaPtr : bool) (i : nat) (st : FillState) (err : string) :
  validationError obis typ args = Some err ->
  decodeField obis typ args ty viaPtr i st = Returns (add_error err st).
Proof.
  unfold validationError, decodeField.
  setter_cases; intros Heq; try discriminate Heq; try (injection Heq as <-; reflexivity).
  all: try (simpl in *; congruence).
Qed.

Lemma fillField_untagged (i : nat) (f : StructField) (st : FillState) :
  Tag_Lookup (Tag f) "obis" = None -> fillField i f st = Returns st.
Proof. intros Ht. unfold fillField. by rewrite Ht. Qed.

Lemma fillField_absent (i : nat) (f : StructField) (st : FillState) (obis : string) :
  Tag_Lookup (Tag f) "obis" = Some obis ->
  fs_data st !! obis = None ->
  fillField i f st
  = Returns (if isPtr (Type_ f) then st else add_error ("Missing data for " +:+ obis) st).
Proof. intros Ht Hd. unfold fillField. rewrite Ht, Hd. by destruct (isPtr _). Qed.

Lemma fillField_present (i : nat) (f : StructField) (st : FillState)
  (obis : string) (args : list string) :
  Tag_Lookup (Tag f) "obis" = Some obis ->
  fs_data st !! obis = Some args ->
  fillField i f st
  = decodeField obis (default "" (Tag_Lookup (Tag f) "type")) args
      (if isPtr (Type_ f) then Elem (Type_ f) else Type_ f) (isPtr (Type_ f)) i
      (mkFill (fs_ret st) (delete obis (fs_data st))
         (if isPtr (Type_ f) then store true i (zero (Elem (Type_ f))) (fs_sv st)
          else fs_sv st)).
Proof. intros Ht Hd. unfold fillField. rewrite Ht, Hd. by destruct (isPtr _). Qed.

(** One entry: errors are appended, the struct changes in slot [i] only,
    and the code of the entry is gone from the mapping. *)
Lemma fillField_effect (i : nat) (f : StructField) (st st' : FillState) :
  fillField i f st = Returns st' ->
  (exists more, fs_ret st' = fs_ret st ++ more) /\
  length (fs_sv st') = length (fs_sv st) /\
  (forall j, j <> i -> fs_sv st' !! j = fs_sv st !! j) /\
  fs_data st' = match Tag_Lookup (Tag f) "obis" with
                | Some obis => delete obis (fs_data st)
                | None => fs_data st
                end.
Proof.
  intros Hf.
  destruct (Tag_Lookup (Tag f) "obis") as [obis|] eqn:Ht.
  2:{ rewrite fillField_untagged in Hf by done. injection Hf as <-.
      destruct (extends_refl i st) as (? & ? & ? & ?). done. }
  destruct (fs_data st !! obis) as [args|] eqn:Hd.
  2:{ rewrite (fillField_absent _ _ _ obis) in Hf by done. injection Hf as <-.
      rewrite delete_id by done.
      destruct (isPtr (Type_ f)).
      - destruct (extends_refl i st) as (? & ? & ? & ?). done.
      - destruct (extends_add_error i ("Missing data for " +:+ obis) st) as (? & ? & ? & ?).
        done. }
  rewrite (fillField_present _ _ _ obis args) in Hf by done.
  apply decodeField_extends in Hf as (Hret & Hdata & Hlen & Hsv). simpl in *.
  repeat split; try done.
  - rewrite Hlen. destruct (isPtr _); [apply store_length | done].
  - intros j Hj. rewrite Hsv by done.
    destruct (isPtr _); [by apply store_lookup_ne | done].
Qed.

Lemma fillFields_app (pre post : list StructField) (i : nat) (st : FillState) :
  fillFields (pre ++ post) i st
  = st1 ← fillFields pre i st; fillFields post (i + length pre) st1.
Proof.
  revert i st. induction pre as [|f pre IH]; intros i st; simpl.
  - by rewrite Nat.add_0_r.
  - destruct (fillField i f st) as [st1 | msg]; simpl; [| done].
    rewrite IH. by replace (S i + length pre)%nat with (i + S (length pre))%nat by lia.
Qed.

(** A run of entries from slot [i] on: the slots before [i] are left
    alone, errors are appended, and exactly the codes of the entries are
    removed from the mapping. *)
Lemma fillFields_effect (fs : list StructField) (i : nat) (st st' : FillState) :
  fillFields fs i st = Returns st' ->
  (exists more, fs_ret st' = fs_ret st ++ more) /\
  length (fs_sv st') = length (fs_sv st) /\
  (forall j, (j < i \/ i + length fs <= j)%nat -> fs_sv st' !! j = fs_sv st !! j) /\
  (forall c, fs_data st' !! c
             = if bool_decide (c ∈ obisCodes fs) then None else fs_data st !! c).
Proof.
  revert i st. induction fs as [|f fs IH]; intros i st; simpl.
  - intros [= <-]. repeat split; try done. exists []. by rewrite app_nil_r.
  - destruct (fillField i f st) as [st1 | msg] eqn:Hf; simpl; [| done].
    intros Hrest.
    apply fillField_effect in Hf as ([m1 Hr1] & Hl1 & Hs1 & Hd1).
    apply IH in Hrest as ([m2 Hr2] & Hl2 & Hs2 & Hd2).
    split; [exists (m1 ++ m2); by rewrite Hr2, Hr1, app_assoc |].
    split; [congruence |].
    split; [intros j Hj; rewrite Hs2, Hs1 by lia; done |].
    intros c. rewrite Hd2, Hd1. unfold obisCodes. simpl.
    destruct (Tag_Lookup (Tag f) "obis") as [obis|]; [| done].
    destruct (decide (c = obis)) as [-> | Hne].
    + rewrite lookup_delete_eq.
      rewrite (bool_decide_eq_true_2 (obis ∈ obis :: _)) by apply list_elem_of_here.
      by destruct (bool_decide _).
    + rewrite lookup_delete_ne by done.
      destruct (bool_decide (c ∈ omap _ fs)) eqn:Hin.
      * apply bool_decide_eq_true_1 in Hin.
        by rewrite bool_decide_eq_true_2 by (by apply list_elem_of_further).
      * apply bool_decide_eq_false_1 in Hin.
        rewrite bool_decide_eq_false_2; [done |].
        intros [? | ?]%elem_of_cons; done.
Qed.

(** A field without "obis" tag is not written by the run. *)
Lemma fillFields_untagged_slot (fs : list StructField) (i j : nat)
  (f : StructField) (st st' : FillState) :
  fillFields fs i st = Returns st' ->
  fs !! j = Some f ->
  Tag_Lookup (Tag f) "obis" = None ->
  fs_sv st' !! (i + j)%nat = fs_sv st !! (i + j)%nat.
Proof.
  revert i j st. induction fs as [|g fs IH]; intros i j st Hrun Hj Htag; [done |].
  simpl in Hrun.
  destruct (fillField i g st) as [st1 | msg] eqn:Hg; [| done].
  rewrite outcome_bind_Returns in Hrun.
  destruct j as [|j]; simpl in Hj.
  - injection Hj as ->. rewrite fillField_untagged in Hg by done. injection Hg as <-.
    apply fillFields_effect in Hrun as (_ & _ & Hsv & _).
    apply Hsv. left. lia.
  - apply fillField_effect in Hg as (_ & _ & Hsv & _).
    replace (i + S j)%nat with (S i + j)%nat by lia.
    rewrite (IH _ _ _ Hrun Hj Htag). apply Hsv. lia.
Qed.

Lemma decodeField_returns (obis typ : string) (args : list string) (ty : type)
  (viaPtr : bool) (i : nat) (st : FillState) :
  (if String.eqb typ "id" then bool_decide (KindOf ty = KString)
   else if String.eqb typ "int" then bool_decide (KindOf ty = KInt32)
   else if String.eqb typ "gasrecord" then type_eqb ty GasRecord
   else if String.eqb typ "unit" then bool_decide (KindOf ty = KFloat32)
   else true) = true ->
  exists st', decodeField obis typ args ty viaPtr i st = Returns st'.
Proof.
  unfold decodeField, SetString, SetInt, SetFloat, SetGasRecord.
  intros Hwt.
  repeat match goal with
         | H : context [if ?b then _ else _] |- _ => destruct b eqn:?
         end;
    try apply bool_decide_eq_true_1 in Hwt; try rewrite Hwt;
    setter_cases; eauto; try discriminate.
Qed.

Lemma fillField_returns (i : nat) (f : StructField) (st : FillState) :
  wellTaggedField f = true -> exists st', fillField i f st = Returns st'.
Proof.
  unfold wellTaggedField. intros Hwt.
  destruct (Tag_Lookup (Tag f) "obis") as [obis|] eqn:Ht.
  2:{ rewrite fillField_untagged by done. eauto. }
  destruct (fs_data st !! obis) as [args|] eqn:Hd.
  2:{ rewrite (fillField_absent _ _ _ obis) by done. eauto. }
  rewrite (fillField_present _ _ _ obis args) by done.
  by apply decodeField_returns.
Qed.

Lemma fillFields_returns (fs : list StructField) (i : nat) (st : FillState) :
  forallb wellTaggedField fs = true -> exists st', fillFields fs i st = Returns st'.
Proof.
  revert i st. induction fs as [|f fs IH]; intros i st; simpl; [eauto |].
  intros [Hf Hfs]%andb_prop.
  destruct (fillField_returns i f st Hf) as [st1 ->]. simpl. by apply IH.
Qed.

(** The run of [fillStruct] over a struct with one slot per field, cut
    at one entry [f]: the state [st1] in which the entry is reached and
    the state [st2] it leaves determine the final slot of [f] and a prefix
    of the errors. *)
Lemma fillStruct_at_entry (pre post : list StructField) (f : StructField)
  (sv : list value) (data : gmap string (list string)) :
  forallb wellTaggedField (pre ++ f :: post) = true ->
  length sv = length (pre ++ f :: post) ->
  exists st1 st2 st',
    fillFields pre 0 (mkFill [] data sv) = Returns st1 /\
    fillField (length pre) f st1 = Returns st2 /\
    fillFields post (S (length pre)) st2 = Returns st' /\
    fillStruct (TStruct (pre ++ f :: post)) (VStruct sv) data
    = Returns (fs_ret st', VStruct (fs_sv st'), fs_data st') /\
    (forall c, fs_data st1 !! c
               = if bool_decide (c ∈ obisCodes pre) then None else data !! c) /\
    fs_sv st1 !! length pre = sv !! length pre /\
    (length pre < length (fs_sv st1))%nat /\
    fs_sv st' !! length pre = fs_sv st2 !! length pre /\
    (exists more, fs_ret st' = fs_ret st2 ++ more).
Proof.
  intros Hwt Hlen.
  set (st0 := mkFill [] data sv).
  destruct (fillFields_returns (pre ++ f :: post) 0 st0 Hwt) as [st' Hrun].
  pose proof Hrun as Hrun'.
  rewrite fillFields_app in Hrun'.
  destruct (fillFields pre 0 st0) as [st1 | msg] eqn:Hpre; [| done].
  simpl in Hrun'.
  destruct (fillField (length pre) f st1) as [st2 | msg] eqn:Hf; [| done].
  simpl in Hrun'.
  exists st1, st2, st'.
  apply fillFields_effect in Hpre as (_ & Hl1 & Hs1 & Hd1).
  pose proof (fillFields_effect _ _ _ _ Hrun') as (Hr3 & _ & Hs3 & _).
  repeat split; try done.
  - unfold fillStruct. fold st0. by rewrite Hrun.
  - apply Hs1. right. simpl. lia.
  - rewrite Hl1. simpl. rewrite Hlen, length_app. simpl. lia.
  - apply Hs3. left. lia.
Qed.

(** C7.  An entry whose code is absent from the mapping: for a
    non-pointer field the error "Missing data for <code>" is appended, the
    field keeps its zero value and the remaining entries are decoded; for
    a pointer field nothing is recorded and the field stays nil. *)
Theorem fillStruct_absent_code (pre post : list StructField) (f : StructField)
  (obis : string) (sv : list value) (data : gmap string (list string)) :
  forallb wellTaggedField (pre ++ f :: post) = true ->
  length sv = length (pre ++ f :: post) ->
  sv !! length pre = Some (zero (Type_ f)) ->
  Tag_Lookup (Tag f) "obis" = Some obis ->
  data !! obis = None ->
  exists st1 errs sv' data',
    let st2 := if isPtr (Type_ f) then st1
               else add_error ("Missing data for " +:+ obis) st1 in
    fillFields pre 0 (mkFill [] data sv) = Returns st1 /\
    fillField (length pre) f st1 = Returns st2 /\
    fillFields post (S (length pre)) st2 = Returns (mkFill errs data' sv') /\
    fillStruct (TStruct (pre ++ f :: post)) (VStruct sv) data
    = Returns (errs, VStruct sv', data') /\
    sv' !! length pre = Some (zero (Type_ f)) /\
    (isPtr (Type_ f) = true -> sv' !! length pre = Some (VPtr None)) /\
    (isPtr (Type_ f) = false -> "Missing data for " +:+ obis ∈ errs).
Proof.
  intros Hwt Hlen Hzero Htag Habsent.
  destruct (fillStruct_at_entry pre post f sv data Hwt Hlen)
    as (st1 & st2 & st' & Hpre & Hf & Hpost & Hfill & Hd1 & Hz & _ & Hfinal & [more Hret]).
  assert (Hnone : fs_data st1 !! obis = None).
  { rewrite Hd1, Habsent. by destruct (bool_decide _). }
  rewrite (fillField_absent _ _ _ obis Htag Hnone) in Hf. injection Hf as <-.
  exists st1, (fs_ret st'), (fs_sv st'), (fs_data st'). cbv zeta.
  assert (Hslot : fs_sv st' !! length pre = Some (zero (Type_ f))).
  { rewrite Hfinal, <- Hzero, <- Hz. by destruct (isPtr _). }
  repeat split; try done.
  - by rewrite (fillField_absent _ _ _ obis).
  - by destruct st'.
  - intros Hptr. rewrite Hslot. by destruct (Type_ f).
  - intros Hptr. rewrite Hret, Hptr. simpl.
    apply elem_of_app. left. apply elem_of_app. right. apply list_elem_of_here.
Qed.

(** C10.  A pointer field whose code is present with arguments that fail
    validation: the error is recorded and the field is left pointing to a
    freshly allocated zero value, which is not the nil pointer that an
    absent code leaves. *)
Theorem fillStruct_optional_failed_decode (pre post : list StructField)
  (f : StructField) (obis : string) (elem : type) (args : list string)
  (err : string) (sv : list value) (data : gmap string (list string)) :
  forallb wellTaggedField (pre ++ f :: post) = true ->
  length sv = length (pre ++ f :: post) ->
  Type_ f = TPtr elem ->
  Tag_Lookup (Tag f) "obis" = Some obis ->
  obis ∉ obisCodes pre ->
  data !! obis = Some args ->
  validationError obis (default "" (Tag_Lookup (Tag f) "type")) args = Some err ->
  exists st1 errs sv' data',
    fillFields pre 0 (mkFill [] data sv) = Returns st1 /\
    fillField (length pre) f st1
    = Returns (mkFill (fs_ret st1 ++ [err]) (delete obis (fs_data st1))
                 (<[length pre := VPtr (Some (zero elem))]> (fs_sv st1))) /\
    fillStruct (TStruct (pre ++ f :: post)) (VStruct sv) data
    = Returns (errs, VStruct sv', data') /\
    err ∈ errs /\
    sv' !! length pre = Some (VPtr (Some (zero elem))) /\
    sv' !! length pre <> Some (zero (Type_ f)).
Proof.
  intros Hwt Hlen Hty Htag Hfresh Hpresent Hval.
  destruct (fillStruct_at_entry pre post f sv data Hwt Hlen)
    as (st1 & st2 & st' & Hpre & Hf & Hpost & Hfill & Hd1 & _ & Hlt & Hfinal & [more Hret]).
  assert (Hsome : fs_data st1 !! obis = Some args).
  { rewrite Hd1, Hpresent. by rewrite bool_decide_eq_false_2. }
  rewrite (fillField_present _ _ _ obis args Htag Hsome) in Hf.
  rewrite Hty in Hf. simpl in Hf.
  rewrite (decodeField_validationError _ _ _ _ _ _ _ err Hval) in Hf.
  injection Hf as <-. simpl in *.
  assert (Hslot : fs_sv st' !! length pre = Some (VPtr (Some (zero elem)))).
  { rewrite Hfinal. unfold store. by apply list_lookup_insert_eq. }
  exists st1, (fs_ret st'), (fs_sv st'), (fs_data st').
  repeat split; try done.
  - rewrite (fillField_present _ _ _ obis args Htag Hsome), Hty. simpl.
    by rewrite (decodeField_validationError _ _ _ _ _ _ _ err Hval).
  - rewrite Hret. apply elem_of_app. left. apply elem_of_app. right.
    apply list_elem_of_here.
  - rewrite Hslot, Hty. simpl. discriminate.
Qed.

End Fill.

Lemma fillStruct_absent_code_witness :
  forallb wellTaggedField (electricity_pre ++ electricity_Threshold :: electricity_post) = true /\
  length (zeros (fields_of ElectricityData))
  = length (electricity_pre ++ electricity_Threshold :: electricity_post) /\
  zeros (fields_of ElectricityData) !! length electricity_pre
  = Some (zero (Type_ electricity_Threshold)) /\
  Tag_Lookup (Tag electricity_Threshold) "obis" = Some "0-0:17.0.0" /\
  (∅ : gmap string (list string)) !! "0-0:17.0.0" = None /\
  exists errs sv' data',
    fillStruct (golib := Reference.lib) ElectricityData
      (VStruct (zeros (fields_of ElectricityData))) ∅
    = Returns (errs, VStruct sv', data') /\
    sv' !! 7%nat = Some (VPtr None).
Proof.
  assert (Habsent : (∅ : gmap string (list string)) !! "0-0:17.0.0" = None)
    by reflexivity.
  split; [reflexivity |]. split; [reflexivity |]. split; [reflexivity |].
  split; [reflexivity |]. split; [exact Habsent |].
  destruct (fillStruct_absent_code (golib := Reference.lib)
              electricity_pre electricity_post electricity_Threshold
              "0-0:17.0.0" (zeros (fields_of ElectricityData)) ∅
              eq_refl eq_refl eq_refl eq_refl Habsent)
    as (st1 & errs & sv' & data' & _ & _ & _ & Hfill & _ & Hnil & _).
  exists errs, sv', data'. split; [exact Hfill | exact (Hnil eq_refl)].
Defined.

Lemma fillStruct_optional_failed_decode_witness :
  forallb wellTaggedField (electricity_pre ++ electricity_Threshold :: electricity_post) = true /\
  length (zeros (fields_of ElectricityData))
  = length (electricity_pre ++ electricity_Threshold :: electricity_post) /\
  Type_ electricity_Threshold = TPtr TFloat32 /\
  Tag_Lookup (Tag electricity_Threshold) "obis" = Some "0-0:17.0.0" /\
  ("0-0:17.0.0" ∉ obisCodes electricity_pre) /\
  bad_threshold_data !! "0-0:17.0.0" = Some ["abc"] /\
  validationError (golib := Reference.lib) "0-0:17.0.0" "unit" ["abc"]
  = Some "0-0:17.0.0: not a unit abc" /\
  exists errs sv' data',
    fillStruct (golib := Reference.lib) ElectricityData
      (VStruct (zeros (fields_of ElectricityData))) bad_threshold_data
    = Returns (errs, VStruct sv', data') /\
    "0-0:17.0.0: not a unit abc" ∈ errs /\
    sv' !! 7%nat = Some (VPtr (Some (VFloat32 Float32.zero))).
Proof.
  assert (Hfresh : "0-0:17.0.0" ∉ obisCodes electricity_pre).
  { apply (bool_decide_unpack _). reflexivity. }
  assert (Hpresent : bad_threshold_data !! "0-0:17.0.0" = Some ["abc"])
    by reflexivity.
  assert (Hval : validationError (golib := Reference.lib) "0-0:17.0.0" "unit" ["abc"]
                 = Some "0-0:17.0.0: not a unit abc") by reflexivity.
  split; [reflexivity |]. split; [reflexivity |]. split; [reflexivity |].
  split; [reflexivity |].
  split; [exact Hfresh |]. split; [exact Hpresent |]. split; [exact Hval |].
  destruct (fillStruct_optional_failed_decode (golib := Reference.lib)
              electricity_pre electricity_post electricity_Threshold
              "0-0:17.0.0" TFloat32 ["abc"] "0-0:17.0.0: not a unit abc"
              (zeros (fields_of ElectricityData)) bad_threshold_data
              eq_refl eq_refl eq_refl eq_refl Hfresh Hpresent Hval)
    as (st1 & errs & sv' & data' & _ & _ & Hfill & Herr & Hslot & _).
  exists errs, sv', data'. split; [exact Hfill |]. split; [exact Herr | exact Hslot].
Defined.

(** ** Decoding a telegram: the residual mapping *)


Section Decode.
Context {golib : GoLibraries}.

Lemma fillStruct_effect (fs : list StructField) (sv : list value)
  (data : gmap string (list string)) :
  forallb wellTaggedField fs = true ->
  exists errs sv' data',
    fillStruct (TStruct fs) (VStruct sv) data = Returns (errs, VStruct sv', data') /\
    length sv' = length sv /\
    (forall j, (length fs <= j)%nat -> sv' !! j = sv !! j) /\
    (forall c, data' !! c = if bool_decide (c ∈ obisCodes fs) then None else data !! c).
Proof.
  intros Hwt.
  destruct (fillFields_returns fs 0 (mkFill [] data sv) Hwt) as [st' Hrun].
  exists (fs_ret st'), (fs_sv st'), (fs_data st').
  unfold fillStruct. rewrite Hrun. simpl.
  apply fillFields_effect in Hrun as (_ & Hlen & Hsv & Hdata).
  repeat split; try done. intros j Hj. apply Hsv. right. simpl. lia.
Qed.

Lemma fillBlock_effect (marker : string) (fs : list StructField) (name : string)
  (errs : list string) (vs : list value) (data : gmap string (list string)) :
  forallb wellTaggedField fs = true ->
  exists errs' vs' data',
    fillBlock marker (TStruct fs) name (errs, VStruct vs, data)
    = Returns (errs', VStruct vs', data') /\
    length vs' = length vs /\
    (forall j, field_index (fields_of Telegram) name <> Some j -> vs' !! j = vs !! j) /\
    (forall c, data' !! c
               = if bool_decide (is_Some (data !! marker)) && bool_decide (c ∈ obisCodes fs)
                 then None else data !! c).
Proof.
  intros Hwt. unfold fillBlock.
  destruct (data !! marker) as [args|] eqn:Hm.
  - rewrite zero_struct.
    destruct (fillStruct_effect fs (zeros fs) data Hwt)
      as (errs' & sv' & data' & -> & _ & _ & Hdata).
    simpl. unfold set_field.
    destruct (field_index (fields_of Telegram) name) as [i|] eqn:Hidx.
    + eexists _, _, _. split; [reflexivity |].
      split; [apply length_insert |]. split.
      * intros j Hj. apply list_lookup_insert_ne. intros ->. apply Hj. exact Hidx.
      * intros c. by rewrite Hdata.
    + eexists _, _, _. split; [reflexivity |]. repeat split; done.
  - simpl. eexists _, _, _. split; [reflexivity |]. repeat split; done.
Qed.

(** The marker codes belong to the registry of their own block only, so a
    presence test made after earlier registries have run sees what the
    mapping of [parseLines] had. *)
Lemma markers_unclaimed_before_use :
  bool_decide ("1-0:1.8.1" ∈ obisCodes (fields_of Telegram)) = false /\
  bool_decide ("1-0:41.7.0" ∈ obisCodes (fields_of Telegram)) = false /\
  bool_decide ("1-0:41.7.0" ∈ obisCodes (fields_of ElectricityData)) = false /\
  bool_decide ("0-1:24.2.1" ∈ obisCodes (fields_of Telegram)) = false /\
  bool_decide ("0-1:24.2.1" ∈ obisCodes (fields_of ElectricityData)) = false /\
  bool_decide ("0-1:24.2.1" ∈ obisCodes (fields_of MultiphaseElectricityData)) = false.
Proof. repeat split; reflexivity. Qed.

Lemma registries_wellTagged :
  forallb wellTaggedField (fields_of Telegram) = true /\
  forallb wellTaggedField (fields_of ElectricityData) = true /\
  forallb wellTaggedField (fields_of MultiphaseElectricityData) = true /\
  forallb wellTaggedField (fields_of GasData) = true.
Proof. repeat split; reflexivity. Qed.

Lemma registries_distinct_codes :
  NoDup (obisCodes (fields_of Telegram)) /\
  NoDup (obisCodes (fields_of ElectricityData)) /\
  NoDup (obisCodes (fields_of MultiphaseElectricityData)) /\
  NoDup (obisCodes (fields_of GasData)) /\
  NoDup (obisCodes (fields_of Telegram) ++ obisCodes (fields_of ElectricityData)
         ++ obisCodes (fields_of MultiphaseElectricityData)
         ++ obisCodes (fields_of GasData)).
Proof. repeat split; apply (bool_decide_unpack _); vm_compute; reflexivity. Qed.

(** In a registry with distinct codes no earlier entry claims the code of
    a later one. *)
Lemma distinct_codes_fresh (pre post : list StructField) (f : StructField)
  (obis : string) :
  NoDup (obisCodes (pre ++ f :: post)) ->
  Tag_Lookup (Tag f) "obis" = Some obis ->
  obis ∉ obisCodes pre.
Proof.
  unfold obisCodes. rewrite omap_app. simpl. intros Hnd Htag. rewrite Htag in Hnd.
  apply NoDup_app in Hnd as (_ & Hdisj & _).
  intros Hin. apply (Hdisj _ Hin). apply list_elem_of_here.
Qed.

(** Decoding never panics on the structs of the package. *)
Lemma decodeTelegram_returns (vs : list value) (data : gmap string (list string)) :
  exists t errs, decodeTelegram (VStruct vs) data = Returns (Some t, errs).
Proof.
  destruct registries_wellTagged as (HwT & HwE & HwM & HwG).
  unfold decodeTelegram.
  destruct (fillStruct_effect (fields_of Telegram) vs data HwT)
    as (e0 & vs0 & d0 & Hfill & _).
  change (TStruct (fields_of Telegram)) with Telegram in Hfill.
  rewrite Hfill, outcome_bind_Returns. cbv beta iota.
  destruct (fillBlock_effect "1-0:1.8.1" (fields_of ElectricityData) "Electricity"
              ([] ++ e0) vs0 d0 HwE) as (e1 & vs1 & d1 & Hb1 & _).
  change (TStruct (fields_of ElectricityData)) with ElectricityData in Hb1.
  rewrite Hb1, outcome_bind_Returns.
  destruct (fillBlock_effect "1-0:41.7.0" (fields_of MultiphaseElectricityData)
              "MultiphaseElectricity" e1 vs1 d1 HwM) as (e2 & vs2 & d2 & Hb2 & _).
  change (TStruct (fields_of MultiphaseElectricityData))
    with MultiphaseElectricityData in Hb2.
  rewrite Hb2, outcome_bind_Returns.
  destruct (fillBlock_effect "0-1:24.2.1" (fields_of GasData) "Gas" e2 vs2 d2 HwG)
    as (e3 & vs3 & d3 & Hb3 & _).
  change (TStruct (fields_of GasData)) with GasData in Hb3.
  rewrite Hb3, outcome_bind_Returns. cbv beta iota.
  by eexists _, _.
Qed.

(** C8.  After decoding, [Other] holds exactly the codes that no applied
    registry entry claims, with the argument lists that [parseLines] gave
    them; a claimed code is not in it. *)
Theorem decodeTelegram_residual (vs : list value) (data : gmap string (list string)) :
  length vs = length (fields_of Telegram) ->
  exists t errs other,
    decodeTelegram (VStruct vs) data = Returns (Some t, errs) /\
    get_field Telegram "Other" t = Some (VMap (Some other)) /\
    (forall c, other !! c = if claimed data c then None else data !! c).
Proof.
  intros Hlen.
  destruct registries_wellTagged as (HwT & HwE & HwM & HwG).
  destruct markers_unclaimed_before_use as (HmE & HmM1 & HmM2 & HmG1 & HmG2 & HmG3).
  unfold decodeTelegram.
  destruct (fillStruct_effect (fields_of Telegram) vs data HwT)
    as (e0 & vs0 & d0 & Hfill & Hl0 & _ & Hd0).
  change (TStruct (fields_of Telegram)) with Telegram in Hfill.
  rewrite Hfill. rewrite outcome_bind_Returns. cbv beta iota.
  destruct (fillBlock_effect "1-0:1.8.1" (fields_of ElectricityData) "Electricity"
              ([] ++ e0) vs0 d0 HwE) as (e1 & vs1 & d1 & Hb1 & Hl1 & _ & Hd1).
  change (TStruct (fields_of ElectricityData)) with ElectricityData in Hb1.
  rewrite Hb1. rewrite outcome_bind_Returns. cbv beta iota.
  destruct (fillBlock_effect "1-0:41.7.0" (fields_of MultiphaseElectricityData)
              "MultiphaseElectricity" e1 vs1 d1 HwM)
    as (e2 & vs2 & d2 & Hb2 & Hl2 & _ & Hd2).
  change (TStruct (fields_of MultiphaseElectricityData))
    with MultiphaseElectricityData in Hb2.
  rewrite Hb2. rewrite outcome_bind_Returns. cbv beta iota.
  destruct (fillBlock_effect "0-1:24.2.1" (fields_of GasData) "Gas" e2 vs2 d2 HwG)
    as (e3 & vs3 & d3 & Hb3 & Hl3 & _ & Hd3).
  change (TStruct (fields_of GasData)) with GasData in Hb3.
  rewrite Hb3. rewrite outcome_bind_Returns. cbv beta iota.
  eexists _, _, d3. split; [reflexivity |].
  split.
  - unfold get_field, set_field.
    change (field_index (fields_of Telegram) "Other") with (Some 10%nat).
    cbn beta iota. apply list_lookup_insert_eq.
    rewrite Hl3, Hl2, Hl1, Hl0, Hlen. simpl. lia.
  - intros c. rewrite Hd3, !Hd2, !Hd1, !Hd0. unfold claimed.
    rewrite HmE, HmM1, HmM2, HmG1, HmG2, HmG3.
    rewrite ?andb_false_r. cbv iota.
    destruct (bool_decide (c ∈ obisCodes (fields_of Telegram)));
      destruct (bool_decide (is_Some (data !! "1-0:1.8.1")));
      destruct (bool_decide (c ∈ obisCodes (fields_of ElectricityData)));
      destruct (bool_decide (is_Some (data !! "1-0:41.7.0")));
      destruct (bool_decide (c ∈ obisCodes (fields_of MultiphaseElectricityData)));
      destruct (bool_decide (is_Some (data !! "0-1:24.2.1")));
      destruct (bool_decide (c ∈ obisCodes (fields_of GasData)));
      reflexivity.
Qed.

(** The header fields are not touched by the decoding. *)
Lemma decodeTelegram_header (vs : list value) (data : gmap string (list string))
  (t : value) (errs : option (list string)) :
  length vs = length (fields_of Telegram) ->
  decodeTelegram (VStruct vs) data = Returns (Some t, errs) ->
  get_field Telegram "HeaderMarker" t = vs !! 0%nat /\
  get_field Telegram "HeaderId" t = vs !! 1%nat.
Proof.
  intros Hlen Hdec.
  destruct registries_wellTagged as (HwT & HwE & HwM & HwG).
  unfold decodeTelegram in Hdec.
  destruct (fillStruct_effect (fields_of Telegram) vs data HwT)
    as (e0 & vs0 & d0 & Hfill & Hl0 & _ & _).
  assert (Hslots : vs0 !! 0%nat = vs !! 0%nat /\ vs0 !! 1%nat = vs !! 1%nat).
  { unfold fillStruct in Hfill.
    destruct (fillFields (fields_of Telegram) 0 (mkFill [] data vs)) as [st' | msg] eqn:Hrun;
      [| done].
    rewrite outcome_bind_Returns in Hfill. injection Hfill as _ <- _.
    split.
    - by apply (fillFields_untagged_slot _ 0 0 (Field "HeaderMarker" TString []) _ _ Hrun).
    - by apply (fillFields_untagged_slot _ 0 1 (Field "HeaderId" TString []) _ _ Hrun). }
  destruct Hslots as [Hs0 Hs1].
  change (TStruct (fields_of Telegram)) with Telegram in Hfill.
  rewrite Hfill, outcome_bind_Returns in Hdec. cbv beta iota in Hdec.
  destruct (fillBlock_effect "1-0:1.8.1" (fields_of ElectricityData) "Electricity"
              ([] ++ e0) vs0 d0 HwE) as (e1 & vs1 & d1 & Hb1 & Hl1 & Hk1 & _).
  change (TStruct (fields_of ElectricityData)) with ElectricityData in Hb1.
  rewrite Hb1, outcome_bind_Returns in Hdec.
  destruct (fillBlock_effect "1-0:41.7.0" (fields_of MultiphaseElectricityData)
              "MultiphaseElectricity" e1 vs1 d1 HwM)
    as (e2 & vs2 & d2 & Hb2 & Hl2 & Hk2 & _).
  change (TStruct (fields_of MultiphaseElectricityData))
    with MultiphaseElectricityData in Hb2.
  rewrite Hb2, outcome_bind_Returns in Hdec.
  destruct (fillBlock_effect "0-1:24.2.1" (fields_of GasData) "Gas" e2 vs2 d2 HwG)
    as (e3 & vs3 & d3 & Hb3 & Hl3 & Hk3 & _).
  change (TStruct (fields_of GasData)) with GasData in Hb3.
  rewrite Hb3, outcome_bind_Returns in Hdec. cbv beta iota in Hdec.
  injection Hdec as <- _.
  unfold get_field, set_field.
  change (field_index (fields_of Telegram) "Other") with (Some 10%nat).
  change (field_index (fields_of Telegram) "HeaderMarker") with (Some 0%nat).
  change (field_index (fields_of Telegram) "HeaderId") with (Some 1%nat).
  cbv beta iota.
  rewrite !list_lookup_insert_ne by lia.
  rewrite !Hk3, !Hk2, !Hk1 by (vm_compute; congruence).
  by rewrite Hs0, Hs1.
Qed.

End Decode.

Lemma decodeTelegram_residual_witness :
  length (zeros (fields_of Telegram)) = length (fields_of Telegram) /\
  exists t errs other,
    decodeTelegram (golib := Reference.lib) (VStruct (zeros (fields_of Telegram)))
      residual_data = Returns (Some t, errs) /\
    get_field Telegram "Other" t = Some (VMap (Some other)) /\
    other !! "0-0:96.1.1" = None /\
    other !! "0-2:24.1.0" = Some ["003"].
Proof.
  split; [reflexivity |].
  destruct (decodeTelegram_residual (golib := Reference.lib)
              (zeros (fields_of Telegram)) residual_data eq_refl)
    as (t & errs & other & Hdec & Hother & Hres).
  exists t, errs, other. split; [exact Hdec |]. split; [exact Hother |].
  split; rewrite Hres; reflexivity.
Defined.

(** ** Checksum validation *)

Lemma uint16_range (z : Z) : (0 <= uint16 z < 65536)%Z.
Proof. unfold uint16. apply Z.mod_pos_bound. lia. Qed.

Lemma lxor_uint16_range (a b : Z) :
  (0 <= a < 65536)%Z -> (0 <= b < 65536)%Z -> (0 <= Z.lxor a b < 65536)%Z.
Proof.
  intros Ha Hb.
  assert (Hnn : (0 <= Z.lxor a b)%Z) by (apply Z.lxor_nonneg; lia).
  split; [exact Hnn |].
  destruct (Z.eq_dec (Z.lxor a b) 0%Z) as [-> | Hne]; [lia |].
  change 65536%Z with (2 ^ 16)%Z. apply Z.log2_lt_pow2; [lia |].
  pose proof (Z.log2_lxor a b ltac:(lia) ltac:(lia)) as Hlog.
  assert (Hla : (Z.log2 a < 16)%Z).
  { destruct (Z.eq_dec a 0%Z) as [-> | ?]; [reflexivity |].
    apply Z.log2_lt_pow2; [lia |]. change (2 ^ 16)%Z with 65536%Z. lia. }
  assert (Hlb : (Z.log2 b < 16)%Z).
  { destruct (Z.eq_dec b 0%Z) as [-> | ?]; [reflexivity |].
    apply Z.log2_lt_pow2; [lia |]. change (2 ^ 16)%Z with 65536%Z. lia. }
  lia.
Qed.

Section Checksum.
Context {golib : GoLibraries}.

Lemma crc_range (data : string) : (0 <= crc data < 65536)%Z.
Proof. unfold crc. apply lxor_uint16_range; [apply uint16_range | lia]. Qed.

Lemma decodeTelegram_shape (ret : value) (data : gmap string (list string))
  (res : Result) :
  decodeTelegram ret data = Returns res ->
  exists t errs, res = (Some t, errs) /\ errs <> Some [].
Proof.
  unfold decodeTelegram.
  destruct (fillStruct Telegram ret data) as [[[e0 r0] d0] | msg]; [| done].
  rewrite outcome_bind_Returns. cbv beta iota.
  destruct (fillBlock "1-0:1.8.1" _ _ _) as [acc1 | msg]; [| done].
  rewrite outcome_bind_Returns.
  destruct (fillBlock "1-0:41.7.0" _ _ _) as [acc2 | msg]; [| done].
  rewrite outcome_bind_Returns.
  destruct (fillBlock "0-1:24.2.1" _ _ _) as [[[e3 r3] d3] | msg]; [| done].
  rewrite outcome_bind_Returns. cbv beta iota.
  intros [= <-]. eexists _, _. split; [reflexivity |].
  destruct e3; simpl; congruence.
Qed.

(** C3.  The checksum is the 16-bit CRC that [crc16.Update] gives for the
    IBM table from the seed 0xFFFF over the body followed by '!', XORed
    with 0xFFFF; the footer after its marker byte is parsed as a
    hexadecimal integer; the two being equal lets the telegram through to
    line splitting and decoding, a difference gives the one error
    "CRC mismatch" and no Telegram; a Telegram is returned only if they
    are equal, and the footer then is a 16-bit value. *)
Theorem checksum_validation (ret : value) (checkSumBody : string)
  (rawLines : list string) (checkSumLine : string) :
  let crc1 := crc (checkSumBody +:+ "!") in
  crc1 = Z.lxor (uint16 (crc16_Update_IBMTable 65535 (checkSumBody +:+ "!"))) 65535 /\
  (0 <= crc1 < 65536)%Z /\
  match ParseInt (TrimSpace (slice_from 1 checkSumLine)) 16 32 with
  | inl crc2 =>
      (crc1 = crc2 ->
       checkAndDecode ret checkSumBody rawLines checkSumLine
       = (parsed ← parseLines rawLines;
          match parsed with
          | inr err => mret (None, Some [err])
          | inl data => decodeTelegram ret data
          end)) /\
      (crc1 <> crc2 ->
       checkAndDecode ret checkSumBody rawLines checkSumLine
       = Returns (None, Some ["CRC mismatch"]))
  | inr err =>
      checkAndDecode ret checkSumBody rawLines checkSumLine
      = Returns (None, Some ["Could not parse checksum: " +:+ err])
  end /\
  (forall t errs,
      checkAndDecode ret checkSumBody rawLines checkSumLine = Returns (Some t, errs) ->
      checksumMatches checkSumBody checkSumLine /\
      exists crc2,
        ParseInt (TrimSpace (slice_from 1 checkSumLine)) 16 32 = inl crc2 /\
        (0 <= crc2 < 65536)%Z /\ crc2 = crc1).
Proof.
  intros crc1. split; [reflexivity |]. split; [apply crc_range |].
  unfold checkAndDecode, checksumMatches. fold crc1.
  destruct (ParseInt _ 16 32) as [crc2 | err].
  - destruct (Z.eqb_spec crc1 crc2) as [Heq | Hne]; simpl.
    + repeat split; try done.
      * by rewrite Heq.
      * exists crc2. rewrite <- Heq. repeat split; apply crc_range.
    + repeat split; try done.
  - split; [done |]. intros t errs [=].
Qed.

End Checksum.

Lemma checksum_validation_witness :
  checksumMatches (golib := Reference.lib) clean_body clean_footer /\
  crc (golib := Reference.lib) (clean_body +:+ "!") = 59266%Z /\
  exists t, checkAndDecode (golib := Reference.lib) (zero Telegram)
              clean_body clean_rawLines clean_footer = Returns (Some t, None).
Proof.
  pose proof (checksum_validation (golib := Reference.lib) (zero Telegram)
                clean_body clean_rawLines clean_footer) as (_ & _ & Hstage & _).
  assert (Hparse : ParseInt (GoLibraries := Reference.lib)
                     (TrimSpace (GoLibraries := Reference.lib)
                        (slice_from 1 clean_footer)) 16 32
                   = inl 59266%Z) by (vm_compute; reflexivity).
  assert (Hcrc : crc (golib := Reference.lib) (clean_body +:+ "!") = 59266%Z)
    by (vm_compute; reflexivity).
  split; [unfold checksumMatches; rewrite Hparse, Hcrc; reflexivity |].
  split; [exact Hcrc |].
  rewrite Hparse in Hstage. destruct Hstage as [Hpass _].
  rewrite (Hpass Hcrc). eexists. vm_compute. reflexivity.
Defined.

(** The check value of CRC-16/ARC. *)
Example crc_check_value : crc (golib := Reference.lib) "123456789" = 47933%Z.
Proof. vm_compute. reflexivity. Qed.

(** ** Framing and the reader goroutine *)

Section Framing.
Context {golib : GoLibraries}.

Lemma checkAndDecode_shape (ret : value) (body : string) (rawLines : list string)
  (footer : string) (res : Result) :
  checkAndDecode ret body rawLines footer = Returns res ->
  (exists e, res = (None, Some [e])) \/
  (exists t errs, res = (Some t, errs) /\ errs <> Some []).
Proof.
  unfold checkAndDecode.
  destruct (ParseInt _ 16 32) as [crc2 | err]; [| intros [= <-]; left; by eexists].
  destruct (negb _); [intros [= <-]; left; by eexists |].
  destruct (parseLines rawLines) as [[data | err] | msg]; [| | done].
  - rewrite outcome_bind_Returns. intros Hdec. right.
    by apply decodeTelegram_shape in Hdec.
  - rewrite outcome_bind_Returns. intros [= <-]. left. by eexists.
Qed.

(** What [readTelegram] can return: one fatal error and no Telegram, or a
    Telegram with the field-level errors, the nil slice when there are
    none. *)
Lemma readTelegram_shape (fuel : nat) (r r' : Reader) (res : Result) :
  readTelegram fuel r = Some (Returns (res, r')) ->
  (exists e, res = (None, Some [e])) \/
  (exists t errs, res = (Some t, errs) /\ errs <> Some []).
Proof.
  unfold readTelegram.
  destruct (waitHeader fuel r) as [[[line | err] r1] |]; [| | done].
  2:{ intros [= <- <-]. left. by eexists. }
  destruct (String.length line <? 5)%nat; [intros [= <- <-]; left; by eexists |].
  destruct (String.length line <? 6)%nat; [done |].
  destruct (ReadBytes r1) as [[line2 err2] r2].
  destruct err2 as [e |]; [intros [= <- <-]; left; by eexists |].
  destruct (negb _); [intros [= <- <-]; left; by eexists |].
  destruct (readData fuel r2 _ []) as [[[[body rawLines] footer] r3] |]; [| done].
  destruct (checkAndDecode _ body rawLines footer) as [res' | msg] eqn:Hcd; [| done].
  rewrite outcome_bind_Returns. intros [= <- <-].
  by apply checkAndDecode_shape in Hcd.
Qed.

Lemma checkAndDecode_valid (vs : list value) (body : string)
  (rawLines : list string) (footer : string) (data : gmap string (list string)) :
  checksumMatches body footer ->
  parseLines rawLines = Returns (inl data) ->
  exists t errs,
    checkAndDecode (VStruct vs) body rawLines footer = Returns (Some t, errs) /\
    errs <> Some [].
Proof.
  intros Hsum Hparse. unfold checkAndDecode.
  rewrite Hsum, Z.eqb_refl, Hparse, outcome_bind_Returns. simpl negb. cbv iota.
  destruct (decodeTelegram_returns vs data) as (t & errs & Hdec).
  exists t, errs. split; [exact Hdec |].
  apply decodeTelegram_shape in Hdec as (t' & errs' & [= <- <-] & Hne). exact Hne.
Qed.


(** The error paths of the two reads that look at [err]. *)
Lemma readTelegram_header_read_error (fuel : nat) (r r1 : Reader) (e : string) :
  waitHeader fuel r = Some (inr e, r1) ->
  readTelegram fuel r = Some (Returns (None, Some [e], r1)) /\
  meterIteration fuel r = Some (Returns (Log [e], r1)).
Proof.
  intros Hw. unfold meterIteration, readTelegram. by rewrite Hw.
Qed.

Lemma readTelegram_separator_read_error (fuel : nat) (r r1 r2 : Reader)
  (header line e : string) :
  waitHeader fuel r = Some (inl header, r1) ->
  (6 <= String.length header)%nat ->
  ReadBytes r1 = (line, Some e, r2) ->
  readTelegram fuel r = Some (Returns (None, Some [e], r2)) /\
  meterIteration fuel r = Some (Returns (Log [e], r2)).
Proof.
  intros Hw Hlen Hrb. unfold meterIteration, readTelegram. rewrite Hw.
  destruct (Nat.ltb_spec (String.length header) 5); [lia |].
  destruct (Nat.ltb_spec (String.length header) 6); [lia |].
  by rewrite Hrb.
Qed.

(** At the end of the source the loop "read data" never leaves: every
    read gives no bytes and an error that is not looked at. *)
Lemma readData_at_end (fuel : nat) (body : string) (rawLines : list string) :
  readData fuel [] body rawLines = None.
Proof.
  revert body rawLines. induction fuel as [|fuel IH]; intros body rawLines; simpl; [done |].
  apply IH.
Qed.

Lemma readTelegram_short_header (fuel : nat) (r : Reader) (line : string) :
  HasPrefix line "/" = true ->
  (String.length line < 5)%nat ->
  readTelegram (S fuel) ((line, None) :: r)
  = Some (Returns (None, Some ["Header line too short"], r)).
Proof.
  intros Hp Hlen. unfold readTelegram. simpl. rewrite Hp. simpl.
  by destruct (Nat.ltb_spec (String.length line) 5); [| lia].
Qed.

Lemma readTelegram_header_of_five (fuel : nat) (r : Reader) (line : string) :
  HasPrefix line "/" = true ->
  String.length line = 5%nat ->
  readTelegram (S fuel) ((line, None) :: r)
  = Some (Panics "slice bounds out of range [:6]").
Proof.
  intros Hp Hlen. unfold readTelegram. simpl. rewrite Hp. simpl.
  by rewrite Hlen.
Qed.

(** C2, the failing input.  A header line of five bytes passes the test
    [len(line) < 5] and [line[:6]] panics: no framing error is returned. *)
Theorem readTelegram_five_byte_header_panics (fuel : nat) (r : Reader) :
  readTelegram (S fuel) ((five_byte_header, None) :: r)
  = Some (Panics "slice bounds out of range [:6]").
Proof. by apply readTelegram_header_of_five. Qed.



(** The loop goes on after an iteration that logs. *)
Lemma meterLoop_continues (n fuel : nat) (r r' : Reader) (ev : event) :
  meterIteration fuel r = Some (Returns (ev, r')) ->
  meterLoop (S n) fuel r
  = match meterLoop n fuel r' with
    | Some (Returns (evs, r'')) => Some (Returns (ev :: evs, r''))
    | other => other
    end.
Proof.
  intros Hit. simpl. rewrite Hit.
  by destruct (meterLoop n fuel r') as [[[evs r''] | msg] |].
Qed.

End Framing.


(** C1, counterexample.  The telegram is framed and its checksum is valid;
    it lacks the version and the timestamp.  [readTelegram] returns the
    Telegram with two field-level errors, and the goroutine logs them
    instead of sending the Telegram. *)
Lemma meterIteration_drops_telegram_with_field_errors :
  exists t,
    readTelegram (golib := Reference.lib) 2 incomplete_telegram
    = Some (Returns (Some t,
                     Some ["Missing data for 1-3:0.2.8"; "Missing data for 0-0:1.0.0"],
                     [])) /\
    get_field Telegram "ID" t = Some (VString "4B384547") /\
    meterIteration (golib := Reference.lib) 2 incomplete_telegram
    = Some (Returns (Log ["Missing data for 1-3:0.2.8"; "Missing data for 0-0:1.0.0"],
                     [])) /\
    forall t', meterIteration (golib := Reference.lib) 2 incomplete_telegram
               <> Some (Returns (Send t', [])).
Proof.
  eexists. split; [vm_compute; reflexivity |].
  split; [vm_compute; reflexivity |].
  assert (Hlog : meterIteration (golib := Reference.lib) 2 incomplete_telegram
                 = Some (Returns (Log ["Missing data for 1-3:0.2.8";
                                       "Missing data for 0-0:1.0.0"], [])))
    by (vm_compute; reflexivity).
  split; [exact Hlog |].
  intros t'. rewrite Hlog. discriminate.
Qed.

(** C4, the failing input.  The source ends after the separator line: the
    loop "read data" does not look at the error of [ReadBytes], so
    [readTelegram] never returns, whatever the number of iterations
    allowed. *)
Theorem readTelegram_ignores_read_error_in_data (fuel : nat) :
  readTelegram (golib := Reference.lib) fuel truncated_telegram = None.
Proof.
  destruct fuel as [|fuel]; [reflexivity |].
  unfold readTelegram, truncated_telegram.
  change (waitHeader (S fuel) ((sample_header, None) :: [(Reference.CRLF, None)]))
    with (Some (@inl string string sample_header, [(Reference.CRLF, @None string)])).
  cbv beta iota.
  change (String.length sample_header <? 5)%nat with false.
  change (String.length sample_header <? 6)%nat with false.
  cbv beta iota.
  change (ReadBytes [(Reference.CRLF, None)]) with (Reference.CRLF, @None string, @nil (string * option string)).
  cbv beta iota.
  change (negb (TrimSpace Reference.CRLF =? "")) with false.
  cbv beta iota.
  by rewrite readData_at_end.
Qed.

(** The same slip with a source that recovers: a read fails inside a
    data line, the bytes read so far are taken for a line, and the
    telegram is decoded and sent. *)
Lemma readTelegram_interrupted_is_sent :
  exists t,
    meterIteration (golib := Reference.lib) 6 interrupted_telegram
    = Some (Returns (Send (Some t), [])) /\
    get_field Telegram "Other" t = Some (VMap (Some {[ "0-0:9" := [] ]})).
Proof. eexists. split; vm_compute; reflexivity. Qed.

(** ** Unit normalisation *)

Lemma SplitN_two (v : string) (sep : ascii) :
  SplitN v sep 2 = match cut sep v with
                   | None => [v]
                   | Some (a, b) => [a; b]
                   end.
Proof. simpl. by destruct (cut sep v) as [[a b] |]. Qed.

Lemma normalizedUnits_table (unit_s : string) :
  normalizedUnits !! unit_s = unitFactor unit_s.
Proof.
  unfold normalizedUnits, unitFactor.
  repeat match goal with
         | |- context [String.eqb unit_s ?k] =>
             destruct (String.eqb_spec unit_s k) as [-> | ?];
             [reflexivity | rewrite lookup_insert_ne by congruence]
         end.
  apply lookup_empty.
Qed.

(** The two amounts of the examples, as binary32 numbers: the mantissa
    and the exponent, and the distance to the decimal, below half a unit
    in the last place. *)
Example of_decimal_228_584 :
  Float32.of_decimal 228584 3 = SpecFloat.S754_finite false 14980481 (-16) /\
  (2 * Z.abs (14980481 * 1000 - 228584 * 2 ^ 16) < 1000)%Z.
Proof. split; [reflexivity | vm_compute; reflexivity]. Qed.

Example of_decimal_1_193 :
  Float32.of_decimal 1193 3 = SpecFloat.S754_finite false 10007609 (-23) /\
  (2 * Z.abs (10007609 * 1000 - 1193 * 2 ^ 23) < 1000)%Z.
Proof. split; [reflexivity | vm_compute; reflexivity]. Qed.

Example of_Z_1193 :
  Float32.of_Z 1193 = SpecFloat.S754_finite false (1193 * 2 ^ 13) (-13).
Proof. reflexivity. Qed.

Section Units.
Context {golib : GoLibraries}.

Lemma parseUnit_normalizeQuantity (v : string) :
  parseUnit v = match normalizeQuantity v with
                | inl x => (x, None)
                | inr err => (Float32.zero, Some err)
                end.
Proof.
  unfold parseUnit, normalizeQuantity. rewrite SplitN_two.
  destruct (cut "*" v) as [[amount_s unit_s] |]; [| done].
  destruct (ParseFloat32 amount_s) as [amount | err]; [| done].
  rewrite normalizedUnits_table. by destruct (unitFactor unit_s).
Qed.

(** C5.  [parseUnit] splits its token on the first '*' and wants two
    parts, parses the amount as a floating-point number, multiplies it by
    the factor of the table (kWh 1, kW 1000, W 1, s 1, m3 1, A 1, V 1) and
    fails with "unknown unit" for another suffix.  With a [strconv] that
    reads the three amounts as the nearest [float32], "228.584*kWh" gives
    228.584, "1.193*kW" gives 1193 and "1*XYZ" the unknown-unit error. *)
Theorem parseUnit_normalizes :
  ParseFloat32 "228.584" = inl (Float32.of_decimal 228584 3) ->
  ParseFloat32 "1.193" = inl (Float32.of_decimal 1193 3) ->
  ParseFloat32 "1" = inl (Float32.of_Z 1) ->
  (forall v, parseUnit v = match normalizeQuantity v with
                           | inl x => (x, None)
                           | inr err => (Float32.zero, Some err)
                           end) /\
  (forall amount_s unit_s amount,
      cut "*" amount_s = None ->
      ParseFloat32 amount_s = inl amount ->
      parseUnit (amount_s +:+ "*" +:+ unit_s)
      = match unitFactor unit_s with
        | Some factor => (Float32.mul amount factor, None)
        | None => (Float32.zero,
                   Some ("unknown unit: " +:+ amount_s +:+ "*" +:+ unit_s))
        end) /\
  parseUnit "228.584*kWh" = (Float32.of_decimal 228584 3, None) /\
  parseUnit "1.193*kW" = (Float32.of_Z 1193, None) /\
  parseUnit "1*XYZ" = (Float32.zero, Some "unknown unit: 1*XYZ").
Proof.
  intros H228 H1193 H1.
  split; [apply parseUnit_normalizeQuantity |].
  split.
  { intros amount_s unit_s amount Hcut Hparse.
    rewrite parseUnit_normalizeQuantity. unfold normalizeQuantity.
    assert (Hc : cut "*" (amount_s +:+ "*" +:+ unit_s) = Some (amount_s, unit_s)).
    { clear Hparse. induction amount_s as [|c s IH]; simpl in *; [done |].
      destruct (Ascii.eqb c "*"); [done |].
      destruct (cut "*" s) as [[a b] |]; [done |]. by rewrite IH. }
    rewrite Hc, Hparse. by destruct (unitFactor unit_s). }
  rewrite !parseUnit_normalizeQuantity. unfold normalizeQuantity.
  change (cut "*" "228.584*kWh") with (Some ("228.584", "kWh")).
  change (cut "*" "1.193*kW") with (Some ("1.193", "kW")).
  change (cut "*" "1*XYZ") with (Some ("1", "XYZ")).
  cbv beta iota. rewrite H228, H1193, H1.
  repeat split; reflexivity.
Qed.

End Units.

Lemma parseUnit_normalizes_witness :
  ParseFloat32 (GoLibraries := Reference.lib) "228.584"
  = inl (Float32.of_decimal 228584 3) /\
  ParseFloat32 (GoLibraries := Reference.lib) "1.193"
  = inl (Float32.of_decimal 1193 3) /\
  ParseFloat32 (GoLibraries := Reference.lib) "1" = inl (Float32.of_Z 1) /\
  parseUnit (golib := Reference.lib) "1.193*kW" = (Float32.of_Z 1193, None).
Proof.
  split; [reflexivity |]. split; [reflexivity |]. split; [reflexivity |].
  apply (parseUnit_normalizes (golib := Reference.lib) eq_refl eq_refl eq_refl).
Defined.

(** Two telegrams in a row: the first one, with field-level errors, is
    logged; the loop goes on and sends the second one. *)
Example meterLoop_two_telegrams :
  exists t,
    meterLoop (golib := Reference.lib) 2 4 two_telegrams
    = Some (Returns ([Log ["Missing data for 1-3:0.2.8"; "Missing data for 0-0:1.0.0"];
                      Send (Some t)], [])) /\
    get_field Telegram "P1Version" t = Some (VString "50").
Proof. eexists. split; vm_compute; reflexivity. Qed.

(** * Further properties *)

(** ** Strings *)

Lemma append_cons (x : ascii) (a b : string) :
  String x a +:+ b = String x (a +:+ b).
Proof. reflexivity. Qed.

Lemma append_nil (b : string) : "" +:+ b = b.
Proof. reflexivity. Qed.

Lemma length_append (a b : string) :
  String.length (a +:+ b) = (String.length a + String.length b)%nat.
Proof.
  induction a as [|c a IH]; [done |]. rewrite append_cons. simpl. by rewrite IH.
Qed.

Lemma append_assoc (a b c : string) : (a +:+ b) +:+ c = a +:+ (b +:+ c).
Proof.
  induction a as [|x a IH]; [done |]. by rewrite !append_cons, IH.
Qed.

Lemma append_empty_r (a : string) : a +:+ "" = a.
Proof.
  induction a as [|x a IH]; [done |]. by rewrite append_cons, IH.
Qed.

Lemma substring_all (a : string) : String.substring 0 (String.length a) a = a.
Proof. induction a as [|x a IH]; simpl; [done | by rewrite IH]. Qed.

Lemma substring_append_take (a b : string) :
  String.substring 0 (String.length a) (a +:+ b) = a.
Proof.
  induction a as [|x a IH]; [by destruct b |].
  rewrite append_cons. simpl. by rewrite IH.
Qed.

Lemma substring_append_skip (a b : string) (n : nat) :
  String.substring (String.length a) n (a +:+ b) = String.substring 0 n b.
Proof.
  induction a as [|x a IH]; [done |]. rewrite append_cons. simpl. exact IH.
Qed.

Lemma HasSuffix_closing (a : string) : HasSuffix (a +:+ ")") ")" = true.
Proof.
  unfold HasSuffix. rewrite length_append. simpl.
  replace (String.length a + 1 - 1)%nat with (String.length a) by lia.
  rewrite substring_append_skip. simpl.
  by destruct (String.length a + 1)%nat eqn:E; [lia |].
Qed.

Lemma slice_to_closing (a : string) :
  slice_to (String.length (a +:+ ")") - 1) (a +:+ ")") = a.
Proof.
  unfold slice_to. rewrite length_append. simpl.
  replace (String.length a + 1 - 1)%nat with (String.length a) by lia.
  apply substring_append_take.
Qed.

Lemma HasPrefix_empty (s : string) : HasPrefix s "" = true.
Proof. by destruct s. Qed.

Lemma HasPrefix_append (l c : string) :
  l <> "" -> HasPrefix (l +:+ c) "(" = HasPrefix l "(".
Proof.
  destruct l as [|x l]; [done |]. intros _. rewrite append_cons. simpl.
  by rewrite !HasPrefix_empty.
Qed.

(** ** [strings.Split] on written lines *)

Lemma split_pieces_no_sep (sep : ascii) (s : string) :
  occurs sep s = false -> split_pieces sep s = (s, []).
Proof.
  induction s as [|c s IH]; simpl; [done |].
  intros [Hc Hs]%orb_false_elim. rewrite (IH Hs), Hc. done.
Qed.

Lemma split_pieces_append (sep : ascii) (s t : string) :
  occurs sep s = false ->
  split_pieces sep (s +:+ String sep t)
  = (s, (split_pieces sep t).1 :: (split_pieces sep t).2).
Proof.
  induction s as [|c s IH].
  - intros _. rewrite append_nil. simpl. rewrite Ascii.eqb_refl.
    by destruct (split_pieces sep t).
  - simpl occurs. intros [Hc Hs]%orb_false_elim.
    rewrite append_cons. simpl. rewrite (IH Hs), Hc. done.
Qed.

Lemma split_pieces_formatArgs (s : string) (args : list string) :
  occurs "(" s = false ->
  forallb (fun a => negb (occurs "(" a)) args = true ->
  split_pieces "(" (s +:+ formatArgs args) = (s, (fun a => a +:+ ")") <$> args).
Proof.
  revert s. induction args as [|a args IH]; intros s Hs Hargs.
  - simpl. rewrite append_empty_r. by apply split_pieces_no_sep.
  - apply andb_prop in Hargs as [Ha Hargs]. apply negb_true_iff in Ha.
    change (formatArgs (a :: args))
      with (String "(" (a +:+ ")" +:+ formatArgs args)).
    rewrite split_pieces_append by done.
    rewrite <- append_assoc, IH; [done | | done].
    clear -Ha. induction a as [|c a IHa]; [done |].
    rewrite append_cons. simpl in *.
    apply orb_false_elim in Ha as [-> Ha]. by rewrite IHa.
Qed.

Lemma formatLine_code (entry : string * list string) :
  writable entry = true -> codeOf (formatLine entry) = entry.1.
Proof.
  destruct entry as [code args]. unfold writable, codeOf, formatLine. simpl.
  intros [[_ Hc%negb_true_iff]%andb_prop Ha]%andb_prop.
  by rewrite split_pieces_formatArgs.
Qed.

Lemma formatLine_args (entry : string * list string) :
  writable entry = true -> lineArgs (formatLine entry) = entry.2.
Proof.
  destruct entry as [code args]. unfold writable, lineArgs, formatLine. simpl.
  intros [[_ Hc%negb_true_iff]%andb_prop Ha]%andb_prop.
  rewrite split_pieces_formatArgs by done. simpl. clear Ha.
  induction args as [|a args IH]; [done |].
  rewrite fmap_cons. simpl. by rewrite slice_to_closing, IH.
Qed.

Lemma formatLine_wellFormed (entry : string * list string) :
  writable entry = true -> wellFormedLine (formatLine entry) = true.
Proof.
  destruct entry as [code args]. unfold writable, wellFormedLine, formatLine. simpl.
  intros [[_ Hc%negb_true_iff]%andb_prop Ha]%andb_prop.
  rewrite split_pieces_formatArgs by done. simpl. clear Ha.
  induction args as [|a args IH]; [done |].
  rewrite fmap_cons. simpl. by rewrite HasSuffix_closing, IH.
Qed.

Lemma formatLine_not_continuation (entry : string * list string) :
  writable entry = true -> HasPrefix (formatLine entry) "(" = false.
Proof.
  destruct entry as [code args]. unfold writable, formatLine. simpl.
  intros [[Hne%negb_true_iff Hc%negb_true_iff]%andb_prop _]%andb_prop.
  destruct code as [|c s]; [done |]. rewrite append_cons. simpl in *.
  apply orb_false_elim in Hc as [-> _]. done.
Qed.

(** ** [parseLines]: when it returns a mapping, and which *)

Lemma insertLines_cons (line : string) (lines : list string)
  (ret : gmap string (list string)) :
  insertLines (line :: lines) ret
  = insertLines lines (<[codeOf line := lineArgs line]> ret).
Proof. reflexivity. Qed.

Lemma insertLines_lookup_other (lines : list string)
  (ret : gmap string (list string)) (c : string) :
  c ∉ codeOf <$> lines -> insertLines lines ret !! c = ret !! c.
Proof.
  revert ret. induction lines as [|line lines IH]; intros ret Hc; [done |].
  rewrite fmap_cons in Hc. apply not_elem_of_cons in Hc as [Hne Hc].
  rewrite insertLines_cons, IH by done. by apply lookup_insert_ne.
Qed.

Lemma insertLines_lookup (lines : list string)
  (ret : gmap string (list string)) (l : string) :
  NoDup (codeOf <$> lines) -> l ∈ lines ->
  insertLines lines ret !! codeOf l = Some (lineArgs l).
Proof.
  revert ret. induction lines as [|line lines IH]; intros ret Hnd Hl.
  - by apply elem_of_nil in Hl.
  - rewrite fmap_cons in Hnd. apply NoDup_cons in Hnd as [Hfresh Hnd].
    rewrite insertLines_cons.
    apply elem_of_cons in Hl as [-> | Hl]; [| by apply IH].
    rewrite insertLines_lookup_other by done. apply lookup_insert_eq.
Qed.

Lemma parseEach_inl_iff (lines : list string) (ret m : gmap string (list string)) :
  parseEach lines ret = inl m <->
  forallb wellFormedLine lines = true /\
  NoDup (codeOf <$> lines) /\
  (forall l, l ∈ lines -> ret !! codeOf l = None) /\
  m = insertLines lines ret.
Proof.
  revert ret. induction lines as [|line lines IH]; intros ret.
  - simpl. split.
    + intros [= <-]. repeat split; try done. apply NoDup_nil_2.
      intros l Hl. by apply elem_of_nil in Hl.
    + intros (_ & _ & _ & ->). done.
  - simpl parseEach. rewrite Split_codeOf, parseArgs_spec.
    fold (wellFormedLine line). simpl forallb.
    destruct (wellFormedLine line) eqn:Hwf.
    2:{ split; [done | by intros (? & _)]. }
    change ([] ++ map _ (split_pieces "(" line).2) with (lineArgs line).
    destruct (ret !! codeOf line) as [old |] eqn:Hret.
    { split; [done |]. intros (_ & _ & Hfree & _).
      rewrite (Hfree line) in Hret by apply list_elem_of_here. done. }
    rewrite IH, fmap_cons, NoDup_cons, insertLines_cons. simpl.
    split.
    + intros (Hall & Hnd & Hfree & ->). repeat split; try done.
      * intros (l & Hcode & Hl)%list_elem_of_fmap.
        specialize (Hfree l Hl). rewrite <- Hcode, lookup_insert_eq in Hfree. done.
      * intros l [-> | Hl]%elem_of_cons; [done |].
        specialize (Hfree l Hl). by apply lookup_insert_None in Hfree as [? _].
    + intros (Hall & [Hfresh Hnd] & Hfree & ->). repeat split; try done.
      intros l Hl. apply lookup_insert_None. split.
      * apply Hfree. by apply list_elem_of_further.
      * intros Heq. apply Hfresh. rewrite Heq. by apply list_elem_of_fmap_2.
Qed.

Lemma mergeLines_no_continuation (rawLines lines : list string) :
  Forall (fun l => HasPrefix l "(" = false) rawLines ->
  mergeLines rawLines lines = Returns (lines ++ rawLines).
Proof.
  revert lines. induction rawLines as [|l rest IH]; intros lines Hall; simpl.
  - by rewrite app_nil_r.
  - apply Forall_cons in Hall as [-> Hall]. rewrite IH by done.
    by rewrite <- app_assoc.
Qed.

(** X1.  [parseLines] returns a mapping exactly when every merged line is
    well formed and no two of them have the same code; the mapping then
    gives each code the arguments of its line, and nothing else. *)
Theorem parseLines_returns_mapping_iff (rawLines lines : list string)
  (m : gmap string (list string)) :
  mergeLines rawLines [] = Returns lines ->
  (parseLines rawLines = Returns (inl m) <->
   forallb wellFormedLine lines = true /\
   NoDup (codeOf <$> lines) /\
   m = insertLines lines ∅) /\
  (NoDup (codeOf <$> lines) ->
   (forall l, l ∈ lines -> insertLines lines ∅ !! codeOf l = Some (lineArgs l)) /\
   (forall c, c ∉ codeOf <$> lines -> insertLines lines ∅ !! c = None)).
Proof.
  intros Hmerge. split.
  - unfold parseLines. rewrite Hmerge, outcome_bind_Returns.
    split.
    + intros [= Hp]. apply parseEach_inl_iff in Hp as (? & ? & _ & ?). done.
    + intros (Hwf & Hnd & ->). unfold mret, outcome_ret. f_equal.
      apply parseEach_inl_iff. repeat split; done.
  - intros Hnd. split.
    + intros l Hl. by apply insertLines_lookup.
    + intros c Hc. by rewrite insertLines_lookup_other.
Qed.

Lemma parseLines_returns_mapping_iff_witness :
  mergeLines sample_rawLines []
  = Returns ["1-0:99.97.0(2)(0-0:96.7.19)(101208152415W)(0000000240*s)"; "0-0:1.0.0(x)"] /\
  exists m, parseLines sample_rawLines = Returns (inl m) /\
            m !! "0-0:1.0.0" = Some ["x"].
Proof.
  split; [reflexivity |].
  destruct (parseLines_returns_mapping_iff sample_rawLines _
              (insertLines ["1-0:99.97.0(2)(0-0:96.7.19)(101208152415W)(0000000240*s)";
                            "0-0:1.0.0(x)"] ∅) eq_refl) as [[_ Hok] _].
  eexists. split; [apply Hok |].
  - split; [reflexivity |]. split; [| reflexivity].
    apply (bool_decide_unpack _). vm_compute. reflexivity.
  - vm_compute. reflexivity.
Defined.

(** X2.  Writing and reading back: lines written from entries with
    distinct, non-empty codes, no '(' in codes and arguments, are parsed
    into the mapping of these entries. *)
Theorem parseLines_formatLine (entries : list (string * list string)) :
  forallb writable entries = true ->
  NoDup entries.*1 ->
  exists m,
    parseLines (formatLine <$> entries) = Returns (inl m) /\
    (forall code args, (code, args) ∈ entries -> m !! code = Some args) /\
    (forall c, c ∉ entries.*1 -> m !! c = None).
Proof.
  intros Hw Hnd.
  assert (Hall : forall e, e ∈ entries -> writable e = true).
  { intros e He. rewrite forallb_forall in Hw. apply Hw. by apply list_elem_of_In. }
  assert (Hcodes : codeOf <$> (formatLine <$> entries) = entries.*1).
  { rewrite <- list_fmap_compose. apply list_fmap_ext.
    intros i e He. simpl. apply formatLine_code, Hall.
    by eapply list_elem_of_lookup_2. }
  assert (Hmerge : mergeLines (formatLine <$> entries) [] = Returns (formatLine <$> entries)).
  { rewrite mergeLines_no_continuation; [done |].
    apply Forall_fmap, Forall_forall. intros e He. simpl.
    by apply formatLine_not_continuation, Hall. }
  exists (insertLines (formatLine <$> entries) ∅).
  split; [| split].
  - unfold parseLines. rewrite Hmerge, outcome_bind_Returns.
    unfold mret, outcome_ret. f_equal. apply parseEach_inl_iff.
    repeat split; try done; [| by rewrite Hcodes].
    apply forallb_forall. intros l Hl%list_elem_of_In.
    apply list_elem_of_fmap in Hl as (e & -> & He).
    by apply formatLine_wellFormed, Hall.
  - intros code args He.
    assert (Hlk : insertLines (formatLine <$> entries) ∅
                    !! codeOf (formatLine (code, args))
                  = Some (lineArgs (formatLine (code, args)))).
    { apply insertLines_lookup; [by rewrite Hcodes | by apply list_elem_of_fmap_2]. }
    rewrite formatLine_code, formatLine_args in Hlk by (by apply Hall).
    exact Hlk.
  - intros c Hc. rewrite insertLines_lookup_other; [done | by rewrite Hcodes].
Qed.

Lemma parseLines_formatLine_witness :
  forallb writable sample_entries = true /\
  NoDup sample_entries.*1 /\
  exists m,
    parseLines (formatLine <$> sample_entries) = Returns (inl m) /\
    m !! "0-1:24.2.1" = Some ["170108160000W"; "00012.345*m3"].
Proof.
  assert (Hnd : NoDup sample_entries.*1).
  { apply (bool_decide_unpack _). vm_compute. reflexivity. }
  split; [reflexivity |]. split; [exact Hnd |].
  destruct (parseLines_formatLine sample_entries eq_refl Hnd) as (m & Hp & Hin & _).
  exists m. split; [exact Hp |].
  apply Hin. apply list_elem_of_further, list_elem_of_here.
Defined.

(** ** [parseLines]: a line broken before an argument *)

Lemma mergeLines_code_line (raw : string) (rest acc : list string) :
  HasPrefix raw "(" = false ->
  mergeLines (raw :: rest) acc = mergeLines rest (acc ++ [raw]).
Proof. intros Hp. simpl. by rewrite Hp. Qed.

Lemma mergeLines_orphan (raw : string) (rest : list string) :
  HasPrefix raw "(" = true ->
  mergeLines (raw :: rest) [] = Panics "index out of range [-1]".
Proof. intros Hp. simpl. by rewrite Hp. Qed.

Lemma mergeLines_join (a b : list string) (l c : string) (acc : list string) :
  l <> "" ->
  HasPrefix c "(" = true ->
  mergeLines (a ++ l :: c :: b) acc = mergeLines (a ++ (l +:+ c) :: b) acc.
Proof.
  intros Hl Hc. revert acc. induction a as [|x a IH]; intros acc.
  - rewrite !app_nil_l.
    pose proof (HasPrefix_append l c Hl) as Hlc.
    destruct (HasPrefix l "(") eqn:Hp.
    + destruct acc as [|y acc' _] using rev_ind.
      * rewrite (mergeLines_orphan l) by done.
        by rewrite (mergeLines_orphan (l +:+ c)) by done.
      * rewrite (mergeLines_continuation l) by done.
        rewrite (mergeLines_continuation c) by done.
        rewrite (mergeLines_continuation (l +:+ c)) by done.
        by rewrite append_assoc.
    + rewrite (mergeLines_code_line l) by done.
      rewrite (mergeLines_code_line (l +:+ c)) by done.
      by rewrite mergeLines_continuation by done.
  - rewrite <- !app_comm_cons. simpl.
    destruct (HasPrefix x "("); [| apply IH].
    destruct (_ <? 0)%Z; [done |].
    destruct (acc !! _); [apply IH | done].
Qed.

(** X3.  A data line broken in two before one of its arguments gives the
    same result as the unbroken line. *)
Theorem parseLines_broken_line (a b : list string) (l c : string) :
  l <> "" ->
  HasPrefix c "(" = true ->
  parseLines (a ++ l :: c :: b) = parseLines (a ++ (l +:+ c) :: b).
Proof.
  intros Hl Hc. unfold parseLines. by rewrite mergeLines_join.
Qed.

Lemma parseLines_broken_line_witness :
  "1-0:99.97.0(2)(0-0:96.7.19)" <> "" /\
  HasPrefix "(101208152415W)(0000000240*s)" "(" = true /\
  parseLines sample_rawLines
  = parseLines ["1-0:99.97.0(2)(0-0:96.7.19)(101208152415W)(0000000240*s)"; "0-0:1.0.0(x)"].
Proof.
  split; [discriminate |]. split; [reflexivity |].
  apply (parseLines_broken_line [] ["0-0:1.0.0(x)"]
           "1-0:99.97.0(2)(0-0:96.7.19)" "(101208152415W)(0000000240*s)");
    [discriminate | reflexivity].
Defined.

(** ** Framing: how the loops of [readTelegram] go through the source *)

Section Framing2.
Context {golib : GoLibraries}.

Lemma waitHeader_mono (f f' : nat) (r : Reader) (x : (string + string) * Reader) :
  waitHeader f r = Some x -> (f <= f')%nat -> waitHeader f' r = Some x.
Proof.
  revert f' r. induction f as [|f IH]; intros f' r Hw Hle; [done |].
  destruct f' as [|f']; [lia |].
  simpl in *. destruct (ReadBytes r) as [[line err] r1].
  destruct err as [e |]; [done |].
  destruct (negb (HasPrefix line "/")); [| done].
  apply IH; [done | lia].
Qed.

Lemma readData_mono (f f' : nat) (r : Reader) (body : string)
  (raw : list string) (x : string * list string * string * Reader) :
  readData f r body raw = Some x -> (f <= f')%nat -> readData f' r body raw = Some x.
Proof.
  revert f' r body raw. induction f as [|f IH]; intros f' r body raw Hr Hle; [done |].
  destruct f' as [|f']; [lia |].
  simpl in *. destruct (ReadBytes r) as [[line err] r1].
  destruct (HasPrefix line "!"); [done |].
  apply IH; [done | lia].
Qed.

(** More iterations allowed change no result. *)
Lemma readTelegram_mono (f f' : nat) (r : Reader) (x : outcome (Result * Reader)) :
  readTelegram f r = Some x -> (f <= f')%nat -> readTelegram f' r = Some x.
Proof.
  intros Hr Hle. unfold readTelegram in *.
  destruct (waitHeader f r) as [[[line | err] r1] |] eqn:Hw; [| | done];
    rewrite (waitHeader_mono _ _ _ _ Hw Hle); [| done].
  destruct (String.length line <? 5)%nat; [done |].
  destruct (String.length line <? 6)%nat; [done |].
  destruct (ReadBytes r1) as [[line2 err2] r2].
  destruct err2 as [e |]; [done |].
  destruct (negb _); [done |].
  destruct (readData f r2 _ []) as [[[[body rawLines] footer] r3] |] eqn:Hd; [| done].
  by rewrite (readData_mono _ _ _ _ _ _ Hd Hle).
Qed.

Lemma waitHeader_skip (junk : Reader) (f : nat) (r : Reader) :
  Forall skipped junk ->
  waitHeader (length junk + f) (junk ++ r) = waitHeader f r.
Proof.
  induction junk as [|[line err] junk IH]; intros Hj; [done |].
  apply Forall_cons in Hj as [[Herr Hp] Hj]. simpl in *. subst err.
  rewrite Hp. simpl. by apply IH.
Qed.

(** X4.  [readTelegram] skips the lines ahead of the header line: junk in
    front of a telegram, all read without error and none beginning with
    '/', does not change what is returned. *)
Theorem readTelegram_skips_junk (junk : Reader) (f : nat) (r : Reader)
  (x : outcome (Result * Reader)) :
  Forall skipped junk ->
  readTelegram f r = Some x ->
  readTelegram (length junk + f) (junk ++ r) = Some x.
Proof.
  intros Hj Hr. unfold readTelegram in *.
  rewrite waitHeader_skip by done.
  destruct (waitHeader f r) as [[[line | err] r1] |]; [| done | done].
  destruct (String.length line <? 5)%nat; [done |].
  destruct (String.length line <? 6)%nat; [done |].
  destruct (ReadBytes r1) as [[line2 err2] r2].
  destruct err2 as [e |]; [done |].
  destruct (negb _); [done |].
  destruct (readData f r2 _ []) as [[[[body rawLines] footer] r3] |] eqn:Hd; [| done].
  by rewrite (readData_mono f (length junk + f) _ _ _ _ Hd ltac:(lia)).
Qed.

Lemma readData_collect (dlines : Reader) (footer : string) (e : option string)
  (rest : Reader) (k : nat) (body : string) (raw : list string) :
  Forall dataRead dlines ->
  HasPrefix footer "!" = true ->
  readData (length dlines + S k) (dlines ++ (footer, e) :: rest) body raw
  = Some (dataBody body dlines, raw ++ dataRawLines dlines, footer, rest).
Proof.
  intros Hd Hf. revert body raw.
  induction dlines as [|[line err] dlines IH]; intros body raw.
  - simpl. rewrite Hf. by rewrite app_nil_r.
  - apply Forall_cons in Hd as [Hline Hd]. unfold dataRead in Hline. simpl in *.
    rewrite Hline. rewrite IH by done.
    by rewrite <- app_assoc.
Qed.

(* The three loops of readTelegram on a framed telegram. *)
Lemma readTelegram_framed (header sep footer : string) (dlines rest : Reader)
  (e : option string) (fuel : nat) :
  HasPrefix header "/" = true ->
  (6 <= String.length header)%nat ->
  TrimSpace sep = "" ->
  Forall dataRead dlines ->
  HasPrefix footer "!" = true ->
  (length dlines < fuel)%nat ->
  readTelegram fuel ((header, None) :: (sep, None) :: dlines ++ (footer, e) :: rest)
  = Some (res ← checkAndDecode (headerTelegram header)
                  (dataBody (header +:+ sep) dlines) (dataRawLines dlines) footer;
          mret (res, rest)).
Proof.
  intros Hh Hlen Hsep Hd Hf Hfuel.
  destruct fuel as [|fuel]; [lia |].
  unfold readTelegram. simpl waitHeader. rewrite Hh. simpl negb. cbv iota.
  destruct (Nat.ltb_spec (String.length header) 5); [lia |].
  destruct (Nat.ltb_spec (String.length header) 6); [lia |].
  simpl ReadBytes. cbv iota beta. rewrite Hsep. simpl negb. cbv iota.
  replace (S fuel) with (length dlines + S (fuel - length dlines))%nat by lia.
  rewrite readData_collect by done. reflexivity.
Qed.

(** X5.  A framed telegram: a header line of six bytes or more that begins
    with '/', a blank line, data reads none of which begins with '!', a
    footer line.  [readTelegram] consumes exactly these lines, whatever
    the errors of the data reads and of the footer read, and returns what
    checksum validation, line splitting and decoding give for them. *)
Theorem readTelegram_frame (header sep footer : string) (dlines rest : Reader)
  (e : option string) (fuel : nat) :
  HasPrefix header "/" = true ->
  (6 <= String.length header)%nat ->
  TrimSpace sep = "" ->
  Forall dataRead dlines ->
  HasPrefix footer "!" = true ->
  (length dlines < fuel)%nat ->
  readTelegram fuel ((header, None) :: (sep, None) :: dlines ++ (footer, e) :: rest)
  = Some (res ← checkAndDecode (headerTelegram header)
                  (dataBody (header +:+ sep) dlines) (dataRawLines dlines) footer;
          mret (res, rest)).
Proof. intros. by eapply readTelegram_framed. Qed.

End Framing2.

Lemma readTelegram_skips_junk_witness :
  Forall skipped [("0-0:96.1.1(4B38)" +:+ Reference.CRLF, None);
                  ("!0000" +:+ Reference.CRLF, None)] /\
  exists x,
    readTelegram (golib := Reference.lib) 4 clean_telegram = Some x /\
    readTelegram (golib := Reference.lib) 6
      ([("0-0:96.1.1(4B38)" +:+ Reference.CRLF, None);
        ("!0000" +:+ Reference.CRLF, None)] ++ clean_telegram) = Some x.
Proof.
  assert (Hj : Forall skipped [("0-0:96.1.1(4B38)" +:+ Reference.CRLF, None);
                               ("!0000" +:+ Reference.CRLF, None)]).
  { repeat constructor. }
  split; [exact Hj |].
  assert (Hread : exists x, readTelegram (golib := Reference.lib) 4 clean_telegram = Some x).
  { eexists. vm_compute. reflexivity. }
  destruct Hread as [x Hread]. exists x. split; [exact Hread |].
  exact (readTelegram_skips_junk (golib := Reference.lib) _ 4 clean_telegram x Hj Hread).
Defined.

Lemma readTelegram_frame_witness :
  HasPrefix sample_header "/" = true /\
  (6 <= String.length sample_header)%nat /\
  TrimSpace (GoLibraries := Reference.lib) Reference.CRLF = "" /\
  Forall dataRead [(line_P1Version, None); (line_TimeStamp, None); (line_ID, @None string)] /\
  HasPrefix clean_footer "!" = true /\
  (length [(line_P1Version, None); (line_TimeStamp, None); (line_ID, @None string)] < 4)%nat /\
  readTelegram (golib := Reference.lib) 4 clean_telegram
  = Some (res ← checkAndDecode (golib := Reference.lib)
                  (headerTelegram (golib := Reference.lib) sample_header)
                  clean_body clean_rawLines clean_footer;
          mret (res, [])).
Proof.
  assert (Hd : Forall dataRead [(line_P1Version, None); (line_TimeStamp, None);
                                (line_ID, @None string)]).
  { repeat constructor. }
  assert (Hlen : (6 <= String.length sample_header)%nat) by (vm_compute; lia).
  assert (Hfuel : (length [(line_P1Version, None); (line_TimeStamp, None);
                           (line_ID, @None string)] < 4)%nat) by (simpl; lia).
  split; [reflexivity |]. split; [exact Hlen |]. split; [reflexivity |].
  split; [exact Hd |]. split; [reflexivity |]. split; [exact Hfuel |].
  exact (readTelegram_frame (golib := Reference.lib) sample_header Reference.CRLF
           clean_footer _ [] None 4 eq_refl Hlen eq_refl Hd eq_refl Hfuel).
Defined.

Section Framing3.
Context {golib : GoLibraries}.

(** X7.  A framed telegram with a valid checksum whose first data line
    begins, once trimmed, with '(': [parseLines] indexes before the start
    of its empty slice, so [readTelegram] and with it the goroutine of
    [NewMeter] panic. *)
Theorem readTelegram_orphan_continuation_panics (header sep footer line0 : string)
  (e0 e : option string) (dlines rest : Reader) (fuel : nat) :
  HasPrefix header "/" = true ->
  (6 <= String.length header)%nat ->
  TrimSpace sep = "" ->
  Forall dataRead ((line0, e0) :: dlines) ->
  HasPrefix footer "!" = true ->
  (length ((line0, e0) :: dlines) < fuel)%nat ->
  checksumMatches (dataBody (header +:+ sep) ((line0, e0) :: dlines)) footer ->
  HasPrefix (TrimSpace line0) "(" = true ->
  readTelegram fuel
    ((header, None) :: (sep, None) :: ((line0, e0) :: dlines) ++ (footer, e) :: rest)
  = Some (Panics "index out of range [-1]") /\
  meterIteration fuel
    ((header, None) :: (sep, None) :: ((line0, e0) :: dlines) ++ (footer, e) :: rest)
  = Some (Panics "index out of range [-1]").
Proof.
  intros Hh Hlen Hsep Hd Hf Hfuel Hsum Hp.
  assert (Hread : readTelegram fuel
            ((header, None) :: (sep, None) :: ((line0, e0) :: dlines) ++ (footer, e) :: rest)
          = Some (Panics "index out of range [-1]")).
  { rewrite readTelegram_framed by done.
    unfold checkAndDecode. rewrite Hsum, Z.eqb_refl. simpl negb. cbv iota.
    unfold parseLines, dataRawLines. rewrite fmap_cons.
    by rewrite mergeLines_orphan. }
  split; [exact Hread |]. unfold meterIteration. by rewrite Hread.
Qed.

(** X8.  Whatever the source, the goroutine of [NewMeter] never sends a
    nil Telegram on the channel and never logs an empty list of errors;
    [n] iterations that return emit [n] events. *)
Theorem meterLoop_emits_proper_events (n fuel : nat) (r r' : Reader)
  (evs : list event) :
  meterLoop n fuel r = Some (Returns (evs, r')) ->
  length evs = n /\ Forall properEvent evs.
Proof.
  revert r evs. induction n as [|n IH]; intros r evs; simpl.
  - intros [= <- <-]. by split.
  - unfold meterIteration.
    destruct (readTelegram fuel r) as [[[[t err2] r1] | msg] |] eqn:Hread; [| done | done].
    assert (Hev : properEvent (match err2 with Some errs => Log errs | None => Send t end)).
    { destruct (readTelegram_shape _ _ _ _ Hread) as [[e0 [= -> ->]] | (t' & errs & [= -> ->] & Hne)].
      - simpl. discriminate.
      - destruct errs as [errs |]; simpl; [congruence | by eexists]. }
    destruct err2 as [errs |].
    + destruct (meterLoop n fuel r1) as [[[evs' r2] | msg] |] eqn:Hloop; [| done | done].
      intros [= <- <-]. apply IH in Hloop as [Hlen Hall]. simpl. split; [lia |].
      by constructor.
    + destruct (meterLoop n fuel r1) as [[[evs' r2] | msg] |] eqn:Hloop; [| done | done].
      intros [= <- <-]. apply IH in Hloop as [Hlen Hall]. simpl. split; [lia |].
      by constructor.
Qed.

End Framing3.

Lemma readTelegram_orphan_continuation_panics_witness :
  meterIteration (golib := Reference.lib) 2 orphan_telegram
  = Some (Panics "index out of range [-1]").
Proof.
  assert (Hd : Forall dataRead [(orphan_line, @None string)]) by (repeat constructor).
  assert (Hlen : (6 <= String.length sample_header)%nat) by (vm_compute; lia).
  assert (Hfuel : (length [(orphan_line, @None string)] < 2)%nat) by (simpl; lia).
  assert (Hsum : checksumMatches (golib := Reference.lib)
                   (dataBody (sample_header +:+ Reference.CRLF) [(orphan_line, None)])
                   ("!0B5F" +:+ Reference.CRLF)) by (vm_compute; reflexivity).
  assert (Hp : HasPrefix (TrimSpace (GoLibraries := Reference.lib) orphan_line) "(" = true)
    by (vm_compute; reflexivity).
  exact (proj2 (readTelegram_orphan_continuation_panics (golib := Reference.lib)
                  sample_header Reference.CRLF ("!0B5F" +:+ Reference.CRLF) orphan_line
                  None None [] [] 2 eq_refl Hlen eq_refl Hd eq_refl Hfuel Hsum Hp)).
Defined.

Lemma meterLoop_emits_proper_events_witness :
  exists evs,
    meterLoop (golib := Reference.lib) 2 4 two_telegrams = Some (Returns (evs, [])) /\
    length evs = 2%nat /\ Forall properEvent evs.
Proof.
  assert (Hloop : exists evs, meterLoop (golib := Reference.lib) 2 4 two_telegrams
                              = Some (Returns (evs, []))).
  { eexists. vm_compute. reflexivity. }
  destruct Hloop as [evs Hloop]. exists evs. split; [exact Hloop |].
  exact (meterLoop_emits_proper_events (golib := Reference.lib) 2 4 _ _ _ Hloop).
Defined.


(** ** The reflective decoder: what an entry stores and which errors it adds *)

Section Fill2.
Context {golib : GoLibraries}.

Lemma wellTaggedField_fits (f : StructField) (obis : string) :
  wellTaggedField f = true ->
  Tag_Lookup (Tag f) "obis" = Some obis ->
  tagFits (default "" (Tag_Lookup (Tag f) "type"))
    (if isPtr (Type_ f) then Elem (Type_ f) else Type_ f) = true.
Proof.
  unfold wellTaggedField, tagFits. intros Hwt Htag. by rewrite Htag in Hwt.
Qed.

Lemma decodedValue_valid (obis typ : string) (args : list string) (v : value) :
  decodedValue typ args = Some v -> validationError obis typ args = None.
Proof.
  unfold decodedValue, validationError.
  repeat match goal with
         | |- context [match ?x with _ => _ end] => destruct x eqn:?
         end; try done.
  all: intros; simpl in *; congruence.
Qed.

Lemma decodeField_decodedValue (obis typ : string) (args : list string) (ty : type)
  (viaPtr : bool) (i : nat) (st : FillState) (v : value) :
  tagFits typ ty = true ->
  decodedValue typ args = Some v ->
  decodeField obis typ args ty viaPtr i st
  = Returns (mkFill (fs_ret st) (fs_data st) (store viaPtr i v (fs_sv st))).
Proof.
  unfold tagFits, decodedValue, decodeField, SetString, SetInt, SetFloat, SetGasRecord.
  intros Hfit Hv.
  repeat match goal with
         | H : context [if ?b then _ else _] |- _ => destruct b eqn:?
         end;
    try apply bool_decide_eq_true_1 in Hfit; try rewrite Hfit;
    repeat match goal with
           | H : context [match ?x with _ => _ end] |- _ => destruct x eqn:?
           end;
    try discriminate; by injection Hv as <-.
Qed.

Lemma decodeField_unknownKind (obis typ : string) (args : list string) (ty : type)
  (viaPtr : bool) (i : nat) (st : FillState) :
  knownKind typ = false ->
  decodeField obis typ args ty viaPtr i st = Returns st.
Proof.
  unfold knownKind, decodeField. intros Hk.
  repeat apply orb_false_elim in Hk as [Hk ?].
  by repeat match goal with H : String.eqb _ _ = false |- _ => rewrite H; clear H end.
Qed.

Lemma decodeField_valid_keeps_errors (obis typ : string) (args : list string)
  (ty : type) (viaPtr : bool) (i : nat) (st : FillState) :
  tagFits typ ty = true ->
  validationError obis typ args = None ->
  exists st', decodeField obis typ args ty viaPtr i st = Returns st' /\
              fs_ret st' = fs_ret st.
Proof.
  intros Hfit Hval.
  destruct (knownKind typ) eqn:Hk.
  - destruct (decodedValue typ args) as [v |] eqn:Hv.
    + rewrite (decodeField_decodedValue _ _ _ _ _ _ _ v) by done. by eexists.
    + exfalso. revert Hk Hval Hv. unfold knownKind, validationError, decodedValue.
      repeat match goal with
             | |- context [match ?x with _ => _ end] => destruct x eqn:?
             end; simpl; try done; intros; simpl in *; congruence.
  - rewrite decodeField_unknownKind by done. by eexists.
Qed.

(** X9.  An entry whose code is present with arguments that decode: the
    decoded value is stored in the field, behind a fresh pointer for a
    pointer field, no error is added, and the code is gone from the
    mapping that [fillStruct] leaves. *)
Theorem fillStruct_present_decodes (pre post : list StructField)
  (f : StructField) (obis : string) (args : list string) (v : value)
  (sv : list value) (data : gmap string (list string)) :
  forallb wellTaggedField (pre ++ f :: post) = true ->
  length sv = length (pre ++ f :: post) ->
  Tag_Lookup (Tag f) "obis" = Some obis ->
  obis ∉ obisCodes pre ->
  data !! obis = Some args ->
  decodedValue (default "" (Tag_Lookup (Tag f) "type")) args = Some v ->
  exists st1 errs sv' data',
    fillFields pre 0 (mkFill [] data sv) = Returns st1 /\
    fillField (length pre) f st1
    = Returns (mkFill (fs_ret st1) (delete obis (fs_data st1))
                 (<[length pre := if isPtr (Type_ f) then VPtr (Some v) else v]>
                    (fs_sv st1))) /\
    fillStruct (TStruct (pre ++ f :: post)) (VStruct sv) data
    = Returns (errs, VStruct sv', data') /\
    sv' !! length pre = Some (if isPtr (Type_ f) then VPtr (Some v) else v) /\
    data' !! obis = None.
Proof.
  intros Hwt Hlen Htag Hfresh Hpresent Hv.
  destruct (fillStruct_at_entry pre post f sv data Hwt Hlen)
    as (st1 & st2 & st' & Hpre & Hf & Hpost & Hfill & Hd1 & _ & Hlt & Hfinal & _).
  assert (Hsome : fs_data st1 !! obis = Some args).
  { rewrite Hd1, Hpresent. by rewrite bool_decide_eq_false_2. }
  assert (Hfit := wellTaggedField_fits f obis
                    ltac:(rewrite forallb_app in Hwt; simpl in Hwt;
                          by apply andb_prop in Hwt as [_ [? _]%andb_prop]) Htag).
  assert (Hstep : fillField (length pre) f st1
                  = Returns (mkFill (fs_ret st1) (delete obis (fs_data st1))
                               (<[length pre := if isPtr (Type_ f) then VPtr (Some v) else v]>
                                  (fs_sv st1)))).
  { rewrite (fillField_present _ _ _ obis args Htag Hsome).
    rewrite (decodeField_decodedValue _ _ _ _ _ _ _ v Hfit Hv). simpl.
    destruct (isPtr (Type_ f)); [by rewrite store_store | done]. }
  rewrite Hstep in Hf. injection Hf as <-. simpl in *.
  exists st1, (fs_ret st'), (fs_sv st'), (fs_data st').
  repeat split; try done.
  - rewrite Hfinal. by apply list_lookup_insert_eq.
  - apply fillFields_effect in Hpost as (_ & _ & _ & Hd3).
    rewrite Hd3. simpl. rewrite lookup_delete_eq. by destruct (bool_decide _).
Qed.

(** X10.  A non-pointer field whose "type" tag is none of the decode kinds
    that [fillStruct] knows, as the tag "log" of [PowerFailuresLog]: the
    field is never written, whether its code is present or not, and when
    the code is present it is removed from the mapping without an error,
    so that its arguments reach neither the field nor [Other]. *)
Theorem fillStruct_unknown_kind (pre post : list StructField) (f : StructField)
  (obis : string) (sv : list value) (data : gmap string (list string)) :
  forallb wellTaggedField (pre ++ f :: post) = true ->
  length sv = length (pre ++ f :: post) ->
  Tag_Lookup (Tag f) "obis" = Some obis ->
  knownKind (default "" (Tag_Lookup (Tag f) "type")) = false ->
  isPtr (Type_ f) = false ->
  exists st1 st2 errs sv' data',
    fillFields pre 0 (mkFill [] data sv) = Returns st1 /\
    fillField (length pre) f st1 = Returns st2 /\
    fillStruct (TStruct (pre ++ f :: post)) (VStruct sv) data
    = Returns (errs, VStruct sv', data') /\
    sv' !! length pre = sv !! length pre /\
    data' !! obis = None /\
    (is_Some (fs_data st1 !! obis) -> fs_ret st2 = fs_ret st1).
Proof.
  intros Hwt Hlen Htag Hkind Hptr.
  destruct (fillStruct_at_entry pre post f sv data Hwt Hlen)
    as (st1 & st2 & st' & Hpre & Hf & Hpost & Hfill & Hd1 & Hslot & Hlt & Hfinal & _).
  exists st1, st2, (fs_ret st'), (fs_sv st'), (fs_data st').
  assert (Hdel : fs_data st' !! obis = None).
  { pose proof Hf as Hf'.
    apply fillField_effect in Hf' as (_ & _ & _ & Hd2). rewrite Htag in Hd2.
    apply fillFields_effect in Hpost as (_ & _ & _ & Hd3).
    rewrite Hd3, Hd2, lookup_delete_eq. by destruct (bool_decide _). }
  destruct (fs_data st1 !! obis) as [args |] eqn:Hlook.
  - rewrite (fillField_present _ _ _ obis args Htag Hlook), Hptr in Hf.
    rewrite decodeField_unknownKind in Hf by done. injection Hf as <-. simpl in *.
    split; [done |]. split.
    { rewrite (fillField_present _ _ _ obis args Htag Hlook), Hptr.
      by rewrite decodeField_unknownKind. }
    split; [done |]. split; [by rewrite Hfinal, <- Hslot |]. by split.
  - rewrite (fillField_absent _ _ _ obis Htag Hlook), Hptr in Hf.
    injection Hf as <-. simpl in *.
    split; [done |]. split.
    { by rewrite (fillField_absent _ _ _ obis Htag Hlook), Hptr. }
    split; [done |]. split; [by rewrite Hfinal, <- Hslot |].
    split; [done | by intros [? ?]].
Qed.

Lemma omap_ext_elem_of {A B : Type} (f g : A -> option B) (l : list A) :
  (forall x, x ∈ l -> f x = g x) -> omap f l = omap g l.
Proof.
  induction l as [|x l IH]; intros Hext; [done |].
  assert (Hl : omap f l = omap g l).
  { apply IH. intros y Hy. apply Hext. by apply list_elem_of_further. }
  change (omap f (x :: l)) with (match f x with Some y => y :: omap f l | None => omap f l end).
  change (omap g (x :: l)) with (match g x with Some y => y :: omap g l | None => omap g l end).
  by rewrite (Hext x), Hl by apply list_elem_of_here.
Qed.

Lemma entryError_ext (d d' : gmap string (list string)) (f : StructField) :
  (forall obis, Tag_Lookup (Tag f) "obis" = Some obis -> d !! obis = d' !! obis) ->
  entryError d f = entryError d' f.
Proof.
  unfold entryError. intros Hext.
  destruct (Tag_Lookup (Tag f) "obis") as [obis |]; [| done].
  by rewrite (Hext obis).
Qed.

Lemma fillField_errors (i : nat) (f : StructField) (st st' : FillState) :
  wellTaggedField f = true ->
  fillField i f st = Returns st' ->
  fs_ret st' = fs_ret st ++ option_list (entryError (fs_data st) f).
Proof.
  intros Hwt Hf. unfold entryError.
  destruct (Tag_Lookup (Tag f) "obis") as [obis |] eqn:Htag.
  2:{ rewrite fillField_untagged in Hf by done. injection Hf as <-.
      by rewrite app_nil_r. }
  destruct (fs_data st !! obis) as [args |] eqn:Hlook.
  - rewrite (fillField_present _ _ _ obis args Htag Hlook) in Hf.
    destruct (validationError obis (default "" (Tag_Lookup (Tag f) "type")) args)
      as [err |] eqn:Hval.
    + rewrite (decodeField_validationError _ _ _ _ _ _ _ err Hval) in Hf.
      by injection Hf as <-.
    + destruct (decodeField_valid_keeps_errors obis _ args _ (isPtr (Type_ f)) i
                  (mkFill (fs_ret st) (delete obis (fs_data st))
                     (if isPtr (Type_ f)
                      then store true i (zero (Elem (Type_ f))) (fs_sv st)
                      else fs_sv st))
                  (wellTaggedField_fits f obis Hwt Htag) Hval) as (st2 & Hdec & Hret).
      rewrite Hdec in Hf. injection Hf as <-. rewrite Hret. simpl.
      by rewrite app_nil_r.
  - rewrite (fillField_absent _ _ _ obis Htag Hlook) in Hf. injection Hf as <-.
    destruct (isPtr (Type_ f)); simpl; [by rewrite app_nil_r | done].
Qed.

Lemma fillFields_errors (fs : list StructField) (i : nat) (st st' : FillState) :
  forallb wellTaggedField fs = true ->
  NoDup (obisCodes fs) ->
  fillFields fs i st = Returns st' ->
  fs_ret st' = fs_ret st ++ omap (entryError (fs_data st)) fs.
Proof.
  revert i st. induction fs as [|f fs IH]; intros i st Hwt Hnd Hrun.
  - injection Hrun as <-. simpl. by rewrite app_nil_r.
  - simpl in Hwt. apply andb_prop in Hwt as [Hf Hfs]. simpl in Hrun.
    destruct (fillField i f st) as [st1 | msg] eqn:Hstep; [| done].
    rewrite outcome_bind_Returns in Hrun.
    pose proof (fillField_errors _ _ _ _ Hf Hstep) as Hret1.
    pose proof (fillField_effect _ _ _ _ Hstep) as (_ & _ & _ & Hd1).
    assert (Hnd' : NoDup (obisCodes fs)).
    { unfold obisCodes in *. simpl in Hnd.
      destruct (Tag_Lookup (Tag f) "obis"); [by apply NoDup_cons in Hnd as [_ ?] | done]. }
    rewrite (IH _ _ Hfs Hnd' Hrun), Hret1, <- app_assoc. f_equal.
    simpl omap at 2.
    assert (Hsame : omap (entryError (fs_data st1)) fs = omap (entryError (fs_data st)) fs).
    { apply omap_ext_elem_of. intros g Hg. apply entryError_ext.
      intros obis' Hg'. rewrite Hd1.
      destruct (Tag_Lookup (Tag f) "obis") as [obis |] eqn:Htag; [| done].
      apply lookup_delete_ne. intros ->.
      unfold obisCodes in Hnd. simpl in Hnd. rewrite Htag in Hnd.
      apply NoDup_cons in Hnd as [Hfresh _]. apply Hfresh.
      apply list_elem_of_omap. by exists g. }
    by destruct (entryError (fs_data st) f); rewrite Hsame.
Qed.

End Fill2.

(** ** Decoding a telegram: its errors and its blocks *)

Section Decode2.
Context {golib : GoLibraries}.

(* The errors of fillStruct, entry by entry. *)
Lemma fillStruct_entryErrors (fs : list StructField) (sv : list value)
  (data : gmap string (list string)) :
  forallb wellTaggedField fs = true ->
  NoDup (obisCodes fs) ->
  exists sv' data',
    fillStruct (TStruct fs) (VStruct sv) data
    = Returns (omap (entryError data) fs, VStruct sv', data').
Proof.
  intros Hwt Hnd.
  destruct (fillFields_returns fs 0 (mkFill [] data sv) Hwt) as [st' Hrun].
  exists (fs_sv st'), (fs_data st'). unfold fillStruct.
  rewrite Hrun, outcome_bind_Returns.
  by rewrite (fillFields_errors _ _ _ _ Hwt Hnd Hrun).
Qed.

(** X11.  For a registry with distinct codes, the error slice that
    [fillStruct] returns is, in field order, the errors of its entries:
    "Missing data" for an absent code of a non-pointer field, the
    validation error of a present code, nothing otherwise. *)
Theorem fillStruct_error_list (fs : list StructField) (sv : list value)
  (data : gmap string (list string)) :
  forallb wellTaggedField fs = true ->
  NoDup (obisCodes fs) ->
  exists sv' data',
    fillStruct (TStruct fs) (VStruct sv) data
    = Returns (omap (entryError data) fs, VStruct sv', data').
Proof. intros. by eapply fillStruct_entryErrors. Qed.

Lemma remainder_entryErrors (data d : gmap string (list string))
  (claimedCodes : list string) (fs : list StructField) :
  remainder data claimedCodes d ->
  apart (obisCodes fs) claimedCodes ->
  omap (entryError d) fs = omap (entryError data) fs.
Proof.
  intros Hrem Hapart. apply omap_ext_elem_of. intros f Hf.
  apply entryError_ext. intros obis Htag. rewrite Hrem.
  rewrite bool_decide_eq_false_2; [done |].
  unfold apart in Hapart. rewrite Forall_forall in Hapart. apply Hapart.
  apply list_elem_of_omap. by exists f.
Qed.

(** One block of [readTelegram], on a mapping that is [data] without the
    codes claimed so far. *)
Lemma fillBlock_stage (data d : gmap string (list string)) (claimedCodes : list string)
  (marker : string) (fs : list StructField) (name : string)
  (errs : list string) (vs : list value) :
  forallb wellTaggedField fs = true ->
  NoDup (obisCodes fs) ->
  remainder data claimedCodes d ->
  marker ∉ claimedCodes ->
  apart (obisCodes fs) claimedCodes ->
  exists vs' d',
    fillBlock marker (TStruct fs) name (errs, VStruct vs, d)
    = Returns (errs ++ match data !! marker with
                       | Some _ => omap (entryError data) fs
                       | None => []
                       end,
               VStruct vs', d') /\
    remainder data (claimedCodes ++ match data !! marker with
                                    | Some _ => obisCodes fs
                                    | None => []
                                    end) d' /\
    length vs' = length vs /\
    (forall j, field_index (fields_of Telegram) name <> Some j -> vs' !! j = vs !! j) /\
    (forall j, field_index (fields_of Telegram) name = Some j ->
               (j < length vs)%nat ->
               match data !! marker with
               | Some _ => exists sv', vs' !! j = Some (VPtr (Some (VStruct sv'))) /\
                                       length sv' = length fs
               | None => vs' !! j = vs !! j
               end).
Proof.
  intros Hwt Hnd Hrem Hmarker Hapart.
  assert (Hm : d !! marker = data !! marker).
  { rewrite Hrem. by rewrite bool_decide_eq_false_2. }
  unfold fillBlock. rewrite Hm.
  destruct (data !! marker) as [margs |] eqn:Hdm.
  - rewrite zero_struct.
    destruct (fillStruct_effect fs (zeros fs) d Hwt)
      as (e & sv' & d' & Hfill & Hlen & _ & Hd').
    destruct (fillStruct_entryErrors fs (zeros fs) d Hwt Hnd) as (sv2 & d2 & Hfill2).
    rewrite Hfill in Hfill2. injection Hfill2 as -> _ _.
    rewrite Hfill, outcome_bind_Returns. cbv beta iota.
    rewrite (remainder_entryErrors data d claimedCodes fs Hrem Hapart).
    unfold set_field.
    destruct (field_index (fields_of Telegram) name) as [i |] eqn:Hidx.
    + eexists _, _. split; [reflexivity |].
      split.
      { intros c. rewrite Hd', Hrem.
        destruct (bool_decide (c ∈ obisCodes fs)) eqn:Hc1,
                 (bool_decide (c ∈ claimedCodes)) eqn:Hc2.
        all: try apply bool_decide_eq_true_1 in Hc1.
        all: try apply bool_decide_eq_true_1 in Hc2.
        all: try apply bool_decide_eq_false_1 in Hc1.
        all: try apply bool_decide_eq_false_1 in Hc2.
        - by rewrite bool_decide_eq_true_2 by (apply elem_of_app; by left).
        - by rewrite bool_decide_eq_true_2 by (apply elem_of_app; by right).
        - by rewrite bool_decide_eq_true_2 by (apply elem_of_app; by left).
        - rewrite bool_decide_eq_false_2; [done |].
          by intros [? | ?]%elem_of_app. }
      split; [apply length_insert |]. split.
      * intros j Hj. apply list_lookup_insert_ne. congruence.
      * intros j [= ->] Hlt. exists sv'. split; [by apply list_lookup_insert_eq |].
        rewrite Hlen. unfold zeros. apply length_fmap.
    + eexists _, _. split; [reflexivity |].
      split.
      { intros c. rewrite Hd', Hrem.
        destruct (bool_decide (c ∈ obisCodes fs)) eqn:Hc1,
                 (bool_decide (c ∈ claimedCodes)) eqn:Hc2.
        all: try apply bool_decide_eq_true_1 in Hc1.
        all: try apply bool_decide_eq_true_1 in Hc2.
        all: try apply bool_decide_eq_false_1 in Hc1.
        all: try apply bool_decide_eq_false_1 in Hc2.
        - by rewrite bool_decide_eq_true_2 by (apply elem_of_app; by left).
        - by rewrite bool_decide_eq_true_2 by (apply elem_of_app; by right).
        - by rewrite bool_decide_eq_true_2 by (apply elem_of_app; by left).
        - rewrite bool_decide_eq_false_2; [done |].
          by intros [? | ?]%elem_of_app. }
      repeat split; done.
  - rewrite !app_nil_r. unfold mret, outcome_ret.
    eexists _, _. split; [reflexivity |]. repeat split; done.
Qed.

Lemma notin_mono (c : string) (codes codes' : list string) :
  codes' ⊆ codes -> c ∉ codes -> c ∉ codes'.
Proof. intros Hsub Hc Hin. apply Hc, Hsub, Hin. Qed.

Lemma apart_mono (cs codes codes' : list string) :
  codes' ⊆ codes -> apart cs codes -> apart cs codes'.
Proof.
  unfold apart. intros Hsub Hap. eapply Forall_impl; [exact Hap |].
  intros c Hc. by eapply notin_mono.
Qed.

Lemma when_subseteq {A : Type} (o : option A) (codes : list string) :
  match o with Some _ => codes | None => [] end ⊆ codes.
Proof. destruct o; [done |]. intros x Hx. by apply elem_of_nil in Hx. Qed.

Lemma claimed2_subseteq {A : Type} (o : option A) (a b : list string) :
  a ++ match o with Some _ => b | None => [] end ⊆ a ++ b.
Proof.
  intros x [Hx | Hx]%elem_of_app; apply elem_of_app; [by left | right].
  by apply (when_subseteq o b).
Qed.

Lemma claimed3_subseteq {A : Type} (o1 o2 : option A) (a b c : list string) :
  (a ++ match o1 with Some _ => b | None => [] end)
  ++ match o2 with Some _ => c | None => [] end ⊆ (a ++ b) ++ c.
Proof.
  intros x [Hx | Hx]%elem_of_app; apply elem_of_app.
  - left. by apply (claimed2_subseteq o1 a b).
  - right. by apply (when_subseteq o2 c).
Qed.

(** The marker codes and the codes of the four registries keep apart. *)
Lemma registries_apart :
  ("1-0:1.8.1" ∉ obisCodes (fields_of Telegram)) /\
  ("1-0:41.7.0" ∉ obisCodes (fields_of Telegram) ++ obisCodes (fields_of ElectricityData)) /\
  ("0-1:24.2.1" ∉ (obisCodes (fields_of Telegram) ++ obisCodes (fields_of ElectricityData))
                  ++ obisCodes (fields_of MultiphaseElectricityData)) /\
  apart (obisCodes (fields_of ElectricityData)) (obisCodes (fields_of Telegram)) /\
  apart (obisCodes (fields_of MultiphaseElectricityData))
    (obisCodes (fields_of Telegram) ++ obisCodes (fields_of ElectricityData)) /\
  apart (obisCodes (fields_of GasData))
    ((obisCodes (fields_of Telegram) ++ obisCodes (fields_of ElectricityData))
     ++ obisCodes (fields_of MultiphaseElectricityData)).
Proof.
  unfold apart.
  repeat split; apply (bool_decide_unpack _); vm_compute; reflexivity.
Qed.

(** The whole of [decodeTelegram], stage by stage. *)
Lemma decodeTelegram_stages (vs : list value) (data : gmap string (list string)) :
  length vs = length (fields_of Telegram) ->
  exists vs3 d3,
    decodeTelegram (VStruct vs) data
    = Returns (Some (VStruct (<[10%nat := VMap (Some d3)]> vs3)),
               match expectedErrors data with
               | [] => None
               | errs => Some errs
               end) /\
    length vs3 = length vs /\
    match data !! "1-0:1.8.1" with
    | Some _ => exists sv', vs3 !! 2%nat = Some (VPtr (Some (VStruct sv'))) /\
                            length sv' = length (fields_of ElectricityData)
    | None => vs3 !! 2%nat = vs !! 2%nat
    end /\
    match data !! "1-0:41.7.0" with
    | Some _ => exists sv', vs3 !! 3%nat = Some (VPtr (Some (VStruct sv'))) /\
                            length sv' = length (fields_of MultiphaseElectricityData)
    | None => vs3 !! 3%nat = vs !! 3%nat
    end /\
    match data !! "0-1:24.2.1" with
    | Some _ => exists sv', vs3 !! 4%nat = Some (VPtr (Some (VStruct sv'))) /\
                            length sv' = length (fields_of GasData)
    | None => vs3 !! 4%nat = vs !! 4%nat
    end.
Proof.
  intros Hlen.
  destruct registries_wellTagged as (HwT & HwE & HwM & HwG).
  destruct registries_distinct_codes as (HnT & HnE & HnM & HnG & _).
  destruct registries_apart as (Hm1 & Hm2 & Hm3 & Ha1 & Ha2 & Ha3).
  unfold decodeTelegram.
  (* the fields of the Telegram itself *)
  destruct (fillStruct_effect (fields_of Telegram) vs data HwT)
    as (e0 & vs0 & d0 & Hfill & Hl0 & _ & Hd0).
  destruct (fillStruct_entryErrors (fields_of Telegram) vs data HwT HnT)
    as (vs0' & d0' & Hfill').
  remember (omap (entryError data) (fields_of Telegram)) as E0 eqn:HE0.
  rewrite Hfill in Hfill'. injection Hfill' as -> _ _.
  assert (Hslots : vs0 !! 2%nat = vs !! 2%nat /\ vs0 !! 3%nat = vs !! 3%nat
                   /\ vs0 !! 4%nat = vs !! 4%nat).
  { unfold fillStruct in Hfill.
    destruct (fillFields (fields_of Telegram) 0 (mkFill [] data vs)) as [st' | msg] eqn:Hrun;
      [| done].
    rewrite outcome_bind_Returns in Hfill. injection Hfill as _ <- _.
    split; [| split].
    - by apply (fillFields_untagged_slot _ 0 2
                  (Field "Electricity" (TPtr ElectricityData) []) _ _ Hrun).
    - by apply (fillFields_untagged_slot _ 0 3
                  (Field "MultiphaseElectricity" (TPtr MultiphaseElectricityData) []) _ _ Hrun).
    - by apply (fillFields_untagged_slot _ 0 4
                  (Field "Gas" (TPtr GasData) []) _ _ Hrun). }
  destruct Hslots as (Hs2 & Hs3 & Hs4).
  change (TStruct (fields_of Telegram)) with Telegram in Hfill.
  rewrite Hfill, outcome_bind_Returns. cbv beta iota.
  (* the three blocks *)
  destruct (fillBlock_stage data d0 (obisCodes (fields_of Telegram)) "1-0:1.8.1"
              (fields_of ElectricityData) "Electricity"
              ([] ++ E0) vs0 HwE HnE Hd0 Hm1 Ha1)
    as (vs1 & d1 & Hb1 & Hd1 & Hl1 & Ho1 & Hp1).
  change (TStruct (fields_of ElectricityData)) with ElectricityData in Hb1.
  rewrite Hb1, outcome_bind_Returns.
  match goal with
  | |- context [fillBlock "1-0:41.7.0" _ _ (?e, _, _)] =>
      destruct (fillBlock_stage data d1 _ "1-0:41.7.0"
                  (fields_of MultiphaseElectricityData) "MultiphaseElectricity" e vs1
                  HwM HnM Hd1
                  (notin_mono _ _ _ (claimed2_subseteq _ _ _) Hm2)
                  (apart_mono _ _ _ (claimed2_subseteq _ _ _) Ha2))
        as (vs2 & d2 & Hb2 & Hd2 & Hl2 & Ho2 & Hp2)
  end.
  change (TStruct (fields_of MultiphaseElectricityData))
    with MultiphaseElectricityData in Hb2.
  rewrite Hb2, outcome_bind_Returns.
  match goal with
  | |- context [fillBlock "0-1:24.2.1" _ _ (?e, _, _)] =>
      destruct (fillBlock_stage data d2 _ "0-1:24.2.1" (fields_of GasData) "Gas" e vs2
                  HwG HnG Hd2
                  (notin_mono _ _ _ (claimed3_subseteq _ _ _ _ _) Hm3)
                  (apart_mono _ _ _ (claimed3_subseteq _ _ _ _ _) Ha3))
        as (vs3 & d3 & Hb3 & Hd3 & Hl3 & Ho3 & Hp3)
  end.
  change (TStruct (fields_of GasData)) with GasData in Hb3.
  rewrite Hb3, outcome_bind_Returns. cbv beta iota.
  exists vs3, d3.
  assert (Hidx : forall name i, field_index (fields_of Telegram) name = Some i -> True)
    by done. clear Hidx.
  split.
  { unfold set_field.
    change (field_index (fields_of Telegram) "Other") with (Some 10%nat).
    cbv beta iota. unfold mret, outcome_ret. do 2 f_equal.
    unfold expectedErrors, entryErrors. subst E0.
    rewrite app_nil_l, <- !app_assoc.
    match goal with |- context [length ?l] => by destruct l end. }
  split; [congruence |].
  assert (H2 : field_index (fields_of Telegram) "Electricity" = Some 2%nat) by reflexivity.
  assert (H3 : field_index (fields_of Telegram) "MultiphaseElectricity" = Some 3%nat)
    by reflexivity.
  assert (H4 : field_index (fields_of Telegram) "Gas" = Some 4%nat) by reflexivity.
  assert (Hlt : (4 < length vs)%nat) by (rewrite Hlen; simpl; lia).
  split; [| split].
  - rewrite (Ho3 2%nat), (Ho2 2%nat) by (rewrite ?H3, ?H4; discriminate).
    specialize (Hp1 2%nat H2 ltac:(lia)).
    destruct (data !! "1-0:1.8.1"); [done | by rewrite Hp1].
  - rewrite (Ho3 3%nat) by (rewrite H4; discriminate).
    specialize (Hp2 3%nat H3 ltac:(lia)).
    destruct (data !! "1-0:41.7.0"); [done |].
    rewrite Hp2, (Ho1 3%nat) by (rewrite H2; discriminate). done.
  - specialize (Hp3 4%nat H4 ltac:(lia)).
    destruct (data !! "0-1:24.2.1"); [done |].
    rewrite Hp3, (Ho2 4%nat), (Ho1 4%nat) by (rewrite ?H2, ?H3; discriminate). done.
Qed.

(* The errors of the decode, registry by registry. *)
Lemma decodeTelegram_expectedErrors (vs : list value) (data : gmap string (list string)) :
  length vs = length (fields_of Telegram) ->
  exists t,
    decodeTelegram (VStruct vs) data
    = Returns (Some t, match expectedErrors data with
                       | [] => None
                       | errs => Some errs
                       end).
Proof.
  intros Hlen.
  destruct (decodeTelegram_stages vs data Hlen) as (vs3 & d3 & Hdec & _).
  by eexists.
Qed.

(** X12.  The error slice that decoding returns is made, in order, of the
    errors of the entries of [Telegram] and of those of each block whose
    marker code is in the mapping; it is nil when there is none. *)
Theorem decodeTelegram_errors (vs : list value) (data : gmap string (list string)) :
  length vs = length (fields_of Telegram) ->
  exists t,
    decodeTelegram (VStruct vs) data
    = Returns (Some t, match expectedErrors data with
                       | [] => None
                       | errs => Some errs
                       end).
Proof. intros. by eapply decodeTelegram_expectedErrors. Qed.

(* The blocks of the Telegram, marker by marker. *)
Lemma decodeTelegram_block_markers (vs : list value) (data : gmap string (list string)) :
  length vs = length (fields_of Telegram) ->
  exists t errs,
    decodeTelegram (VStruct vs) data = Returns (Some t, errs) /\
    match data !! "1-0:1.8.1" with
    | Some _ => exists sv', get_field Telegram "Electricity" t
                            = Some (VPtr (Some (VStruct sv'))) /\
                            length sv' = length (fields_of ElectricityData)
    | None => get_field Telegram "Electricity" t = vs !! 2%nat
    end /\
    match data !! "1-0:41.7.0" with
    | Some _ => exists sv', get_field Telegram "MultiphaseElectricity" t
                            = Some (VPtr (Some (VStruct sv'))) /\
                            length sv' = length (fields_of MultiphaseElectricityData)
    | None => get_field Telegram "MultiphaseElectricity" t = vs !! 3%nat
    end /\
    match data !! "0-1:24.2.1" with
    | Some _ => exists sv', get_field Telegram "Gas" t
                            = Some (VPtr (Some (VStruct sv'))) /\
                            length sv' = length (fields_of GasData)
    | None => get_field Telegram "Gas" t = vs !! 4%nat
    end.
Proof.
  intros Hlen.
  destruct (decodeTelegram_stages vs data Hlen)
    as (vs3 & d3 & Hdec & Hl3 & HE & HM & HG).
  eexists _, _. split; [exact Hdec |].
  unfold get_field.
  change (field_index (fields_of Telegram) "Electricity") with (Some 2%nat).
  change (field_index (fields_of Telegram) "MultiphaseElectricity") with (Some 3%nat).
  change (field_index (fields_of Telegram) "Gas") with (Some 4%nat).
  cbv beta iota.
  rewrite !list_lookup_insert_ne by lia. done.
Qed.

(** X13.  A block of the Telegram is set exactly when its marker code is
    in the mapping: 1-0:1.8.1 for [Electricity], 1-0:41.7.0 for
    [MultiphaseElectricity], 0-1:24.2.1 for [Gas].  With the marker the
    field points to a struct of the block's type, even if all other codes
    of the block are missing; without it the field keeps its value, nil
    in [readTelegram]. *)
Theorem decodeTelegram_blocks (vs : list value) (data : gmap string (list string)) :
  length vs = length (fields_of Telegram) ->
  exists t errs,
    decodeTelegram (VStruct vs) data = Returns (Some t, errs) /\
    match data !! "1-0:1.8.1" with
    | Some _ => exists sv', get_field Telegram "Electricity" t
                            = Some (VPtr (Some (VStruct sv'))) /\
                            length sv' = length (fields_of ElectricityData)
    | None => get_field Telegram "Electricity" t = vs !! 2%nat
    end /\
    match data !! "1-0:41.7.0" with
    | Some _ => exists sv', get_field Telegram "MultiphaseElectricity" t
                            = Some (VPtr (Some (VStruct sv'))) /\
                            length sv' = length (fields_of MultiphaseElectricityData)
    | None => get_field Telegram "MultiphaseElectricity" t = vs !! 3%nat
    end /\
    match data !! "0-1:24.2.1" with
    | Some _ => exists sv', get_field Telegram "Gas" t
                            = Some (VPtr (Some (VStruct sv'))) /\
                            length sv' = length (fields_of GasData)
    | None => get_field Telegram "Gas" t = vs !! 4%nat
    end.
Proof. intros. by eapply decodeTelegram_block_markers. Qed.

End Decode2.

Section Framing4.
Context {golib : GoLibraries}.

Lemma headerTelegram_struct (header : string) :
  headerTelegram header
  = VStruct (VString (slice_to 6 header)
             :: VString (TrimSpace (slice_from 6 header))
             :: drop 2 (zeros (fields_of Telegram))).
Proof. reflexivity. Qed.

(** X14.  A framed telegram whose checksum is valid and whose lines split
    into the mapping [data]: [readTelegram] returns a Telegram with the
    errors of the applied registry entries, and the goroutine of
    [NewMeter] sends the Telegram exactly when there is no such error,
    and logs the errors otherwise; the source is left after the footer
    line. *)
Theorem meterIteration_frame (header sep footer : string) (dlines rest : Reader)
  (e : option string) (fuel : nat) (data : gmap string (list string)) :
  HasPrefix header "/" = true ->
  (6 <= String.length header)%nat ->
  TrimSpace sep = "" ->
  Forall dataRead dlines ->
  HasPrefix footer "!" = true ->
  (length dlines < fuel)%nat ->
  checksumMatches (dataBody (header +:+ sep) dlines) footer ->
  parseLines (dataRawLines dlines) = Returns (inl data) ->
  exists t,
    readTelegram fuel ((header, None) :: (sep, None) :: dlines ++ (footer, e) :: rest)
    = Some (Returns (Some t,
                     match expectedErrors data with [] => None | errs => Some errs end,
                     rest)) /\
    meterIteration fuel ((header, None) :: (sep, None) :: dlines ++ (footer, e) :: rest)
    = Some (Returns (match expectedErrors data with
                     | [] => Send (Some t)
                     | errs => Log errs
                     end, rest)) /\
    get_field Telegram "HeaderMarker" t = Some (VString (slice_to 6 header)) /\
    get_field Telegram "HeaderId" t
    = Some (VString (TrimSpace (slice_from 6 header))).
Proof.
  intros Hh Hlen Hsep Hd Hf Hfuel Hsum Hparse.
  pose proof (readTelegram_framed header sep footer dlines rest e fuel
                Hh Hlen Hsep Hd Hf Hfuel) as Hframe.
  unfold checkAndDecode in Hframe.
  rewrite Hsum, Z.eqb_refl, Hparse, outcome_bind_Returns in Hframe.
  simpl negb in Hframe. cbv iota in Hframe.
  rewrite headerTelegram_struct in Hframe.
  destruct (decodeTelegram_expectedErrors
              (VString (slice_to 6 header) :: VString (TrimSpace (slice_from 6 header))
               :: drop 2 (zeros (fields_of Telegram))) data eq_refl) as [t Hdec].
  rewrite Hdec, outcome_bind_Returns in Hframe.
  exists t. split; [exact Hframe |]. split.
  - unfold meterIteration. rewrite Hframe. by destruct (expectedErrors data).
  - by apply decodeTelegram_header in Hdec.
Qed.

End Framing4.

Lemma meterIteration_frame_witness :
  exists t,
    meterIteration (golib := Reference.lib) 4 clean_telegram
    = Some (Returns (Send (Some t), [])) /\
    get_field Telegram "HeaderId" t = Some (VString "2MT382-1000").
Proof.
  assert (Hd : Forall dataRead [(line_P1Version, None); (line_TimeStamp, None);
                                (line_ID, @None string)]) by (repeat constructor).
  assert (Hlen : (6 <= String.length sample_header)%nat) by (vm_compute; lia).
  assert (Hfuel : (length [(line_P1Version, None); (line_TimeStamp, None);
                           (line_ID, @None string)] < 4)%nat) by (simpl; lia).
  assert (Hsum : checksumMatches (golib := Reference.lib)
                   (dataBody (sample_header +:+ Reference.CRLF)
                      [(line_P1Version, None); (line_TimeStamp, None); (line_ID, None)])
                   clean_footer) by (vm_compute; reflexivity).
  assert (Hparse : parseLines (dataRawLines (golib := Reference.lib)
                     [(line_P1Version, None); (line_TimeStamp, None); (line_ID, None)])
                   = Returns (inl (insertLines clean_rawLines ∅)))
    by (vm_compute; reflexivity).
  assert (Hnone : expectedErrors (golib := Reference.lib) (insertLines clean_rawLines ∅)
                  = []) by (vm_compute; reflexivity).
  destruct (meterIteration_frame (golib := Reference.lib) sample_header Reference.CRLF
              clean_footer _ [] None 4 _ eq_refl Hlen eq_refl Hd eq_refl Hfuel
              Hsum Hparse) as (t & _ & Hit & _ & Hid).
  rewrite Hnone in Hit. exists t. split; [exact Hit |].
  rewrite Hid. vm_compute. reflexivity.
Defined.

Lemma decodeTelegram_errors_witness :
  length (zeros (fields_of Telegram)) = length (fields_of Telegram) /\
  exists t,
    decodeTelegram (golib := Reference.lib) (VStruct (zeros (fields_of Telegram)))
      residual_data
    = Returns (Some t, Some ["Missing data for 1-3:0.2.8"; "Missing data for 0-0:1.0.0"]).
Proof.
  split; [reflexivity |].
  destruct (decodeTelegram_errors (golib := Reference.lib)
              (zeros (fields_of Telegram)) residual_data eq_refl) as [t Hdec].
  exists t. exact Hdec.
Defined.

Lemma decodeTelegram_blocks_witness :
  length (zeros (fields_of Telegram)) = length (fields_of Telegram) /\
  exists t errs sv',
    decodeTelegram (golib := Reference.lib) (VStruct (zeros (fields_of Telegram)))
      gas_data = Returns (Some t, errs) /\
    get_field Telegram "Electricity" t = Some (VPtr None) /\
    get_field Telegram "Gas" t = Some (VPtr (Some (VStruct sv'))).
Proof.
  split; [reflexivity |].
  destruct (decodeTelegram_blocks (golib := Reference.lib)
              (zeros (fields_of Telegram)) gas_data eq_refl)
    as (t & errs & Hdec & HE & _ & HG).
  assert (HmE : gas_data !! "1-0:1.8.1" = None) by reflexivity.
  assert (HmG : gas_data !! "0-1:24.2.1" = Some ["170108160000W"; "00012.345*m3"])
    by reflexivity.
  rewrite HmE in HE. rewrite HmG in HG. destruct HG as (sv' & HG & _).
  exists t, errs, sv'. split; [exact Hdec |]. split; [exact HE | exact HG].
Defined.

Lemma fillStruct_error_list_witness :
  forallb wellTaggedField (fields_of GasData) = true /\
  NoDup (obisCodes (fields_of GasData)) /\
  exists sv' data',
    fillStruct (golib := Reference.lib) GasData (VStruct (zeros (fields_of GasData)))
      gas_data
    = Returns (["Missing data for 0-1:24.1.0"; "Missing data for 0-1:96.1.0"],
               VStruct sv', data').
Proof.
  assert (Hnd : NoDup (obisCodes (fields_of GasData))).
  { apply (bool_decide_unpack _). vm_compute. reflexivity. }
  split; [reflexivity |]. split; [exact Hnd |].
  destruct (fillStruct_error_list (golib := Reference.lib) (fields_of GasData)
              (zeros (fields_of GasData)) gas_data eq_refl Hnd) as (sv' & data' & Hfill).
  exists sv', data'.
  change (TStruct (fields_of GasData)) with GasData in Hfill. rewrite Hfill.
  do 2 f_equal.
Defined.

Lemma fillStruct_present_decodes_witness :
  exists errs sv' data',
    fillStruct (golib := Reference.lib) GasData (VStruct (zeros (fields_of GasData)))
      gas_data = Returns (errs, VStruct sv', data') /\
    sv' !! 3%nat
    = Some (VStruct [VString "170108160000W";
                     VFloat32 (Float32.mul (Float32.of_decimal 12345 3) (Float32.of_Z 1))]) /\
    data' !! "0-1:24.2.1" = None.
Proof.
  assert (Hfresh : "0-1:24.2.1" ∉ obisCodes gas_pre).
  { apply (bool_decide_unpack _). vm_compute. reflexivity. }
  assert (Hpresent : gas_data !! "0-1:24.2.1" = Some ["170108160000W"; "00012.345*m3"])
    by reflexivity.
  assert (Hv : decodedValue (golib := Reference.lib) "gasrecord"
                 ["170108160000W"; "00012.345*m3"]
               = Some (VStruct [VString "170108160000W";
                                VFloat32 (Float32.mul (Float32.of_decimal 12345 3)
                                            (Float32.of_Z 1))]))
    by (vm_compute; reflexivity).
  destruct (fillStruct_present_decodes (golib := Reference.lib) gas_pre [] gas_LastRecord
              "0-1:24.2.1" _ _ (zeros (fields_of GasData)) gas_data
              eq_refl eq_refl eq_refl Hfresh Hpresent Hv)
    as (st1 & errs & sv' & data' & _ & _ & Hfill & Hslot & Hgone).
  exists errs, sv', data'. split; [exact Hfill |]. split; [exact Hslot | exact Hgone].
Defined.

Lemma fillStruct_unknown_kind_witness :
  exists errs sv' data',
    fillStruct (golib := Reference.lib) ElectricityData
      (VStruct (zeros (fields_of ElectricityData))) log_data
    = Returns (errs, VStruct sv', data') /\
    sv' !! 11%nat = Some (VString "") /\
    data' !! "1-0:99.97.0" = None.
Proof.
  destruct (fillStruct_unknown_kind (golib := Reference.lib) log_pre log_post log_field
              "1-0:99.97.0" (zeros (fields_of ElectricityData)) log_data
              eq_refl eq_refl eq_refl eq_refl eq_refl)
    as (st1 & st2 & errs & sv' & data' & _ & _ & Hfill & Hslot & Hgone & _).
  exists errs, sv', data'. split; [exact Hfill |]. split; [exact Hslot | exact Hgone].
Defined.

Section Framing5.
Context {golib : GoLibraries}.


(** X16.  At the end of the source the goroutine of [NewMeter] does not
    stop: every iteration finds the end while waiting for a header, logs
    the error and goes on, without sending anything. *)
Theorem meterLoop_at_end (n fuel : nat) :
  (0 < fuel)%nat ->
  meterLoop n fuel [] = Some (Returns (repeat (Log ["EOF"]) n, [])).
Proof.
  intros Hfuel. destruct fuel as [|fuel]; [lia |].
  induction n as [|n IH]; [done |].
  simpl meterLoop.
  change (meterIteration (S fuel) []) with (Some (Returns (Log ["EOF"], @nil (string * option string)))).
  cbv beta iota. by rewrite IH.
Qed.

End Framing5.


Lemma meterLoop_at_end_witness :
  (0 < 1)%nat /\
  meterLoop (golib := Reference.lib) 3 1 []
  = Some (Returns ([Log ["EOF"]; Log ["EOF"]; Log ["EOF"]], [])).
Proof.
  split; [lia |].
  apply (meterLoop_at_end (golib := Reference.lib) 3 1). lia.
Defined.

(** ** The munin plugin *)

(** X15.  The plugin reads the electricity block and the gas block of the
    telegram it has fetched without testing the pointers: it panics,
    having printed nothing, when one of the two is nil; otherwise it
    prints its five lines and returns. *)
Theorem munin_main_nil_block (int64_of_float32 : float32 -> Z)
  (FormatInt : Z -> string) (prog : string) (telegram : value) :
  (deref Telegram "Electricity" telegram = None \/
   deref Telegram "Gas" telegram = None ->
   munin_main int64_of_float32 FormatInt [prog] (Got (Some telegram))
   = ([], Panic "invalid memory address or nil pointer dereference")) /\
  (is_Some (deref Telegram "Electricity" telegram) ->
   is_Some (deref Telegram "Gas" telegram) ->
   exists kWh dm3,
     munin_main int64_of_float32 FormatInt [prog] (Got (Some telegram))
     = (["multigraph p1_kWh"; "kWh.value " +:+ kWh; "";
         "multigraph p1_dm3"; "dm3.value " +:+ dm3], Return)) /\
  (get_field Telegram "Electricity" telegram = Some (VPtr None) ->
   deref Telegram "Electricity" telegram = None) /\
  (get_field Telegram "Gas" telegram = Some (VPtr None) ->
   deref Telegram "Gas" telegram = None).
Proof.
  unfold munin_main. simpl Nat.eqb. cbv iota.
  split; [| split; [| split]].
  - intros [HE | HG].
    + by rewrite HE.
    + rewrite HG. by destruct (deref Telegram "Electricity" telegram).
  - intros [e ->] [g ->]. by eexists _, _.
  - unfold deref. by intros ->.
  - unfold deref. by intros ->.
Qed.

Lemma munin_main_nil_block_witness :
  deref Telegram "Gas" (zero Telegram) = None /\
  munin_main (fun _ => 0%Z) (fun _ => "0") ["dsmrp1-munin"] (Got (Some (zero Telegram)))
  = ([], Panic "invalid memory address or nil pointer dereference").
Proof.
  split; [reflexivity |].
  apply (munin_main_nil_block (fun _ => 0%Z) (fun _ => "0") "dsmrp1-munin" (zero Telegram)).
  right. reflexivity.
Defined.

(** X17.  The decoder and the plugin together: a telegram decoded from
    data without the code 1-0:1.8.1 or without the code 0-1:24.2.1, as
    that of a meter with no gas meter behind it, makes the plugin panic
    before it prints anything, also when the decoding gave no error and
    the telegram was sent on the channel. *)
Theorem munin_main_missing_marker {golib : GoLibraries}
  (int64_of_float32 : float32 -> Z) (FormatInt : Z -> string) (prog header : string)
  (data : gmap string (list string)) :
  data !! "1-0:1.8.1" = None \/ data !! "0-1:24.2.1" = None ->
  exists t,
    decodeTelegram (headerTelegram header) data
    = Returns (Some t, match expectedErrors data with
                       | [] => None
                       | errs => Some errs
                       end) /\
    munin_main int64_of_float32 FormatInt [prog] (Got (Some t))
    = ([], Panic "invalid memory address or nil pointer dereference").
Proof.
  intros Hno. rewrite headerTelegram_struct.
  set (vs := VString (slice_to 6 header)
             :: VString (TrimSpace (slice_from 6 header))
             :: drop 2 (zeros (fields_of Telegram))).
  assert (Hlen : length vs = length (fields_of Telegram)) by reflexivity.
  destruct (decodeTelegram_expectedErrors vs data Hlen) as [t Hdec].
  destruct (decodeTelegram_block_markers vs data Hlen) as (t' & errs & Hdec' & HE & _ & HG).
  rewrite Hdec in Hdec'. injection Hdec' as <- _.
  exists t. split; [exact Hdec |].
  unfold munin_main, deref. simpl Nat.eqb. cbv iota.
  destruct Hno as [Hno | Hno].
  - rewrite Hno in HE. by rewrite HE.
  - rewrite Hno in HG. rewrite HG.
    by destruct (get_field Telegram "Electricity" t) as [[| | | | [?|] |]|].
Qed.

Lemma munin_main_missing_marker_witness :
  exists t,
    insertLines clean_rawLines ∅ !! "0-1:24.2.1" = None /\
    decodeTelegram (golib := Reference.lib) (headerTelegram (golib := Reference.lib) sample_header)
      (insertLines clean_rawLines ∅)
    = Returns (Some t, None) /\
    munin_main (fun _ => 0%Z) (fun _ => "0") ["dsmrp1-munin"] (Got (Some t))
    = ([], Panic "invalid memory address or nil pointer dereference").
Proof.
  assert (Hno : insertLines clean_rawLines ∅ !! "0-1:24.2.1" = None)
    by (vm_compute; reflexivity).
  assert (Hnone : expectedErrors (golib := Reference.lib) (insertLines clean_rawLines ∅)
                  = []) by (vm_compute; reflexivity).
  destruct (munin_main_missing_marker (golib := Reference.lib) (fun _ => 0%Z)
              (fun _ => "0") "dsmrp1-munin" sample_header
              (insertLines clean_rawLines ∅) (or_intror Hno)) as (t & Hdec & Hm).
  rewrite Hnone in Hdec. exists t. split; [exact Hno |]. split; [exact Hdec | exact Hm].
Defined.

(** ** The merge of continuation lines, in full *)

Lemma mergeLines_continuations (ks rest acc : list string) (last : string) :
  Forall (fun k => HasPrefix k "(" = true) ks ->
  mergeLines (ks ++ rest) (acc ++ [last])
  = mergeLines rest (acc ++ [foldl String.append last ks]).
Proof.
  revert last. induction ks as [|k ks IH]; intros last Hks; [done |].
  apply Forall_cons in Hks as [Hk Hks].
  rewrite <- app_comm_cons, mergeLines_continuation by done.
  by rewrite IH.
Qed.

Lemma mergeLines_groups (groups : list (string * list string)) (acc : list string) :
  Forall properGroup groups ->
  mergeLines (ungroup groups) acc = Returns (acc ++ (joinGroup <$> groups)).
Proof.
  revert acc. induction groups as [|[c ks] groups IH]; intros acc Hg.
  - simpl. by rewrite app_nil_r.
  - apply Forall_cons in Hg as [[Hc Hks] Hg]. simpl in Hc, Hks.
    unfold ungroup. rewrite fmap_cons. simpl concat.
    rewrite mergeLines_code_line by done.
    rewrite mergeLines_continuations by done.
    fold (ungroup groups). rewrite IH by done.
    rewrite <- app_assoc. reflexivity.
Qed.

(** Raw lines are continuation lines followed by groups. *)
Lemma ungroup_exists (rawLines : list string) :
  exists ks groups,
    rawLines = ks ++ ungroup groups /\
    Forall (fun k => HasPrefix k "(" = true) ks /\
    Forall properGroup groups.
Proof.
  induction rawLines as [|raw rest (ks & groups & -> & Hks & Hg)].
  - exists [], []. by repeat split.
  - destruct (HasPrefix raw "(") eqn:Hp.
    + exists (raw :: ks), groups. repeat split; [| done]. by constructor.
    + exists [], ((raw, ks) :: groups). repeat split; [done |].
      constructor; [| done]. by split.
Qed.

Lemma startsWithCode_ungroup (rawLines : list string) :
  startsWithCode rawLines ->
  exists groups, Forall properGroup groups /\ rawLines = ungroup groups.
Proof.
  intros Hstart.
  destruct (ungroup_exists rawLines) as (ks & groups & -> & Hks & Hg).
  destruct ks as [|k ks].
  - by exists groups.
  - apply Forall_cons in Hks as [Hk _]. simpl in Hstart. congruence.
Qed.

(** C9.  When the first raw line does not begin with '(' the merge loop of
    [parseLines] returns (it never indexes before the start of [lines]),
    and what it returns is fixed: the raw lines are, in one way or
    another, groups of a code line and the continuation lines after it,
    and the merge gives one line for each group, the code line with its
    continuation lines appended in order; no line is lost and no other
    line is changed.  Step by step: a line that does not begin with '('
    is added at the end, a continuation line is appended to the last
    accumulated line and to no other, and at the end of the raw lines
    the accumulated lines are returned.  The precondition is needed: a
    first raw line that begins with '(' makes [lines[len(lines)-1]] panic
    on the empty slice. *)
Theorem parseLines_merge_safe (rawLines : list string) :
  startsWithCode rawLines ->
  (exists lines, mergeLines rawLines [] = Returns lines) /\
  (exists parsed, parseLines rawLines = Returns parsed) /\
  (forall raw rest acc last,
      HasPrefix raw "(" = true ->
      mergeLines (raw :: rest) (acc ++ [last])
      = mergeLines rest (acc ++ [last +:+ raw])) /\
  (forall raw rest,
      HasPrefix raw "(" = true ->
      mergeLines (raw :: rest) [] = Panics "index out of range [-1]" /\
      parseLines (raw :: rest) = Panics "index out of range [-1]") /\
  (exists groups, Forall properGroup groups /\ rawLines = ungroup groups) /\
  (forall groups,
      Forall properGroup groups ->
      rawLines = ungroup groups ->
      mergeLines rawLines [] = Returns (joinGroup <$> groups)) /\
  (forall raw rest acc,
      HasPrefix raw "(" = false ->
      mergeLines (raw :: rest) acc = mergeLines rest (acc ++ [raw])) /\
  (forall acc, mergeLines [] acc = Returns acc).
Proof.
  intros Hstart.
  destruct (startsWithCode_ungroup rawLines Hstart) as (groups & Hg & Heq).
  assert (Hret : mergeLines rawLines [] = Returns (joinGroup <$> groups)).
  { rewrite Heq. by rewrite mergeLines_groups. }
  split; [eauto |]. split.
  { unfold parseLines. rewrite Hret. simpl. eauto. }
  split; [intros; by apply mergeLines_continuation |]. split.
  { intros raw rest Hp. unfold parseLines. simpl. rewrite Hp. simpl. done. }
  split; [eauto |]. split.
  { intros groups' Hg' ->. by rewrite mergeLines_groups. }
  split; [intros; by apply mergeLines_code_line | done].
Qed.

Lemma parseLines_merge_safe_witness :
  startsWithCode sample_rawLines /\
  mergeLines sample_rawLines []
  = Returns ["1-0:99.97.0(2)(0-0:96.7.19)(101208152415W)(0000000240*s)";
             "0-0:1.0.0(x)"].
Proof.
  split; [reflexivity |].
  assert (Hg : Forall properGroup sample_groups).
  { repeat constructor. }
  destruct (parseLines_merge_safe sample_rawLines eq_refl)
    as (_ & _ & _ & _ & _ & Hmerge & _).
  exact (Hmerge sample_groups Hg eq_refl).
Defined.

(** ** The goroutine of [NewMeter] on a framed telegram *)

Section Driver.
Context {golib : GoLibraries}.

(** C1 (as amended).  A framed telegram whose checksum is valid and whose
    lines split into the mapping [data]: [readTelegram] returns, and
    returns the Telegram that the decoding of [data] gives, with the
    header fields from the header line and each block set exactly when
    its marker code is in [data], together with the field-level errors:
    in order, the errors of the entries of [Telegram] and of the blocks
    that are set ("Missing data" for an absent code of a required field,
    the validation error of a present code), the error slice being nil
    when there is none.  The goroutine of [NewMeter] sends the Telegram
    on the channel exactly when the error slice is nil; a Telegram that
    comes with field-level errors is logged and not sent.  Whenever
    [readTelegram] returns, it returns a Telegram with nil or a non-empty
    error slice, or a fatal error without a Telegram, which is logged. *)
Theorem meterIteration_sends_error_free_telegrams :
  (forall (header sep footer : string) (dlines rest : Reader) (e : option string)
          (fuel : nat) (data : gmap string (list string)),
      HasPrefix header "/" = true ->
      (6 <= String.length header)%nat ->
      TrimSpace sep = "" ->
      Forall dataRead dlines ->
      HasPrefix footer "!" = true ->
      (length dlines < fuel)%nat ->
      checksumMatches (dataBody (header +:+ sep) dlines) footer ->
      parseLines (dataRawLines dlines) = Returns (inl data) ->
      let r := (header, None) :: (sep, None) :: dlines ++ (footer, e) :: rest in
      let errs := match expectedErrors data with [] => None | l => Some l end in
      exists t,
        readTelegram fuel r = Some (Returns (Some t, errs, rest)) /\
        decodeTelegram (headerTelegram header) data = Returns (Some t, errs) /\
        get_field Telegram "HeaderMarker" t = Some (VString (slice_to 6 header)) /\
        get_field Telegram "HeaderId" t
        = Some (VString (TrimSpace (slice_from 6 header))) /\
        match data !! "1-0:1.8.1" with
        | Some _ => exists sv, get_field Telegram "Electricity" t
                               = Some (VPtr (Some (VStruct sv))) /\
                               length sv = length (fields_of ElectricityData)
        | None => get_field Telegram "Electricity" t = Some (VPtr None)
        end /\
        match data !! "1-0:41.7.0" with
        | Some _ => exists sv, get_field Telegram "MultiphaseElectricity" t
                               = Some (VPtr (Some (VStruct sv))) /\
                               length sv = length (fields_of MultiphaseElectricityData)
        | None => get_field Telegram "MultiphaseElectricity" t = Some (VPtr None)
        end /\
        match data !! "0-1:24.2.1" with
        | Some _ => exists sv, get_field Telegram "Gas" t
                               = Some (VPtr (Some (VStruct sv))) /\
                               length sv = length (fields_of GasData)
        | None => get_field Telegram "Gas" t = Some (VPtr None)
        end /\
        meterIteration fuel r
        = Some (Returns (match expectedErrors data with
                         | [] => Send (Some t)
                         | l => Log l
                         end, rest))) /\
  (forall (vs : list value) (body : string) (rawLines : list string)
          (footer : string) (data : gmap string (list string)),
      checksumMatches body footer ->
      parseLines rawLines = Returns (inl data) ->
      exists t errs,
        checkAndDecode (VStruct vs) body rawLines footer = Returns (Some t, errs) /\
        errs <> Some []) /\
  (forall (fuel : nat) (r r' : Reader) (res : Result),
      readTelegram fuel r = Some (Returns (res, r')) ->
      (exists t, res = (Some t, None) /\
                 meterIteration fuel r = Some (Returns (Send (Some t), r'))) \/
      (exists t errs, res = (Some t, Some errs) /\ errs <> [] /\
                      meterIteration fuel r = Some (Returns (Log errs, r'))) \/
      (exists e, res = (None, Some [e]) /\
                 meterIteration fuel r = Some (Returns (Log [e], r')))).
Proof.
  split; [| split; [apply checkAndDecode_valid |]].
  - intros header sep footer dlines rest e fuel data
           Hh Hlen Hsep Hd Hf Hfuel Hsum Hparse r errs.
    pose proof (readTelegram_framed header sep footer dlines rest e fuel
                  Hh Hlen Hsep Hd Hf Hfuel) as Hframe.
    fold r in Hframe. unfold checkAndDecode in Hframe.
    rewrite Hsum, Z.eqb_refl, Hparse, outcome_bind_Returns in Hframe.
    simpl negb in Hframe. cbv iota in Hframe.
    rewrite headerTelegram_struct in Hframe |- *.
    set (vs := VString (slice_to 6 header)
               :: VString (TrimSpace (slice_from 6 header))
               :: drop 2 (zeros (fields_of Telegram))) in *.
    assert (Hvs : length vs = length (fields_of Telegram)) by reflexivity.
    destruct (decodeTelegram_expectedErrors vs data Hvs) as [t Hdec].
    fold errs in Hdec.
    destruct (decodeTelegram_block_markers vs data Hvs)
      as (t' & errs' & Hdec' & HE & HM & HG).
    rewrite Hdec in Hdec'. injection Hdec' as <- _.
    assert (H2 : vs !! 2%nat = Some (VPtr None)) by reflexivity.
    assert (H3 : vs !! 3%nat = Some (VPtr None)) by reflexivity.
    assert (H4 : vs !! 4%nat = Some (VPtr None)) by reflexivity.
    rewrite H2 in HE. rewrite H3 in HM. rewrite H4 in HG.
    rewrite Hdec, outcome_bind_Returns in Hframe.
    exists t. split; [exact Hframe |]. split; [exact Hdec |].
    destruct (decodeTelegram_header vs data t errs Hvs Hdec) as [Hm Hi].
    split; [exact Hm |]. split; [exact Hi |].
    split; [exact HE |]. split; [exact HM |]. split; [exact HG |].
    unfold meterIteration. rewrite Hframe. subst errs.
    by destruct (expectedErrors data).
  - intros fuel r r' res Hread. unfold meterIteration. rewrite Hread.
    destruct (readTelegram_shape _ _ _ _ Hread) as [[e ->] | (t & errs & -> & Hne)].
    + right. right. by exists e.
    + destruct errs as [errs |].
      * right. left. exists t, errs. repeat split; congruence.
      * left. by exists t.
Qed.

End Driver.

Lemma meterIteration_sends_error_free_telegrams_witness :
  (exists t,
      readTelegram (golib := Reference.lib) 4 clean_telegram
      = Some (Returns (Some t, None, [])) /\
      get_field Telegram "HeaderId" t = Some (VString "2MT382-1000") /\
      get_field Telegram "Gas" t = Some (VPtr None) /\
      meterIteration (golib := Reference.lib) 4 clean_telegram
      = Some (Returns (Send (Some t), []))) /\
  (exists t,
      readTelegram (golib := Reference.lib) 2 incomplete_telegram
      = Some (Returns (Some t,
                       Some ["Missing data for 1-3:0.2.8"; "Missing data for 0-0:1.0.0"],
                       [])) /\
      meterIteration (golib := Reference.lib) 2 incomplete_telegram
      = Some (Returns (Log ["Missing data for 1-3:0.2.8"; "Missing data for 0-0:1.0.0"],
                       []))).
Proof.
  assert (Hlen : (6 <= String.length sample_header)%nat) by (vm_compute; lia).
  split.
  - assert (Hd : Forall dataRead [(line_P1Version, None); (line_TimeStamp, None);
                                  (line_ID, @None string)]) by (repeat constructor).
    assert (Hfuel : (length [(line_P1Version, None); (line_TimeStamp, None);
                             (line_ID, @None string)] < 4)%nat) by (simpl; lia).
    assert (Hsum : checksumMatches (golib := Reference.lib)
                     (dataBody (sample_header +:+ Reference.CRLF)
                        [(line_P1Version, None); (line_TimeStamp, None); (line_ID, None)])
                     clean_footer) by (vm_compute; reflexivity).
    assert (Hparse : parseLines (dataRawLines (golib := Reference.lib)
                       [(line_P1Version, None); (line_TimeStamp, None); (line_ID, None)])
                     = Returns (inl (insertLines clean_rawLines ∅)))
      by (vm_compute; reflexivity).
    assert (Hnone : expectedErrors (golib := Reference.lib) (insertLines clean_rawLines ∅)
                    = []) by (vm_compute; reflexivity).
    assert (Hgas : insertLines clean_rawLines ∅ !! "0-1:24.2.1" = None)
      by (vm_compute; reflexivity).
    destruct (proj1 (meterIteration_sends_error_free_telegrams (golib := Reference.lib))
                sample_header Reference.CRLF clean_footer _ [] None 4 _
                eq_refl Hlen eq_refl Hd eq_refl Hfuel Hsum Hparse)
      as (t & Hread & _ & _ & Hid & _ & _ & HG & Hit).
    rewrite Hnone in Hread, Hit. rewrite Hgas in HG.
    exists t. split; [exact Hread |]. split; [| split; [exact HG | exact Hit]].
    rewrite Hid. vm_compute. reflexivity.
  - assert (Hd : Forall dataRead [(line_ID, @None string)]) by (repeat constructor).
    assert (Hfuel : (length [(line_ID, @None string)] < 2)%nat) by (simpl; lia).
    assert (Hsum : checksumMatches (golib := Reference.lib)
                     (dataBody (sample_header +:+ Reference.CRLF) [(line_ID, None)])
                     incomplete_footer) by (vm_compute; reflexivity).
    assert (Hparse : parseLines (dataRawLines (golib := Reference.lib) [(line_ID, None)])
                     = Returns (inl (insertLines incomplete_rawLines ∅)))
      by (vm_compute; reflexivity).
    assert (Herrs : expectedErrors (golib := Reference.lib)
                      (insertLines incomplete_rawLines ∅)
                    = ["Missing data for 1-3:0.2.8"; "Missing data for 0-0:1.0.0"])
      by (vm_compute; reflexivity).
    destruct (proj1 (meterIteration_sends_error_free_telegrams (golib := Reference.lib))
                sample_header Reference.CRLF incomplete_footer _ [] None 2 _
                eq_refl Hlen eq_refl Hd eq_refl Hfuel Hsum Hparse)
      as (t & Hread & _ & _ & _ & _ & _ & _ & Hit).
    rewrite Herrs in Hread, Hit.
    exists t. split; [exact Hread | exact Hit].
Defined.
